(** * Relasi4Warna: quiz scoring and the compatibility matrix

    A shallow embedding of the two deterministic parts of
    [backend/server.py]:

    - the scoring block of [submit_quiz], which turns the submitted
      answers into archetype counts, a primary and a secondary archetype,
      a balance index and a stress flag;
    - the static [COMPATIBILITY_MATRIX] with the two handlers that read
      it, [get_compatibility_pair] and [get_compatibility_for_archetype];
    - the handlers around them: the matrix summary and the share cards,
      [get_archetype], the quiz handlers with their writes, payments,
      couples packs, team packs and the seven-day challenge, over a
      document store whose collections are lists.

    Python values are embedded as follows.  [str] is the [string] of its
    UTF-8 bytes, and [str.lower] is the operation of CPython on the code
    points, with its case tables; [int] is [Z]; a [float] is the dyadic rational it denotes; the ordered
    dict [scores] is an association list, because its insertion order
    decides ties; the compatibility table, whose order is never observed
    by the two handlers, is a [gmap]; a raised exception is a value of
    the error monad [py]. *)

From Stdlib Require Import ZArith String Ascii.
From stdpp Require Import gmap strings list sorting pretty.

Local Open Scope string_scope.
Local Open Scope Z_scope.

(** ** Exceptions *)

Inductive exn : Type :=
  | HTTPException (status_code : Z) (detail : string)
  | KeyError (key : string)
  | IndexError
  | ValueError
  | ZeroDivisionError.

Inductive py (A : Type) : Type :=
  | Return (a : A)
  | Raise (e : exn).

Arguments Return {A} a.
Arguments Raise {A} e.

#[global] Instance py_ret : MRet py := λ A a, Return a.

#[global] Instance py_fmap : FMap py := λ A B f c,
  match c with
  | Return a => Return (f a)
  | Raise e => Raise e
  end.

#[global] Instance py_bind : MBind py := λ A B k c,
  match c with
  | Return a => k a
  | Raise e => Raise e
  end.

(** ** Strings *)

(** A [string] holds the UTF-8 bytes of a Python [str].  [utf8_decode]
    reads the code points; a byte that is not part of a well-formed
    sequence, which no [str] has, is kept as the value [0x110000 + byte],
    so that [utf8_encode] writes it back. *)
Definition is_continuation (b : N) : bool := ((0x80 <=? b) && (b <? 0xC0))%N.

(** The first code point of [s] with the number of bytes it takes. *)
Definition utf8_first (s : string) : N * nat :=
  let byte i := match String.get i s with Some c => N_of_ascii c | None => 0%N end in
  let b0 := byte 0%nat in
  let b1 := byte 1%nat in
  let b2 := byte 2%nat in
  let b3 := byte 3%nat in
  let p2 := ((b0 - 0xC0) * 0x40 + (b1 - 0x80))%N in
  let p3 := ((b0 - 0xE0) * 0x1000 + (b1 - 0x80) * 0x40 + (b2 - 0x80))%N in
  let p4 := ((b0 - 0xF0) * 0x40000 + (b1 - 0x80) * 0x1000
             + (b2 - 0x80) * 0x40 + (b3 - 0x80))%N in
  if (b0 <? 0x80)%N then (b0, 1%nat)
  else if ((0xC0 <=? b0) && (b0 <? 0xE0) && is_continuation b1 && (0x80 <=? p2))%N
  then (p2, 2%nat)
  else if ((0xE0 <=? b0) && (b0 <? 0xF0) && is_continuation b1 && is_continuation b2
           && (0x800 <=? p3))%N
  then (p3, 3%nat)
  else if ((0xF0 <=? b0) && (b0 <? 0xF8) && is_continuation b1 && is_continuation b2
           && is_continuation b3 && (0x10000 <=? p4) && (p4 <? 0x110000))%N
  then (p4, 4%nat)
  else ((0x110000 + b0)%N, 1%nat).

(** [utf8_decode_from skip s] skips [skip] bytes and reads the code points
    of the rest. *)
Fixpoint utf8_decode_from (skip : nat) (s : string) : list N :=
  match s with
  | EmptyString => []
  | String _ s' =>
      match skip with
      | S skip' => utf8_decode_from skip' s'
      | O => (utf8_first s).1 :: utf8_decode_from (Nat.pred (utf8_first s).2) s'
      end
  end.

Definition utf8_decode (s : string) : list N := utf8_decode_from 0 s.

Definition bytes (l : list N) : string :=
  fold_right (λ b s, String (ascii_of_N b) s) EmptyString l.

Definition utf8_encode_point (p : N) : string :=
  (if p <? 0x80 then bytes [p]
   else if p <? 0x800 then bytes [0xC0 + p / 0x40; 0x80 + p mod 0x40]
   else if p <? 0x10000 then
     bytes [0xE0 + p / 0x1000; 0x80 + (p / 0x40) mod 0x40; 0x80 + p mod 0x40]
   else if p <? 0x110000 then
     bytes [0xF0 + p / 0x40000; 0x80 + (p / 0x1000) mod 0x40;
            0x80 + (p / 0x40) mod 0x40; 0x80 + p mod 0x40]
   else bytes [p - 0x110000])%N.

Definition utf8_encode (l : list N) : string :=
  fold_right (λ p s, utf8_encode_point p +:+ s) EmptyString l.

(** The case data of [str.lower], from the Unicode 14.0.0 database of
    CPython 3.11: the simple lowercase mapping of every code point that
    has one (U+0130 apart, which lowers to two code points, and U+03A3,
    which depends on its context), and the ranges of the [Cased] and of
    the [Case_Ignorable] code points. *)
Definition to_lower_table : list (N * N) :=
  [
(0x41, 0x61); (0x42, 0x62); (0x43, 0x63); (0x44, 0x64);
    (0x45, 0x65); (0x46, 0x66); (0x47, 0x67); (0x48, 0x68);
    (0x49, 0x69); (0x4A, 0x6A); (0x4B, 0x6B); (0x4C, 0x6C);
    (0x4D, 0x6D); (0x4E, 0x6E); (0x4F, 0x6F); (0x50, 0x70);
    (0x51, 0x71); (0x52, 0x72); (0x53, 0x73); (0x54, 0x74);
    (0x55, 0x75); (0x56, 0x76); (0x57, 0x77); (0x58, 0x78);
    (0x59, 0x79); (0x5A, 0x7A); (0xC0, 0xE0); (0xC1, 0xE1);
    (0xC2, 0xE2); (0xC3, 0xE3); (0xC4, 0xE4); (0xC5, 0xE5);
    (0xC6, 0xE6); (0xC7, 0xE7); (0xC8, 0xE8); (0xC9, 0xE9);
    (0xCA, 0xEA); (0xCB, 0xEB); (0xCC, 0xEC); (0xCD, 0xED);
    (0xCE, 0xEE); (0xCF, 0xEF); (0xD0, 0xF0); (0xD1, 0xF1);
    (0xD2, 0xF2); (0xD3, 0xF3); (0xD4, 0xF4); (0xD5, 0xF5);
    (0xD6, 0xF6); (0xD8, 0xF8); (0xD9, 0xF9); (0xDA, 0xFA);
    (0xDB, 0xFB); (0xDC, 0xFC); (0xDD, 0xFD); (0xDE, 0xFE);
    (0x100, 0x101); (0x102, 0x103); (0x104, 0x105); (0x106, 0x107);
    (0x108, 0x109); (0x10A, 0x10B); (0x10C, 0x10D); (0x10E, 0x10F);
    (0x110, 0x111); (0x112, 0x113); (0x114, 0x115); (0x116, 0x117);
    (0x118, 0x119); (0x11A, 0x11B); (0x11C, 0x11D); (0x11E, 0x11F);
    (0x120, 0x121); (0x122, 0x123); (0x124, 0x125); (0x126, 0x127);
    (0x128, 0x129); (0x12A, 0x12B); (0x12C, 0x12D); (0x12E, 0x12F);
    (0x132, 0x133); (0x134, 0x135); (0x136, 0x137); (0x139, 0x13A);
    (0x13B, 0x13C); (0x13D, 0x13E); (0x13F, 0x140); (0x141, 0x142);
    (0x143, 0x144); (0x145, 0x146); (0x147, 0x148); (0x14A, 0x14B);
    (0x14C, 0x14D); (0x14E, 0x14F); (0x150, 0x151); (0x152, 0x153);
    (0x154, 0x155); (0x156, 0x157); (0x158, 0x159); (0x15A, 0x15B);
    (0x15C, 0x15D); (0x15E, 0x15F); (0x160, 0x161); (0x162, 0x163);
    (0x164, 0x165); (0x166, 0x167); (0x168, 0x169); (0x16A, 0x16B);
    (0x16C, 0x16D); (0x16E, 0x16F); (0x170, 0x171); (0x172, 0x173);
    (0x174, 0x175); (0x176, 0x177); (0x178, 0xFF); (0x179, 0x17A);
    (0x17B, 0x17C); (0x17D, 0x17E); (0x181, 0x253); (0x182, 0x183);
    (0x184, 0x185); (0x186, 0x254); (0x187, 0x188); (0x189, 0x256);
    (0x18A, 0x257); (0x18B, 0x18C); (0x18E, 0x1DD); (0x18F, 0x259);
    (0x190, 0x25B); (0x191, 0x192); (0x193, 0x260); (0x194, 0x263);
    (0x196, 0x269); (0x197, 0x268); (0x198, 0x199); (0x19C, 0x26F);
    (0x19D, 0x272); (0x19F, 0x275); (0x1A0, 0x1A1); (0x1A2, 0x1A3);
    (0x1A4, 0x1A5); (0x1A6, 0x280); (0x1A7, 0x1A8); (0x1A9, 0x283);
    (0x1AC, 0x1AD); (0x1AE, 0x288); (0x1AF, 0x1B0); (0x1B1, 0x28A);
    (0x1B2, 0x28B); (0x1B3, 0x1B4); (0x1B5, 0x1B6); (0x1B7, 0x292);
    (0x1B8, 0x1B9); (0x1BC, 0x1BD); (0x1C4, 0x1C6); (0x1C5, 0x1C6);
    (0x1C7, 0x1C9); (0x1C8, 0x1C9); (0x1CA, 0x1CC); (0x1CB, 0x1CC);
    (0x1CD, 0x1CE); (0x1CF, 0x1D0); (0x1D1, 0x1D2); (0x1D3, 0x1D4);
    (0x1D5, 0x1D6); (0x1D7, 0x1D8); (0x1D9, 0x1DA); (0x1DB, 0x1DC);
    (0x1DE, 0x1DF); (0x1E0, 0x1E1); (0x1E2, 0x1E3); (0x1E4, 0x1E5);
    (0x1E6, 0x1E7); (0x1E8, 0x1E9); (0x1EA, 0x1EB); (0x1EC, 0x1ED);
    (0x1EE, 0x1EF); (0x1F1, 0x1F3); (0x1F2, 0x1F3); (0x1F4, 0x1F5);
    (0x1F6, 0x195); (0x1F7, 0x1BF); (0x1F8, 0x1F9); (0x1FA, 0x1FB);
    (0x1FC, 0x1FD); (0x1FE, 0x1FF); (0x200, 0x201); (0x202, 0x203);
    (0x204, 0x205); (0x206, 0x207); (0x208, 0x209); (0x20A, 0x20B);
    (0x20C, 0x20D); (0x20E, 0x20F); (0x210, 0x211); (0x212, 0x213);
    (0x214, 0x215); (0x216, 0x217); (0x218, 0x219); (0x21A, 0x21B);
    (0x21C, 0x21D); (0x21E, 0x21F); (0x220, 0x19E); (0x222, 0x223);
    (0x224, 0x225); (0x226, 0x227); (0x228, 0x229); (0x22A, 0x22B);
    (0x22C, 0x22D); (0x22E, 0x22F); (0x230, 0x231); (0x232, 0x233);
    (0x23A, 0x2C65); (0x23B, 0x23C); (0x23D, 0x19A); (0x23E, 0x2C66);
    (0x241, 0x242); (0x243, 0x180); (0x244, 0x289); (0x245, 0x28C);
    (0x246, 0x247); (0x248, 0x249); (0x24A, 0x24B); (0x24C, 0x24D);
    (0x24E, 0x24F); (0x370, 0x371); (0x372, 0x373); (0x376, 0x377);
    (0x37F, 0x3F3); (0x386, 0x3AC); (0x388, 0x3AD); (0x389, 0x3AE);
    (0x38A, 0x3AF); (0x38C, 0x3CC); (0x38E, 0x3CD); (0x38F, 0x3CE);
    (0x391, 0x3B1); (0x392, 0x3B2); (0x393, 0x3B3); (0x394, 0x3B4);
    (0x395, 0x3B5); (0x396, 0x3B6); (0x397, 0x3B7); (0x398, 0x3B8);
    (0x399, 0x3B9); (0x39A, 0x3BA); (0x39B, 0x3BB); (0x39C, 0x3BC);
    (0x39D, 0x3BD); (0x39E, 0x3BE); (0x39F, 0x3BF); (0x3A0, 0x3C0);
    (0x3A1, 0x3C1); (0x3A4, 0x3C4); (0x3A5, 0x3C5); (0x3A6, 0x3C6);
    (0x3A7, 0x3C7); (0x3A8, 0x3C8); (0x3A9, 0x3C9); (0x3AA, 0x3CA);
    (0x3AB, 0x3CB); (0x3CF, 0x3D7); (0x3D8, 0x3D9); (0x3DA, 0x3DB);
    (0x3DC, 0x3DD); (0x3DE, 0x3DF); (0x3E0, 0x3E1); (0x3E2, 0x3E3);
    (0x3E4, 0x3E5); (0x3E6, 0x3E7); (0x3E8, 0x3E9); (0x3EA, 0x3EB);
    (0x3EC, 0x3ED); (0x3EE, 0x3EF); (0x3F4, 0x3B8); (0x3F7, 0x3F8);
    (0x3F9, 0x3F2); (0x3FA, 0x3FB); (0x3FD, 0x37B); (0x3FE, 0x37C);
    (0x3FF, 0x37D); (0x400, 0x450); (0x401, 0x451); (0x402, 0x452);
    (0x403, 0x453); (0x404, 0x454); (0x405, 0x455); (0x406, 0x456);
    (0x407, 0x457); (0x408, 0x458); (0x409, 0x459); (0x40A, 0x45A);
    (0x40B, 0x45B); (0x40C, 0x45C); (0x40D, 0x45D); (0x40E, 0x45E);
    (0x40F, 0x45F); (0x410, 0x430); (0x411, 0x431); (0x412, 0x432);
    (0x413, 0x433); (0x414, 0x434); (0x415, 0x435); (0x416, 0x436);
    (0x417, 0x437); (0x418, 0x438); (0x419, 0x439); (0x41A, 0x43A);
    (0x41B, 0x43B); (0x41C, 0x43C); (0x41D, 0x43D); (0x41E, 0x43E);
    (0x41F, 0x43F); (0x420, 0x440); (0x421, 0x441); (0x422, 0x442);
    (0x423, 0x443); (0x424, 0x444); (0x425, 0x445); (0x426, 0x446);
    (0x427, 0x447); (0x428, 0x448); (0x429, 0x449); (0x42A, 0x44A);
    (0x42B, 0x44B); (0x42C, 0x44C); (0x42D, 0x44D); (0x42E, 0x44E);
    (0x42F, 0x44F); (0x460, 0x461); (0x462, 0x463); (0x464, 0x465);
    (0x466, 0x467); (0x468, 0x469); (0x46A, 0x46B); (0x46C, 0x46D);
    (0x46E, 0x46F); (0x470, 0x471); (0x472, 0x473); (0x474, 0x475);
    (0x476, 0x477); (0x478, 0x479); (0x47A, 0x47B); (0x47C, 0x47D);
    (0x47E, 0x47F); (0x480, 0x481); (0x48A, 0x48B); (0x48C, 0x48D);
    (0x48E, 0x48F); (0x490, 0x491); (0x492, 0x493); (0x494, 0x495);
    (0x496, 0x497); (0x498, 0x499); (0x49A, 0x49B); (0x49C, 0x49D);
    (0x49E, 0x49F); (0x4A0, 0x4A1); (0x4A2, 0x4A3); (0x4A4, 0x4A5);
    (0x4A6, 0x4A7); (0x4A8, 0x4A9); (0x4AA, 0x4AB); (0x4AC, 0x4AD);
    (0x4AE, 0x4AF); (0x4B0, 0x4B1); (0x4B2, 0x4B3); (0x4B4, 0x4B5);
    (0x4B6, 0x4B7); (0x4B8, 0x4B9); (0x4BA, 0x4BB); (0x4BC, 0x4BD);
    (0x4BE, 0x4BF); (0x4C0, 0x4CF); (0x4C1, 0x4C2); (0x4C3, 0x4C4);
    (0x4C5, 0x4C6); (0x4C7, 0x4C8); (0x4C9, 0x4CA); (0x4CB, 0x4CC);
    (0x4CD, 0x4CE); (0x4D0, 0x4D1); (0x4D2, 0x4D3); (0x4D4, 0x4D5);
    (0x4D6, 0x4D7); (0x4D8, 0x4D9); (0x4DA, 0x4DB); (0x4DC, 0x4DD);
    (0x4DE, 0x4DF); (0x4E0, 0x4E1); (0x4E2, 0x4E3); (0x4E4, 0x4E5);
    (0x4E6, 0x4E7); (0x4E8, 0x4E9); (0x4EA, 0x4EB); (0x4EC, 0x4ED);
    (0x4EE, 0x4EF); (0x4F0, 0x4F1); (0x4F2, 0x4F3); (0x4F4, 0x4F5);
    (0x4F6, 0x4F7); (0x4F8, 0x4F9); (0x4FA, 0x4FB); (0x4FC, 0x4FD);
    (0x4FE, 0x4FF); (0x500, 0x501); (0x502, 0x503); (0x504, 0x505);
    (0x506, 0x507); (0x508, 0x509); (0x50A, 0x50B); (0x50C, 0x50D);
    (0x50E, 0x50F); (0x510, 0x511); (0x512, 0x513); (0x514, 0x515);
    (0x516, 0x517); (0x518, 0x519); (0x51A, 0x51B); (0x51C, 0x51D);
    (0x51E, 0x51F); (0x520, 0x521); (0x522, 0x523); (0x524, 0x525);
    (0x526, 0x527); (0x528, 0x529); (0x52A, 0x52B); (0x52C, 0x52D);
    (0x52E, 0x52F); (0x531, 0x561); (0x532, 0x562); (0x533, 0x563);
    (0x534, 0x564); (0x535, 0x565); (0x536, 0x566); (0x537, 0x567);
    (0x538, 0x568); (0x539, 0x569); (0x53A, 0x56A); (0x53B, 0x56B);
    (0x53C, 0x56C); (0x53D, 0x56D); (0x53E, 0x56E); (0x53F, 0x56F);
    (0x540, 0x570); (0x541, 0x571); (0x542, 0x572); (0x543, 0x573);
    (0x544, 0x574); (0x545, 0x575); (0x546, 0x576); (0x547, 0x577);
    (0x548, 0x578); (0x549, 0x579); (0x54A, 0x57A); (0x54B, 0x57B);
    (0x54C, 0x57C); (0x54D, 0x57D); (0x54E, 0x57E); (0x54F, 0x57F);
    (0x550, 0x580); (0x551, 0x581); (0x552, 0x582); (0x553, 0x583);
    (0x554, 0x584); (0x555, 0x585); (0x556, 0x586); (0x10A0, 0x2D00);
    (0x10A1, 0x2D01); (0x10A2, 0x2D02); (0x10A3, 0x2D03); (0x10A4, 0x2D04);
    (0x10A5, 0x2D05); (0x10A6, 0x2D06); (0x10A7, 0x2D07); (0x10A8, 0x2D08);
    (0x10A9, 0x2D09); (0x10AA, 0x2D0A); (0x10AB, 0x2D0B); (0x10AC, 0x2D0C);
    (0x10AD, 0x2D0D); (0x10AE, 0x2D0E); (0x10AF, 0x2D0F); (0x10B0, 0x2D10);
    (0x10B1, 0x2D11); (0x10B2, 0x2D12); (0x10B3, 0x2D13); (0x10B4, 0x2D14);
    (0x10B5, 0x2D15); (0x10B6, 0x2D16); (0x10B7, 0x2D17); (0x10B8, 0x2D18);
    (0x10B9, 0x2D19); (0x10BA, 0x2D1A); (0x10BB, 0x2D1B); (0x10BC, 0x2D1C);
    (0x10BD, 0x2D1D); (0x10BE, 0x2D1E); (0x10BF, 0x2D1F); (0x10C0, 0x2D20);
    (0x10C1, 0x2D21); (0x10C2, 0x2D22); (0x10C3, 0x2D23); (0x10C4, 0x2D24);
    (0x10C5, 0x2D25); (0x10C7, 0x2D27); (0x10CD, 0x2D2D); (0x13A0, 0xAB70);
    (0x13A1, 0xAB71); (0x13A2, 0xAB72); (0x13A3, 0xAB73); (0x13A4, 0xAB74);
    (0x13A5, 0xAB75); (0x13A6, 0xAB76); (0x13A7, 0xAB77); (0x13A8, 0xAB78);
    (0x13A9, 0xAB79); (0x13AA, 0xAB7A); (0x13AB, 0xAB7B); (0x13AC, 0xAB7C);
    (0x13AD, 0xAB7D); (0x13AE, 0xAB7E); (0x13AF, 0xAB7F); (0x13B0, 0xAB80);
    (0x13B1, 0xAB81); (0x13B2, 0xAB82); (0x13B3, 0xAB83); (0x13B4, 0xAB84);
    (0x13B5, 0xAB85); (0x13B6, 0xAB86); (0x13B7, 0xAB87); (0x13B8, 0xAB88);
    (0x13B9, 0xAB89); (0x13BA, 0xAB8A); (0x13BB, 0xAB8B); (0x13BC, 0xAB8C);
    (0x13BD, 0xAB8D); (0x13BE, 0xAB8E); (0x13BF, 0xAB8F); (0x13C0, 0xAB90);
    (0x13C1, 0xAB91); (0x13C2, 0xAB92); (0x13C3, 0xAB93); (0x13C4, 0xAB94);
    (0x13C5, 0xAB95); (0x13C6, 0xAB96); (0x13C7, 0xAB97); (0x13C8, 0xAB98);
    (0x13C9, 0xAB99); (0x13CA, 0xAB9A); (0x13CB, 0xAB9B); (0x13CC, 0xAB9C);
    (0x13CD, 0xAB9D); (0x13CE, 0xAB9E); (0x13CF, 0xAB9F); (0x13D0, 0xABA0);
    (0x13D1, 0xABA1); (0x13D2, 0xABA2); (0x13D3, 0xABA3); (0x13D4, 0xABA4);
    (0x13D5, 0xABA5); (0x13D6, 0xABA6); (0x13D7, 0xABA7); (0x13D8, 0xABA8);
    (0x13D9, 0xABA9); (0x13DA, 0xABAA); (0x13DB, 0xABAB); (0x13DC, 0xABAC);
    (0x13DD, 0xABAD); (0x13DE, 0xABAE); (0x13DF, 0xABAF); (0x13E0, 0xABB0);
    (0x13E1, 0xABB1); (0x13E2, 0xABB2); (0x13E3, 0xABB3); (0x13E4, 0xABB4);
    (0x13E5, 0xABB5); (0x13E6, 0xABB6); (0x13E7, 0xABB7); (0x13E8, 0xABB8);
    (0x13E9, 0xABB9); (0x13EA, 0xABBA); (0x13EB, 0xABBB); (0x13EC, 0xABBC);
    (0x13ED, 0xABBD); (0x13EE, 0xABBE); (0x13EF, 0xABBF); (0x13F0, 0x13F8);
    (0x13F1, 0x13F9); (0x13F2, 0x13FA); (0x13F3, 0x13FB); (0x13F4, 0x13FC);
    (0x13F5, 0x13FD); (0x1C90, 0x10D0); (0x1C91, 0x10D1); (0x1C92, 0x10D2);
    (0x1C93, 0x10D3); (0x1C94, 0x10D4); (0x1C95, 0x10D5); (0x1C96, 0x10D6);
    (0x1C97, 0x10D7); (0x1C98, 0x10D8); (0x1C99, 0x10D9); (0x1C9A, 0x10DA);
    (0x1C9B, 0x10DB); (0x1C9C, 0x10DC); (0x1C9D, 0x10DD); (0x1C9E, 0x10DE);
    (0x1C9F, 0x10DF); (0x1CA0, 0x10E0); (0x1CA1, 0x10E1); (0x1CA2, 0x10E2);
    (0x1CA3, 0x10E3); (0x1CA4, 0x10E4); (0x1CA5, 0x10E5); (0x1CA6, 0x10E6);
    (0x1CA7, 0x10E7); (0x1CA8, 0x10E8); (0x1CA9, 0x10E9); (0x1CAA, 0x10EA);
    (0x1CAB, 0x10EB); (0x1CAC, 0x10EC); (0x1CAD, 0x10ED); (0x1CAE, 0x10EE);
    (0x1CAF, 0x10EF); (0x1CB0, 0x10F0); (0x1CB1, 0x10F1); (0x1CB2, 0x10F2);
    (0x1CB3, 0x10F3); (0x1CB4, 0x10F4); (0x1CB5, 0x10F5); (0x1CB6, 0x10F6);
    (0x1CB7, 0x10F7); (0x1CB8, 0x10F8); (0x1CB9, 0x10F9); (0x1CBA, 0x10FA);
    (0x1CBD, 0x10FD); (0x1CBE, 0x10FE); (0x1CBF, 0x10FF); (0x1E00, 0x1E01);
    (0x1E02, 0x1E03); (0x1E04, 0x1E05); (0x1E06, 0x1E07); (0x1E08, 0x1E09);
    (0x1E0A, 0x1E0B); (0x1E0C, 0x1E0D); (0x1E0E, 0x1E0F); (0x1E10, 0x1E11);
    (0x1E12, 0x1E13); (0x1E14, 0x1E15); (0x1E16, 0x1E17); (0x1E18, 0x1E19);
    (0x1E1A, 0x1E1B); (0x1E1C, 0x1E1D); (0x1E1E, 0x1E1F); (0x1E20, 0x1E21);
    (0x1E22, 0x1E23); (0x1E24, 0x1E25); (0x1E26, 0x1E27); (0x1E28, 0x1E29);
    (0x1E2A, 0x1E2B); (0x1E2C, 0x1E2D); (0x1E2E, 0x1E2F); (0x1E30, 0x1E31);
    (0x1E32, 0x1E33); (0x1E34, 0x1E35); (0x1E36, 0x1E37); (0x1E38, 0x1E39);
    (0x1E3A, 0x1E3B); (0x1E3C, 0x1E3D); (0x1E3E, 0x1E3F); (0x1E40, 0x1E41);
    (0x1E42, 0x1E43); (0x1E44, 0x1E45); (0x1E46, 0x1E47); (0x1E48, 0x1E49);
    (0x1E4A, 0x1E4B); (0x1E4C, 0x1E4D); (0x1E4E, 0x1E4F); (0x1E50, 0x1E51);
    (0x1E52, 0x1E53); (0x1E54, 0x1E55); (0x1E56, 0x1E57); (0x1E58, 0x1E59);
    (0x1E5A, 0x1E5B); (0x1E5C, 0x1E5D); (0x1E5E, 0x1E5F); (0x1E60, 0x1E61);
    (0x1E62, 0x1E63); (0x1E64, 0x1E65); (0x1E66, 0x1E67); (0x1E68, 0x1E69);
    (0x1E6A, 0x1E6B); (0x1E6C, 0x1E6D); (0x1E6E, 0x1E6F); (0x1E70, 0x1E71);
    (0x1E72, 0x1E73); (0x1E74, 0x1E75); (0x1E76, 0x1E77); (0x1E78, 0x1E79);
    (0x1E7A, 0x1E7B); (0x1E7C, 0x1E7D); (0x1E7E, 0x1E7F); (0x1E80, 0x1E81);
    (0x1E82, 0x1E83); (0x1E84, 0x1E85); (0x1E86, 0x1E87); (0x1E88, 0x1E89);
    (0x1E8A, 0x1E8B); (0x1E8C, 0x1E8D); (0x1E8E, 0x1E8F); (0x1E90, 0x1E91);
    (0x1E92, 0x1E93); (0x1E94, 0x1E95); (0x1E9E, 0xDF); (0x1EA0, 0x1EA1);
    (0x1EA2, 0x1EA3); (0x1EA4, 0x1EA5); (0x1EA6, 0x1EA7); (0x1EA8, 0x1EA9);
    (0x1EAA, 0x1EAB); (0x1EAC, 0x1EAD); (0x1EAE, 0x1EAF); (0x1EB0, 0x1EB1);
    (0x1EB2, 0x1EB3); (0x1EB4, 0x1EB5); (0x1EB6, 0x1EB7); (0x1EB8, 0x1EB9);
    (0x1EBA, 0x1EBB); (0x1EBC, 0x1EBD); (0x1EBE, 0x1EBF); (0x1EC0, 0x1EC1);
    (0x1EC2, 0x1EC3); (0x1EC4, 0x1EC5); (0x1EC6, 0x1EC7); (0x1EC8, 0x1EC9);
    (0x1ECA, 0x1ECB); (0x1ECC, 0x1ECD); (0x1ECE, 0x1ECF); (0x1ED0, 0x1ED1);
    (0x1ED2, 0x1ED3); (0x1ED4, 0x1ED5); (0x1ED6, 0x1ED7); (0x1ED8, 0x1ED9);
    (0x1EDA, 0x1EDB); (0x1EDC, 0x1EDD); (0x1EDE, 0x1EDF); (0x1EE0, 0x1EE1);
    (0x1EE2, 0x1EE3); (0x1EE4, 0x1EE5); (0x1EE6, 0x1EE7); (0x1EE8, 0x1EE9);
    (0x1EEA, 0x1EEB); (0x1EEC, 0x1EED); (0x1EEE, 0x1EEF); (0x1EF0, 0x1EF1);
    (0x1EF2, 0x1EF3); (0x1EF4, 0x1EF5); (0x1EF6, 0x1EF7); (0x1EF8, 0x1EF9);
    (0x1EFA, 0x1EFB); (0x1EFC, 0x1EFD); (0x1EFE, 0x1EFF); (0x1F08, 0x1F00);
    (0x1F09, 0x1F01); (0x1F0A, 0x1F02); (0x1F0B, 0x1F03); (0x1F0C, 0x1F04);
    (0x1F0D, 0x1F05); (0x1F0E, 0x1F06); (0x1F0F, 0x1F07); (0x1F18, 0x1F10);
    (0x1F19, 0x1F11); (0x1F1A, 0x1F12); (0x1F1B, 0x1F13); (0x1F1C, 0x1F14);
    (0x1F1D, 0x1F15); (0x1F28, 0x1F20); (0x1F29, 0x1F21); (0x1F2A, 0x1F22);
    (0x1F2B, 0x1F23); (0x1F2C, 0x1F24); (0x1F2D, 0x1F25); (0x1F2E, 0x1F26);
    (0x1F2F, 0x1F27); (0x1F38, 0x1F30); (0x1F39, 0x1F31); (0x1F3A, 0x1F32);
    (0x1F3B, 0x1F33); (0x1F3C, 0x1F34); (0x1F3D, 0x1F35); (0x1F3E, 0x1F36);
    (0x1F3F, 0x1F37); (0x1F48, 0x1F40); (0x1F49, 0x1F41); (0x1F4A, 0x1F42);
    (0x1F4B, 0x1F43); (0x1F4C, 0x1F44); (0x1F4D, 0x1F45); (0x1F59, 0x1F51);
    (0x1F5B, 0x1F53); (0x1F5D, 0x1F55); (0x1F5F, 0x1F57); (0x1F68, 0x1F60);
    (0x1F69, 0x1F61); (0x1F6A, 0x1F62); (0x1F6B, 0x1F63); (0x1F6C, 0x1F64);
    (0x1F6D, 0x1F65); (0x1F6E, 0x1F66); (0x1F6F, 0x1F67); (0x1F88, 0x1F80);
    (0x1F89, 0x1F81); (0x1F8A, 0x1F82); (0x1F8B, 0x1F83); (0x1F8C, 0x1F84);
    (0x1F8D, 0x1F85); (0x1F8E, 0x1F86); (0x1F8F, 0x1F87); (0x1F98, 0x1F90);
    (0x1F99, 0x1F91); (0x1F9A, 0x1F92); (0x1F9B, 0x1F93); (0x1F9C, 0x1F94);
    (0x1F9D, 0x1F95); (0x1F9E, 0x1F96); (0x1F9F, 0x1F97); (0x1FA8, 0x1FA0);
    (0x1FA9, 0x1FA1); (0x1FAA, 0x1FA2); (0x1FAB, 0x1FA3); (0x1FAC, 0x1FA4);
    (0x1FAD, 0x1FA5); (0x1FAE, 0x1FA6); (0x1FAF, 0x1FA7); (0x1FB8, 0x1FB0);
    (0x1FB9, 0x1FB1); (0x1FBA, 0x1F70); (0x1FBB, 0x1F71); (0x1FBC, 0x1FB3);
    (0x1FC8, 0x1F72); (0x1FC9, 0x1F73); (0x1FCA, 0x1F74); (0x1FCB, 0x1F75);
    (0x1FCC, 0x1FC3); (0x1FD8, 0x1FD0); (0x1FD9, 0x1FD1); (0x1FDA, 0x1F76);
    (0x1FDB, 0x1F77); (0x1FE8, 0x1FE0); (0x1FE9, 0x1FE1); (0x1FEA, 0x1F7A);
    (0x1FEB, 0x1F7B); (0x1FEC, 0x1FE5); (0x1FF8, 0x1F78); (0x1FF9, 0x1F79);
    (0x1FFA, 0x1F7C); (0x1FFB, 0x1F7D); (0x1FFC, 0x1FF3); (0x2126, 0x3C9);
    (0x212A, 0x6B); (0x212B, 0xE5); (0x2132, 0x214E); (0x2160, 0x2170);
    (0x2161, 0x2171); (0x2162, 0x2172); (0x2163, 0x2173); (0x2164, 0x2174);
    (0x2165, 0x2175); (0x2166, 0x2176); (0x2167, 0x2177); (0x2168, 0x2178);
    (0x2169, 0x2179); (0x216A, 0x217A); (0x216B, 0x217B); (0x216C, 0x217C);
    (0x216D, 0x217D); (0x216E, 0x217E); (0x216F, 0x217F); (0x2183, 0x2184);
    (0x24B6, 0x24D0); (0x24B7, 0x24D1); (0x24B8, 0x24D2); (0x24B9, 0x24D3);
    (0x24BA, 0x24D4); (0x24BB, 0x24D5); (0x24BC, 0x24D6); (0x24BD, 0x24D7);
    (0x24BE, 0x24D8); (0x24BF, 0x24D9); (0x24C0, 0x24DA); (0x24C1, 0x24DB);
    (0x24C2, 0x24DC); (0x24C3, 0x24DD); (0x24C4, 0x24DE); (0x24C5, 0x24DF);
    (0x24C6, 0x24E0); (0x24C7, 0x24E1); (0x24C8, 0x24E2); (0x24C9, 0x24E3);
    (0x24CA, 0x24E4); (0x24CB, 0x24E5); (0x24CC, 0x24E6); (0x24CD, 0x24E7);
    (0x24CE, 0x24E8); (0x24CF, 0x24E9); (0x2C00, 0x2C30); (0x2C01, 0x2C31);
    (0x2C02, 0x2C32); (0x2C03, 0x2C33); (0x2C04, 0x2C34); (0x2C05, 0x2C35);
    (0x2C06, 0x2C36); (0x2C07, 0x2C37); (0x2C08, 0x2C38); (0x2C09, 0x2C39);
    (0x2C0A, 0x2C3A); (0x2C0B, 0x2C3B); (0x2C0C, 0x2C3C); (0x2C0D, 0x2C3D);
    (0x2C0E, 0x2C3E); (0x2C0F, 0x2C3F); (0x2C10, 0x2C40); (0x2C11, 0x2C41);
    (0x2C12, 0x2C42); (0x2C13, 0x2C43); (0x2C14, 0x2C44); (0x2C15, 0x2C45);
    (0x2C16, 0x2C46); (0x2C17, 0x2C47); (0x2C18, 0x2C48); (0x2C19, 0x2C49);
    (0x2C1A, 0x2C4A); (0x2C1B, 0x2C4B); (0x2C1C, 0x2C4C); (0x2C1D, 0x2C4D);
    (0x2C1E, 0x2C4E); (0x2C1F, 0x2C4F); (0x2C20, 0x2C50); (0x2C21, 0x2C51);
    (0x2C22, 0x2C52); (0x2C23, 0x2C53); (0x2C24, 0x2C54); (0x2C25, 0x2C55);
    (0x2C26, 0x2C56); (0x2C27, 0x2C57); (0x2C28, 0x2C58); (0x2C29, 0x2C59);
    (0x2C2A, 0x2C5A); (0x2C2B, 0x2C5B); (0x2C2C, 0x2C5C); (0x2C2D, 0x2C5D);
    (0x2C2E, 0x2C5E); (0x2C2F, 0x2C5F); (0x2C60, 0x2C61); (0x2C62, 0x26B);
    (0x2C63, 0x1D7D); (0x2C64, 0x27D); (0x2C67, 0x2C68); (0x2C69, 0x2C6A);
    (0x2C6B, 0x2C6C); (0x2C6D, 0x251); (0x2C6E, 0x271); (0x2C6F, 0x250);
    (0x2C70, 0x252); (0x2C72, 0x2C73); (0x2C75, 0x2C76); (0x2C7E, 0x23F);
    (0x2C7F, 0x240); (0x2C80, 0x2C81); (0x2C82, 0x2C83); (0x2C84, 0x2C85);
    (0x2C86, 0x2C87); (0x2C88, 0x2C89); (0x2C8A, 0x2C8B); (0x2C8C, 0x2C8D);
    (0x2C8E, 0x2C8F); (0x2C90, 0x2C91); (0x2C92, 0x2C93); (0x2C94, 0x2C95);
    (0x2C96, 0x2C97); (0x2C98, 0x2C99); (0x2C9A, 0x2C9B); (0x2C9C, 0x2C9D);
    (0x2C9E, 0x2C9F); (0x2CA0, 0x2CA1); (0x2CA2, 0x2CA3); (0x2CA4, 0x2CA5);
    (0x2CA6, 0x2CA7); (0x2CA8, 0x2CA9); (0x2CAA, 0x2CAB); (0x2CAC, 0x2CAD);
    (0x2CAE, 0x2CAF); (0x2CB0, 0x2CB1); (0x2CB2, 0x2CB3); (0x2CB4, 0x2CB5);
    (0x2CB6, 0x2CB7); (0x2CB8, 0x2CB9); (0x2CBA, 0x2CBB); (0x2CBC, 0x2CBD);
    (0x2CBE, 0x2CBF); (0x2CC0, 0x2CC1); (0x2CC2, 0x2CC3); (0x2CC4, 0x2CC5);
    (0x2CC6, 0x2CC7); (0x2CC8, 0x2CC9); (0x2CCA, 0x2CCB); (0x2CCC, 0x2CCD);
    (0x2CCE, 0x2CCF); (0x2CD0, 0x2CD1); (0x2CD2, 0x2CD3); (0x2CD4, 0x2CD5);
    (0x2CD6, 0x2CD7); (0x2CD8, 0x2CD9); (0x2CDA, 0x2CDB); (0x2CDC, 0x2CDD);
    (0x2CDE, 0x2CDF); (0x2CE0, 0x2CE1); (0x2CE2, 0x2CE3); (0x2CEB, 0x2CEC);
    (0x2CED, 0x2CEE); (0x2CF2, 0x2CF3); (0xA640, 0xA641); (0xA642, 0xA643);
    (0xA644, 0xA645); (0xA646, 0xA647); (0xA648, 0xA649); (0xA64A, 0xA64B);
    (0xA64C, 0xA64D); (0xA64E, 0xA64F); (0xA650, 0xA651); (0xA652, 0xA653);
    (0xA654, 0xA655); (0xA656, 0xA657); (0xA658, 0xA659); (0xA65A, 0xA65B);
    (0xA65C, 0xA65D); (0xA65E, 0xA65F); (0xA660, 0xA661); (0xA662, 0xA663);
    (0xA664, 0xA665); (0xA666, 0xA667); (0xA668, 0xA669); (0xA66A, 0xA66B);
    (0xA66C, 0xA66D); (0xA680, 0xA681); (0xA682, 0xA683); (0xA684, 0xA685);
    (0xA686, 0xA687); (0xA688, 0xA689); (0xA68A, 0xA68B); (0xA68C, 0xA68D);
    (0xA68E, 0xA68F); (0xA690, 0xA691); (0xA692, 0xA693); (0xA694, 0xA695);
    (0xA696, 0xA697); (0xA698, 0xA699); (0xA69A, 0xA69B); (0xA722, 0xA723);
    (0xA724, 0xA725); (0xA726, 0xA727); (0xA728, 0xA729); (0xA72A, 0xA72B);
    (0xA72C, 0xA72D); (0xA72E, 0xA72F); (0xA732, 0xA733); (0xA734, 0xA735);
    (0xA736, 0xA737); (0xA738, 0xA739); (0xA73A, 0xA73B); (0xA73C, 0xA73D);
    (0xA73E, 0xA73F); (0xA740, 0xA741); (0xA742, 0xA743); (0xA744, 0xA745);
    (0xA746, 0xA747); (0xA748, 0xA749); (0xA74A, 0xA74B); (0xA74C, 0xA74D);
    (0xA74E, 0xA74F); (0xA750, 0xA751); (0xA752, 0xA753); (0xA754, 0xA755);
    (0xA756, 0xA757); (0xA758, 0xA759); (0xA75A, 0xA75B); (0xA75C, 0xA75D);
    (0xA75E, 0xA75F); (0xA760, 0xA761); (0xA762, 0xA763); (0xA764, 0xA765);
    (0xA766, 0xA767); (0xA768, 0xA769); (0xA76A, 0xA76B); (0xA76C, 0xA76D);
    (0xA76E, 0xA76F); (0xA779, 0xA77A); (0xA77B, 0xA77C); (0xA77D, 0x1D79);
    (0xA77E, 0xA77F); (0xA780, 0xA781); (0xA782, 0xA783); (0xA784, 0xA785);
    (0xA786, 0xA787); (0xA78B, 0xA78C); (0xA78D, 0x265); (0xA790, 0xA791);
    (0xA792, 0xA793); (0xA796, 0xA797); (0xA798, 0xA799); (0xA79A, 0xA79B);
    (0xA79C, 0xA79D); (0xA79E, 0xA79F); (0xA7A0, 0xA7A1); (0xA7A2, 0xA7A3);
    (0xA7A4, 0xA7A5); (0xA7A6, 0xA7A7); (0xA7A8, 0xA7A9); (0xA7AA, 0x266);
    (0xA7AB, 0x25C); (0xA7AC, 0x261); (0xA7AD, 0x26C); (0xA7AE, 0x26A);
    (0xA7B0, 0x29E); (0xA7B1, 0x287); (0xA7B2, 0x29D); (0xA7B3, 0xAB53);
    (0xA7B4, 0xA7B5); (0xA7B6, 0xA7B7); (0xA7B8, 0xA7B9); (0xA7BA, 0xA7BB);
    (0xA7BC, 0xA7BD); (0xA7BE, 0xA7BF); (0xA7C0, 0xA7C1); (0xA7C2, 0xA7C3);
    (0xA7C4, 0xA794); (0xA7C5, 0x282); (0xA7C6, 0x1D8E); (0xA7C7, 0xA7C8);
    (0xA7C9, 0xA7CA); (0xA7D0, 0xA7D1); (0xA7D6, 0xA7D7); (0xA7D8, 0xA7D9);
    (0xA7F5, 0xA7F6); (0xFF21, 0xFF41); (0xFF22, 0xFF42); (0xFF23, 0xFF43);
    (0xFF24, 0xFF44); (0xFF25, 0xFF45); (0xFF26, 0xFF46); (0xFF27, 0xFF47);
    (0xFF28, 0xFF48); (0xFF29, 0xFF49); (0xFF2A, 0xFF4A); (0xFF2B, 0xFF4B);
    (0xFF2C, 0xFF4C); (0xFF2D, 0xFF4D); (0xFF2E, 0xFF4E); (0xFF2F, 0xFF4F);
    (0xFF30, 0xFF50); (0xFF31, 0xFF51); (0xFF32, 0xFF52); (0xFF33, 0xFF53);
    (0xFF34, 0xFF54); (0xFF35, 0xFF55); (0xFF36, 0xFF56); (0xFF37, 0xFF57);
    (0xFF38, 0xFF58); (0xFF39, 0xFF59); (0xFF3A, 0xFF5A); (0x10400, 0x10428);
    (0x10401, 0x10429); (0x10402, 0x1042A); (0x10403, 0x1042B); (0x10404, 0x1042C);
    (0x10405, 0x1042D); (0x10406, 0x1042E); (0x10407, 0x1042F); (0x10408, 0x10430);
    (0x10409, 0x10431); (0x1040A, 0x10432); (0x1040B, 0x10433); (0x1040C, 0x10434);
    (0x1040D, 0x10435); (0x1040E, 0x10436); (0x1040F, 0x10437); (0x10410, 0x10438);
    (0x10411, 0x10439); (0x10412, 0x1043A); (0x10413, 0x1043B); (0x10414, 0x1043C);
    (0x10415, 0x1043D); (0x10416, 0x1043E); (0x10417, 0x1043F); (0x10418, 0x10440);
    (0x10419, 0x10441); (0x1041A, 0x10442); (0x1041B, 0x10443); (0x1041C, 0x10444);
    (0x1041D, 0x10445); (0x1041E, 0x10446); (0x1041F, 0x10447); (0x10420, 0x10448);
    (0x10421, 0x10449); (0x10422, 0x1044A); (0x10423, 0x1044B); (0x10424, 0x1044C);
    (0x10425, 0x1044D); (0x10426, 0x1044E); (0x10427, 0x1044F); (0x104B0, 0x104D8);
    (0x104B1, 0x104D9); (0x104B2, 0x104DA); (0x104B3, 0x104DB); (0x104B4, 0x104DC);
    (0x104B5, 0x104DD); (0x104B6, 0x104DE); (0x104B7, 0x104DF); (0x104B8, 0x104E0);
    (0x104B9, 0x104E1); (0x104BA, 0x104E2); (0x104BB, 0x104E3); (0x104BC, 0x104E4);
    (0x104BD, 0x104E5); (0x104BE, 0x104E6); (0x104BF, 0x104E7); (0x104C0, 0x104E8);
    (0x104C1, 0x104E9); (0x104C2, 0x104EA); (0x104C3, 0x104EB); (0x104C4, 0x104EC);
    (0x104C5, 0x104ED); (0x104C6, 0x104EE); (0x104C7, 0x104EF); (0x104C8, 0x104F0);
    (0x104C9, 0x104F1); (0x104CA, 0x104F2); (0x104CB, 0x104F3); (0x104CC, 0x104F4);
    (0x104CD, 0x104F5); (0x104CE, 0x104F6); (0x104CF, 0x104F7); (0x104D0, 0x104F8);
    (0x104D1, 0x104F9); (0x104D2, 0x104FA); (0x104D3, 0x104FB); (0x10570, 0x10597);
    (0x10571, 0x10598); (0x10572, 0x10599); (0x10573, 0x1059A); (0x10574, 0x1059B);
    (0x10575, 0x1059C); (0x10576, 0x1059D); (0x10577, 0x1059E); (0x10578, 0x1059F);
    (0x10579, 0x105A0); (0x1057A, 0x105A1); (0x1057C, 0x105A3); (0x1057D, 0x105A4);
    (0x1057E, 0x105A5); (0x1057F, 0x105A6); (0x10580, 0x105A7); (0x10581, 0x105A8);
    (0x10582, 0x105A9); (0x10583, 0x105AA); (0x10584, 0x105AB); (0x10585, 0x105AC);
    (0x10586, 0x105AD); (0x10587, 0x105AE); (0x10588, 0x105AF); (0x10589, 0x105B0);
    (0x1058A, 0x105B1); (0x1058C, 0x105B3); (0x1058D, 0x105B4); (0x1058E, 0x105B5);
    (0x1058F, 0x105B6); (0x10590, 0x105B7); (0x10591, 0x105B8); (0x10592, 0x105B9);
    (0x10594, 0x105BB); (0x10595, 0x105BC); (0x10C80, 0x10CC0); (0x10C81, 0x10CC1);
    (0x10C82, 0x10CC2); (0x10C83, 0x10CC3); (0x10C84, 0x10CC4); (0x10C85, 0x10CC5);
    (0x10C86, 0x10CC6); (0x10C87, 0x10CC7); (0x10C88, 0x10CC8); (0x10C89, 0x10CC9);
    (0x10C8A, 0x10CCA); (0x10C8B, 0x10CCB); (0x10C8C, 0x10CCC); (0x10C8D, 0x10CCD);
    (0x10C8E, 0x10CCE); (0x10C8F, 0x10CCF); (0x10C90, 0x10CD0); (0x10C91, 0x10CD1);
    (0x10C92, 0x10CD2); (0x10C93, 0x10CD3); (0x10C94, 0x10CD4); (0x10C95, 0x10CD5);
    (0x10C96, 0x10CD6); (0x10C97, 0x10CD7); (0x10C98, 0x10CD8); (0x10C99, 0x10CD9);
    (0x10C9A, 0x10CDA); (0x10C9B, 0x10CDB); (0x10C9C, 0x10CDC); (0x10C9D, 0x10CDD);
    (0x10C9E, 0x10CDE); (0x10C9F, 0x10CDF); (0x10CA0, 0x10CE0); (0x10CA1, 0x10CE1);
    (0x10CA2, 0x10CE2); (0x10CA3, 0x10CE3); (0x10CA4, 0x10CE4); (0x10CA5, 0x10CE5);
    (0x10CA6, 0x10CE6); (0x10CA7, 0x10CE7); (0x10CA8, 0x10CE8); (0x10CA9, 0x10CE9);
    (0x10CAA, 0x10CEA); (0x10CAB, 0x10CEB); (0x10CAC, 0x10CEC); (0x10CAD, 0x10CED);
    (0x10CAE, 0x10CEE); (0x10CAF, 0x10CEF); (0x10CB0, 0x10CF0); (0x10CB1, 0x10CF1);
    (0x10CB2, 0x10CF2); (0x118A0, 0x118C0); (0x118A1, 0x118C1); (0x118A2, 0x118C2);
    (0x118A3, 0x118C3); (0x118A4, 0x118C4); (0x118A5, 0x118C5); (0x118A6, 0x118C6);
    (0x118A7, 0x118C7); (0x118A8, 0x118C8); (0x118A9, 0x118C9); (0x118AA, 0x118CA);
    (0x118AB, 0x118CB); (0x118AC, 0x118CC); (0x118AD, 0x118CD); (0x118AE, 0x118CE);
    (0x118AF, 0x118CF); (0x118B0, 0x118D0); (0x118B1, 0x118D1); (0x118B2, 0x118D2);
    (0x118B3, 0x118D3); (0x118B4, 0x118D4); (0x118B5, 0x118D5); (0x118B6, 0x118D6);
    (0x118B7, 0x118D7); (0x118B8, 0x118D8); (0x118B9, 0x118D9); (0x118BA, 0x118DA);
    (0x118BB, 0x118DB); (0x118BC, 0x118DC); (0x118BD, 0x118DD); (0x118BE, 0x118DE);
    (0x118BF, 0x118DF); (0x16E40, 0x16E60); (0x16E41, 0x16E61); (0x16E42, 0x16E62);
    (0x16E43, 0x16E63); (0x16E44, 0x16E64); (0x16E45, 0x16E65); (0x16E46, 0x16E66);
    (0x16E47, 0x16E67); (0x16E48, 0x16E68); (0x16E49, 0x16E69); (0x16E4A, 0x16E6A);
    (0x16E4B, 0x16E6B); (0x16E4C, 0x16E6C); (0x16E4D, 0x16E6D); (0x16E4E, 0x16E6E);
    (0x16E4F, 0x16E6F); (0x16E50, 0x16E70); (0x16E51, 0x16E71); (0x16E52, 0x16E72);
    (0x16E53, 0x16E73); (0x16E54, 0x16E74); (0x16E55, 0x16E75); (0x16E56, 0x16E76);
    (0x16E57, 0x16E77); (0x16E58, 0x16E78); (0x16E59, 0x16E79); (0x16E5A, 0x16E7A);
    (0x16E5B, 0x16E7B); (0x16E5C, 0x16E7C); (0x16E5D, 0x16E7D); (0x16E5E, 0x16E7E);
    (0x16E5F, 0x16E7F); (0x1E900, 0x1E922); (0x1E901, 0x1E923); (0x1E902, 0x1E924);
    (0x1E903, 0x1E925); (0x1E904, 0x1E926); (0x1E905, 0x1E927); (0x1E906, 0x1E928);
    (0x1E907, 0x1E929); (0x1E908, 0x1E92A); (0x1E909, 0x1E92B); (0x1E90A, 0x1E92C);
    (0x1E90B, 0x1E92D); (0x1E90C, 0x1E92E); (0x1E90D, 0x1E92F); (0x1E90E, 0x1E930);
    (0x1E90F, 0x1E931); (0x1E910, 0x1E932); (0x1E911, 0x1E933); (0x1E912, 0x1E934);
    (0x1E913, 0x1E935); (0x1E914, 0x1E936); (0x1E915, 0x1E937); (0x1E916, 0x1E938);
    (0x1E917, 0x1E939); (0x1E918, 0x1E93A); (0x1E919, 0x1E93B); (0x1E91A, 0x1E93C);
    (0x1E91B, 0x1E93D); (0x1E91C, 0x1E93E); (0x1E91D, 0x1E93F); (0x1E91E, 0x1E940);
    (0x1E91F, 0x1E941); (0x1E920, 0x1E942); (0x1E921, 0x1E943)
  ]%N.

Definition cased_ranges : list (N * N) :=
  [
(0x41, 0x5A); (0x61, 0x7A); (0xAA, 0xAA); (0xB5, 0xB5);
    (0xBA, 0xBA); (0xC0, 0xD6); (0xD8, 0xF6); (0xF8, 0x1BA);
    (0x1BC, 0x1BF); (0x1C4, 0x293); (0x295, 0x2B8); (0x2C0, 0x2C1);
    (0x2E0, 0x2E4); (0x345, 0x345); (0x370, 0x373); (0x376, 0x377);
    (0x37A, 0x37D); (0x37F, 0x37F); (0x386, 0x386); (0x388, 0x38A);
    (0x38C, 0x38C); (0x38E, 0x3A1); (0x3A3, 0x3F5); (0x3F7, 0x481);
    (0x48A, 0x52F); (0x531, 0x556); (0x560, 0x588); (0x10A0, 0x10C5);
    (0x10C7, 0x10C7); (0x10CD, 0x10CD); (0x10D0, 0x10FA); (0x10FD, 0x10FF);
    (0x13A0, 0x13F5); (0x13F8, 0x13FD); (0x1C80, 0x1C88); (0x1C90, 0x1CBA);
    (0x1CBD, 0x1CBF); (0x1D00, 0x1DBF); (0x1E00, 0x1F15); (0x1F18, 0x1F1D);
    (0x1F20, 0x1F45); (0x1F48, 0x1F4D); (0x1F50, 0x1F57); (0x1F59, 0x1F59);
    (0x1F5B, 0x1F5B); (0x1F5D, 0x1F5D); (0x1F5F, 0x1F7D); (0x1F80, 0x1FB4);
    (0x1FB6, 0x1FBC); (0x1FBE, 0x1FBE); (0x1FC2, 0x1FC4); (0x1FC6, 0x1FCC);
    (0x1FD0, 0x1FD3); (0x1FD6, 0x1FDB); (0x1FE0, 0x1FEC); (0x1FF2, 0x1FF4);
    (0x1FF6, 0x1FFC); (0x2071, 0x2071); (0x207F, 0x207F); (0x2090, 0x209C);
    (0x2102, 0x2102); (0x2107, 0x2107); (0x210A, 0x2113); (0x2115, 0x2115);
    (0x2119, 0x211D); (0x2124, 0x2124); (0x2126, 0x2126); (0x2128, 0x2128);
    (0x212A, 0x212D); (0x212F, 0x2134); (0x2139, 0x2139); (0x213C, 0x213F);
    (0x2145, 0x2149); (0x214E, 0x214E); (0x2160, 0x217F); (0x2183, 0x2184);
    (0x24B6, 0x24E9); (0x2C00, 0x2CE4); (0x2CEB, 0x2CEE); (0x2CF2, 0x2CF3);
    (0x2D00, 0x2D25); (0x2D27, 0x2D27); (0x2D2D, 0x2D2D); (0xA640, 0xA66D);
    (0xA680, 0xA69D); (0xA722, 0xA787); (0xA78B, 0xA78E); (0xA790, 0xA7CA);
    (0xA7D0, 0xA7D1); (0xA7D3, 0xA7D3); (0xA7D5, 0xA7D9); (0xA7F5, 0xA7F6);
    (0xA7F8, 0xA7FA); (0xAB30, 0xAB5A); (0xAB5C, 0xAB68); (0xAB70, 0xABBF);
    (0xFB00, 0xFB06); (0xFB13, 0xFB17); (0xFF21, 0xFF3A); (0xFF41, 0xFF5A);
    (0x10400, 0x1044F); (0x104B0, 0x104D3); (0x104D8, 0x104FB); (0x10570, 0x1057A);
    (0x1057C, 0x1058A); (0x1058C, 0x10592); (0x10594, 0x10595); (0x10597, 0x105A1);
    (0x105A3, 0x105B1); (0x105B3, 0x105B9); (0x105BB, 0x105BC); (0x10780, 0x10780);
    (0x10783, 0x10785); (0x10787, 0x107B0); (0x107B2, 0x107BA); (0x10C80, 0x10CB2);
    (0x10CC0, 0x10CF2); (0x118A0, 0x118DF); (0x16E40, 0x16E7F); (0x1D400, 0x1D454);
    (0x1D456, 0x1D49C); (0x1D49E, 0x1D49F); (0x1D4A2, 0x1D4A2); (0x1D4A5, 0x1D4A6);
    (0x1D4A9, 0x1D4AC); (0x1D4AE, 0x1D4B9); (0x1D4BB, 0x1D4BB); (0x1D4BD, 0x1D4C3);
    (0x1D4C5, 0x1D505); (0x1D507, 0x1D50A); (0x1D50D, 0x1D514); (0x1D516, 0x1D51C);
    (0x1D51E, 0x1D539); (0x1D53B, 0x1D53E); (0x1D540, 0x1D544); (0x1D546, 0x1D546);
    (0x1D54A, 0x1D550); (0x1D552, 0x1D6A5); (0x1D6A8, 0x1D6C0); (0x1D6C2, 0x1D6DA);
    (0x1D6DC, 0x1D6FA); (0x1D6FC, 0x1D714); (0x1D716, 0x1D734); (0x1D736, 0x1D74E);
    (0x1D750, 0x1D76E); (0x1D770, 0x1D788); (0x1D78A, 0x1D7A8); (0x1D7AA, 0x1D7C2);
    (0x1D7C4, 0x1D7CB); (0x1DF00, 0x1DF09); (0x1DF0B, 0x1DF1E); (0x1E900, 0x1E943);
    (0x1F130, 0x1F149); (0x1F150, 0x1F169); (0x1F170, 0x1F189)
  ]%N.

Definition case_ignorable_ranges : list (N * N) :=
  [
(0x27, 0x27); (0x2E, 0x2E); (0x3A, 0x3A); (0x5E, 0x5E);
    (0x60, 0x60); (0xA8, 0xA8); (0xAD, 0xAD); (0xAF, 0xAF);
    (0xB4, 0xB4); (0xB7, 0xB8); (0x2B0, 0x36F); (0x374, 0x375);
    (0x37A, 0x37A); (0x384, 0x385); (0x387, 0x387); (0x483, 0x489);
    (0x559, 0x559); (0x55F, 0x55F); (0x591, 0x5BD); (0x5BF, 0x5BF);
    (0x5C1, 0x5C2); (0x5C4, 0x5C5); (0x5C7, 0x5C7); (0x5F4, 0x5F4);
    (0x600, 0x605); (0x610, 0x61A); (0x61C, 0x61C); (0x640, 0x640);
    (0x64B, 0x65F); (0x670, 0x670); (0x6D6, 0x6DD); (0x6DF, 0x6E8);
    (0x6EA, 0x6ED); (0x70F, 0x70F); (0x711, 0x711); (0x730, 0x74A);
    (0x7A6, 0x7B0); (0x7EB, 0x7F5); (0x7FA, 0x7FA); (0x7FD, 0x7FD);
    (0x816, 0x82D); (0x859, 0x85B); (0x888, 0x888); (0x890, 0x891);
    (0x898, 0x89F); (0x8C9, 0x902); (0x93A, 0x93A); (0x93C, 0x93C);
    (0x941, 0x948); (0x94D, 0x94D); (0x951, 0x957); (0x962, 0x963);
    (0x971, 0x971); (0x981, 0x981); (0x9BC, 0x9BC); (0x9C1, 0x9C4);
    (0x9CD, 0x9CD); (0x9E2, 0x9E3); (0x9FE, 0x9FE); (0xA01, 0xA02);
    (0xA3C, 0xA3C); (0xA41, 0xA42); (0xA47, 0xA48); (0xA4B, 0xA4D);
    (0xA51, 0xA51); (0xA70, 0xA71); (0xA75, 0xA75); (0xA81, 0xA82);
    (0xABC, 0xABC); (0xAC1, 0xAC5); (0xAC7, 0xAC8); (0xACD, 0xACD);
    (0xAE2, 0xAE3); (0xAFA, 0xAFF); (0xB01, 0xB01); (0xB3C, 0xB3C);
    (0xB3F, 0xB3F); (0xB41, 0xB44); (0xB4D, 0xB4D); (0xB55, 0xB56);
    (0xB62, 0xB63); (0xB82, 0xB82); (0xBC0, 0xBC0); (0xBCD, 0xBCD);
    (0xC00, 0xC00); (0xC04, 0xC04); (0xC3C, 0xC3C); (0xC3E, 0xC40);
    (0xC46, 0xC48); (0xC4A, 0xC4D); (0xC55, 0xC56); (0xC62, 0xC63);
    (0xC81, 0xC81); (0xCBC, 0xCBC); (0xCBF, 0xCBF); (0xCC6, 0xCC6);
    (0xCCC, 0xCCD); (0xCE2, 0xCE3); (0xD00, 0xD01); (0xD3B, 0xD3C);
    (0xD41, 0xD44); (0xD4D, 0xD4D); (0xD62, 0xD63); (0xD81, 0xD81);
    (0xDCA, 0xDCA); (0xDD2, 0xDD4); (0xDD6, 0xDD6); (0xE31, 0xE31);
    (0xE34, 0xE3A); (0xE46, 0xE4E); (0xEB1, 0xEB1); (0xEB4, 0xEBC);
    (0xEC6, 0xEC6); (0xEC8, 0xECD); (0xF18, 0xF19); (0xF35, 0xF35);
    (0xF37, 0xF37); (0xF39, 0xF39); (0xF71, 0xF7E); (0xF80, 0xF84);
    (0xF86, 0xF87); (0xF8D, 0xF97); (0xF99, 0xFBC); (0xFC6, 0xFC6);
    (0x102D, 0x1030); (0x1032, 0x1037); (0x1039, 0x103A); (0x103D, 0x103E);
    (0x1058, 0x1059); (0x105E, 0x1060); (0x1071, 0x1074); (0x1082, 0x1082);
    (0x1085, 0x1086); (0x108D, 0x108D); (0x109D, 0x109D); (0x10FC, 0x10FC);
    (0x135D, 0x135F); (0x1712, 0x1714); (0x1732, 0x1733); (0x1752, 0x1753);
    (0x1772, 0x1773); (0x17B4, 0x17B5); (0x17B7, 0x17BD); (0x17C6, 0x17C6);
    (0x17C9, 0x17D3); (0x17D7, 0x17D7); (0x17DD, 0x17DD); (0x180B, 0x180F);
    (0x1843, 0x1843); (0x1885, 0x1886); (0x18A9, 0x18A9); (0x1920, 0x1922);
    (0x1927, 0x1928); (0x1932, 0x1932); (0x1939, 0x193B); (0x1A17, 0x1A18);
    (0x1A1B, 0x1A1B); (0x1A56, 0x1A56); (0x1A58, 0x1A5E); (0x1A60, 0x1A60);
    (0x1A62, 0x1A62); (0x1A65, 0x1A6C); (0x1A73, 0x1A7C); (0x1A7F, 0x1A7F);
    (0x1AA7, 0x1AA7); (0x1AB0, 0x1ACE); (0x1B00, 0x1B03); (0x1B34, 0x1B34);
    (0x1B36, 0x1B3A); (0x1B3C, 0x1B3C); (0x1B42, 0x1B42); (0x1B6B, 0x1B73);
    (0x1B80, 0x1B81); (0x1BA2, 0x1BA5); (0x1BA8, 0x1BA9); (0x1BAB, 0x1BAD);
    (0x1BE6, 0x1BE6); (0x1BE8, 0x1BE9); (0x1BED, 0x1BED); (0x1BEF, 0x1BF1);
    (0x1C2C, 0x1C33); (0x1C36, 0x1C37); (0x1C78, 0x1C7D); (0x1CD0, 0x1CD2);
    (0x1CD4, 0x1CE0); (0x1CE2, 0x1CE8); (0x1CED, 0x1CED); (0x1CF4, 0x1CF4);
    (0x1CF8, 0x1CF9); (0x1D2C, 0x1D6A); (0x1D78, 0x1D78); (0x1D9B, 0x1DFF);
    (0x1FBD, 0x1FBD); (0x1FBF, 0x1FC1); (0x1FCD, 0x1FCF); (0x1FDD, 0x1FDF);
    (0x1FED, 0x1FEF); (0x1FFD, 0x1FFE); (0x200B, 0x200F); (0x2018, 0x2019);
    (0x2024, 0x2024); (0x2027, 0x2027); (0x202A, 0x202E); (0x2060, 0x2064);
    (0x2066, 0x206F); (0x2071, 0x2071); (0x207F, 0x207F); (0x2090, 0x209C);
    (0x20D0, 0x20F0); (0x2C7C, 0x2C7D); (0x2CEF, 0x2CF1); (0x2D6F, 0x2D6F);
    (0x2D7F, 0x2D7F); (0x2DE0, 0x2DFF); (0x2E2F, 0x2E2F); (0x3005, 0x3005);
    (0x302A, 0x302D); (0x3031, 0x3035); (0x303B, 0x303B); (0x3099, 0x309E);
    (0x30FC, 0x30FE); (0xA015, 0xA015); (0xA4F8, 0xA4FD); (0xA60C, 0xA60C);
    (0xA66F, 0xA672); (0xA674, 0xA67D); (0xA67F, 0xA67F); (0xA69C, 0xA69F);
    (0xA6F0, 0xA6F1); (0xA700, 0xA721); (0xA770, 0xA770); (0xA788, 0xA78A);
    (0xA7F2, 0xA7F4); (0xA7F8, 0xA7F9); (0xA802, 0xA802); (0xA806, 0xA806);
    (0xA80B, 0xA80B); (0xA825, 0xA826); (0xA82C, 0xA82C); (0xA8C4, 0xA8C5);
    (0xA8E0, 0xA8F1); (0xA8FF, 0xA8FF); (0xA926, 0xA92D); (0xA947, 0xA951);
    (0xA980, 0xA982); (0xA9B3, 0xA9B3); (0xA9B6, 0xA9B9); (0xA9BC, 0xA9BD);
    (0xA9CF, 0xA9CF); (0xA9E5, 0xA9E6); (0xAA29, 0xAA2E); (0xAA31, 0xAA32);
    (0xAA35, 0xAA36); (0xAA43, 0xAA43); (0xAA4C, 0xAA4C); (0xAA70, 0xAA70);
    (0xAA7C, 0xAA7C); (0xAAB0, 0xAAB0); (0xAAB2, 0xAAB4); (0xAAB7, 0xAAB8);
    (0xAABE, 0xAABF); (0xAAC1, 0xAAC1); (0xAADD, 0xAADD); (0xAAEC, 0xAAED);
    (0xAAF3, 0xAAF4); (0xAAF6, 0xAAF6); (0xAB5B, 0xAB5F); (0xAB69, 0xAB6B);
    (0xABE5, 0xABE5); (0xABE8, 0xABE8); (0xABED, 0xABED); (0xFB1E, 0xFB1E);
    (0xFBB2, 0xFBC2); (0xFE00, 0xFE0F); (0xFE13, 0xFE13); (0xFE20, 0xFE2F);
    (0xFE52, 0xFE52); (0xFE55, 0xFE55); (0xFEFF, 0xFEFF); (0xFF07, 0xFF07);
    (0xFF0E, 0xFF0E); (0xFF1A, 0xFF1A); (0xFF3E, 0xFF3E); (0xFF40, 0xFF40);
    (0xFF70, 0xFF70); (0xFF9E, 0xFF9F); (0xFFE3, 0xFFE3); (0xFFF9, 0xFFFB);
    (0x101FD, 0x101FD); (0x102E0, 0x102E0); (0x10376, 0x1037A); (0x10780, 0x10785);
    (0x10787, 0x107B0); (0x107B2, 0x107BA); (0x10A01, 0x10A03); (0x10A05, 0x10A06);
    (0x10A0C, 0x10A0F); (0x10A38, 0x10A3A); (0x10A3F, 0x10A3F); (0x10AE5, 0x10AE6);
    (0x10D24, 0x10D27); (0x10EAB, 0x10EAC); (0x10F46, 0x10F50); (0x10F82, 0x10F85);
    (0x11001, 0x11001); (0x11038, 0x11046); (0x11070, 0x11070); (0x11073, 0x11074);
    (0x1107F, 0x11081); (0x110B3, 0x110B6); (0x110B9, 0x110BA); (0x110BD, 0x110BD);
    (0x110C2, 0x110C2); (0x110CD, 0x110CD); (0x11100, 0x11102); (0x11127, 0x1112B);
    (0x1112D, 0x11134); (0x11173, 0x11173); (0x11180, 0x11181); (0x111B6, 0x111BE);
    (0x111C9, 0x111CC); (0x111CF, 0x111CF); (0x1122F, 0x11231); (0x11234, 0x11234);
    (0x11236, 0x11237); (0x1123E, 0x1123E); (0x112DF, 0x112DF); (0x112E3, 0x112EA);
    (0x11300, 0x11301); (0x1133B, 0x1133C); (0x11340, 0x11340); (0x11366, 0x1136C);
    (0x11370, 0x11374); (0x11438, 0x1143F); (0x11442, 0x11444); (0x11446, 0x11446);
    (0x1145E, 0x1145E); (0x114B3, 0x114B8); (0x114BA, 0x114BA); (0x114BF, 0x114C0);
    (0x114C2, 0x114C3); (0x115B2, 0x115B5); (0x115BC, 0x115BD); (0x115BF, 0x115C0);
    (0x115DC, 0x115DD); (0x11633, 0x1163A); (0x1163D, 0x1163D); (0x1163F, 0x11640);
    (0x116AB, 0x116AB); (0x116AD, 0x116AD); (0x116B0, 0x116B5); (0x116B7, 0x116B7);
    (0x1171D, 0x1171F); (0x11722, 0x11725); (0x11727, 0x1172B); (0x1182F, 0x11837);
    (0x11839, 0x1183A); (0x1193B, 0x1193C); (0x1193E, 0x1193E); (0x11943, 0x11943);
    (0x119D4, 0x119D7); (0x119DA, 0x119DB); (0x119E0, 0x119E0); (0x11A01, 0x11A0A);
    (0x11A33, 0x11A38); (0x11A3B, 0x11A3E); (0x11A47, 0x11A47); (0x11A51, 0x11A56);
    (0x11A59, 0x11A5B); (0x11A8A, 0x11A96); (0x11A98, 0x11A99); (0x11C30, 0x11C36);
    (0x11C38, 0x11C3D); (0x11C3F, 0x11C3F); (0x11C92, 0x11CA7); (0x11CAA, 0x11CB0);
    (0x11CB2, 0x11CB3); (0x11CB5, 0x11CB6); (0x11D31, 0x11D36); (0x11D3A, 0x11D3A);
    (0x11D3C, 0x11D3D); (0x11D3F, 0x11D45); (0x11D47, 0x11D47); (0x11D90, 0x11D91);
    (0x11D95, 0x11D95); (0x11D97, 0x11D97); (0x11EF3, 0x11EF4); (0x13430, 0x13438);
    (0x16AF0, 0x16AF4); (0x16B30, 0x16B36); (0x16B40, 0x16B43); (0x16F4F, 0x16F4F);
    (0x16F8F, 0x16F9F); (0x16FE0, 0x16FE1); (0x16FE3, 0x16FE4); (0x1AFF0, 0x1AFF3);
    (0x1AFF5, 0x1AFFB); (0x1AFFD, 0x1AFFE); (0x1BC9D, 0x1BC9E); (0x1BCA0, 0x1BCA3);
    (0x1CF00, 0x1CF2D); (0x1CF30, 0x1CF46); (0x1D167, 0x1D169); (0x1D173, 0x1D182);
    (0x1D185, 0x1D18B); (0x1D1AA, 0x1D1AD); (0x1D242, 0x1D244); (0x1DA00, 0x1DA36);
    (0x1DA3B, 0x1DA6C); (0x1DA75, 0x1DA75); (0x1DA84, 0x1DA84); (0x1DA9B, 0x1DA9F);
    (0x1DAA1, 0x1DAAF); (0x1E000, 0x1E006); (0x1E008, 0x1E018); (0x1E01B, 0x1E021);
    (0x1E023, 0x1E024); (0x1E026, 0x1E02A); (0x1E130, 0x1E13D); (0x1E2AE, 0x1E2AE);
    (0x1E2EC, 0x1E2EF); (0x1E8D0, 0x1E8D6); (0x1E944, 0x1E94B); (0x1F3FB, 0x1F3FF);
    (0xE0001, 0xE0001); (0xE0020, 0xE007F); (0xE0100, 0xE01EF)
  ]%N.

Definition in_ranges (ranges : list (N * N)) (p : N) : bool :=
  existsb (λ r, (r.1 <=? p) && (p <=? r.2))%N ranges.

Definition is_cased : N → bool := in_ranges cased_ranges.
Definition is_case_ignorable : N → bool := in_ranges case_ignorable_ranges.

Definition to_lower_full (p : N) : list N :=
  if (p =? 0x130)%N then [0x69; 0x307]%N
  else match List.find (λ e, (e.1 =? p)%N) to_lower_table with
       | Some e => [e.2]
       | None => [p]
       end.

(** U+03A3 lowers to the final sigma U+03C2 when the nearest code point
    before it that is not case-ignorable is cased, and the nearest such
    code point after it, if any, is not; [before] is in reverse order. *)
Definition handle_capital_sigma (before after : list N) : N :=
  let nearest := List.find (λ p, negb (is_case_ignorable p)) in
  let final_sigma :=
    match nearest before with
    | Some p => is_cased p
    | None => false
    end in
  let final_sigma :=
    if final_sigma then
      match nearest after with
      | Some p => negb (is_cased p)
      | None => true
      end
    else false in
  (if final_sigma then 0x3C2 else 0x3C3)%N.

Definition lower_ucs4 (before : list N) (p : N) (after : list N) : list N :=
  if (p =? 0x3A3)%N then [handle_capital_sigma before after] else to_lower_full p.

Fixpoint do_lower (before l : list N) : list N :=
  match l with
  | [] => []
  | p :: after => (lower_ucs4 before p after ++ do_lower (p :: before) after)%list
  end.

(** [str.lower]. *)
Definition lower (s : string) : string := utf8_encode (do_lower [] (utf8_decode s)).

(** ** Sequences *)

(** [l[i]]: an index out of range raises [IndexError]. *)
Definition item {A : Type} (l : list A) (i : nat) : py A :=
  match l !! i with
  | Some x => Return x
  | None => Raise IndexError
  end.

(** [max(l)] and [min(l)]: the empty sequence raises [ValueError]. *)
Definition py_max (l : list Z) : py Z :=
  match l with
  | [] => Raise ValueError
  | x :: l' => Return (fold_left Z.max l' x)
  end.

Definition py_min (l : list Z) : py Z :=
  match l with
  | [] => Raise ValueError
  | x :: l' => Return (fold_left Z.min l' x)
  end.

(** [sorted(l, key=key, reverse=True)].  Python's sort is stable and
    [reverse=True] keeps that: the result is in descending key order and
    items with equal keys stay in the order they had in [l].  An item is
    therefore inserted in front of the first item whose key is not
    greater than its own. *)
Fixpoint insert_reverse {A : Type} (key : A → Z) (x : A) (l : list A) : list A :=
  match l with
  | [] => [x]
  | y :: l' =>
      if key y <=? key x then x :: y :: l' else y :: insert_reverse key x l'
  end.

Fixpoint sorted_reverse {A : Type} (key : A → Z) (l : list A) : list A :=
  match l with
  | [] => []
  | x :: l' => insert_reverse key x (sorted_reverse key l')
  end.

(** ** Floats *)

(** A finite, non-negative binary64 value [fmant * 2 ^ fexp].  The
    representation is canonical: zero is [(0, 0)], a normal number has
    [2^52 <= fmant < 2^53], a subnormal one has [fexp = -1074]. *)
Record float : Type := Float { fmant : Z; fexp : Z }.

Definition float_zero : float := Float 0 0.

(** [n / d] rounded to the nearest integer, ties to even ([0 <= n], [0 < d]). *)
Definition rne_div (n d : Z) : Z :=
  let q := n / d in
  let r := n mod d in
  if 2 * r <? d then q
  else if d <? 2 * r then q + 1
  else if Z.even q then q else q + 1.

(** [p * 2 ^ s / q] as a fraction of integers, for either sign of [s]. *)
Definition scaled_num (p s : Z) : Z := if 0 <=? s then p * 2 ^ s else p.
Definition scaled_den (q s : Z) : Z := if 0 <=? s then q else q * 2 ^ (- s).

Definition float_norm (m e : Z) : float :=
  if m =? 0 then float_zero
  else if m =? 2 ^ 53 then Float (2 ^ 52) (e + 1)
  else Float m e.

(** [p / q] on two ints ([0 <= p]): the binary64 value nearest to the
    exact quotient, ties to even; [q = 0] raises. *)
Definition truediv (p q : Z) : py float :=
  if q =? 0 then Raise ZeroDivisionError
  else if p =? 0 then Return float_zero
  else
    let s0 := 53 - Z.log2 p + Z.log2 q in
    let s1 := if scaled_num p s0 / scaled_den q s0 <? 2 ^ 53 then s0 else s0 - 1 in
    let s := Z.min s1 1074 in
    Return (float_norm (rne_div (scaled_num p s) (scaled_den q s)) (- s)).

(** The integer [k] with [round(x, 2) = k / 100]: [100 * x] rounded to the
    nearest integer, ties to even, on the exact value of [x]. *)
Definition hundredths (x : float) : Z :=
  if 0 <=? fexp x then 100 * fmant x * 2 ^ fexp x
  else rne_div (100 * fmant x) (2 ^ (- fexp x)).

(** [round(x, 2)]: the binary64 value nearest to [hundredths x / 100]. *)
Definition round2 (x : float) : py float := truediv (hundredths x) 100.

(** ** Quiz scoring *)

Record QuizAnswer : Type := {
  question_id : string;
  selected_option : string;
  answer_value : option Z
}.

Record QuizSubmit : Type := {
  attempt_id : string;
  answers : list QuizAnswer
}.

(** A document of [db.questions], with the two fields scoring reads.
    [stress_marker_flag] may be absent from a stored document. *)
Record Question : Type := {
  q_question_id : string;
  stress_marker_flag : option bool
}.

(** A document of [db.quiz_attempts]. *)
Record Attempt : Type := {
  a_attempt_id : string;
  a_user_id : string;
  a_series : string
}.

Record Database : Type := {
  quiz_attempts : list Attempt;
  questions : list Question
}.

(** [db.questions.find_one({"question_id": qid})] *)
Definition find_question (db : Database) (qid : string) : option Question :=
  List.find (λ q, String.eqb (q_question_id q) qid) (questions db).

(** [db.quiz_attempts.find_one({"attempt_id": aid, "user_id": uid})] *)
Definition find_attempt (db : Database) (aid uid : string) : option Attempt :=
  List.find (λ a, (String.eqb (a_attempt_id a) aid && String.eqb (a_user_id a) uid)%bool)
            (quiz_attempts db).

(** The ordered dict [scores]. *)
Definition dict_contains (d : list (string * Z)) (k : string) : bool :=
  existsb (λ kv, String.eqb kv.1 k) d.

(** [d[k] += 1] for a key that is present: the key keeps its position. *)
Definition dict_incr (d : list (string * Z)) (k : string) : list (string * Z) :=
  List.map (λ kv, if String.eqb kv.1 k then (kv.1, kv.2 + 1) else kv) d.

Definition dict_values (d : list (string * Z)) : list Z := List.map snd d.

Definition initial_scores : list (string * Z) :=
  [("driver", 0); ("spark", 0); ("anchor", 0); ("analyst", 0)].

(** [question.get("stress_marker_flag")] as a truth value. *)
Definition stress_marked (q : option Question) : bool :=
  match q with
  | Some d => match stress_marker_flag d with Some b => b | None => false end
  | None => false
  end.

(** One iteration of the loop over [data.answers]; the state is
    [(scores, stress_markers)]. *)
Definition score_answer (db : Database) (st : list (string * Z) * Z)
    (answer : QuizAnswer) : list (string * Z) * Z :=
  let '(scores, stress_markers) := st in
  let archetype := lower (selected_option answer) in
  let scores := if dict_contains scores archetype
                then dict_incr scores archetype else scores in
  let question := find_question db (question_id answer) in
  let stress_markers :=
    if (stress_marked question && String.eqb archetype "driver")%bool
    then stress_markers + 1 else stress_markers in
  (scores, stress_markers).

Definition score_loop (db : Database) (l : list QuizAnswer) : list (string * Z) * Z :=
  fold_left (score_answer db) l (initial_scores, 0).

(** The result document, without the generated [result_id] and
    [created_at]. *)
Record QuizResult : Type := {
  primary_archetype : string;
  secondary_archetype : string;
  scores : list (string * Z);
  balance_index : float;
  stress_flag : bool;
  is_paid : bool
}.

(** [len(data.answers) or 1] *)
Definition total_questions (l : list QuizAnswer) : Z :=
  if Z.of_nat (length l) =? 0 then 1 else Z.of_nat (length l).

(** The scoring block of [submit_quiz]. *)
Definition calculate_scores (db : Database) (l : list QuizAnswer) : py QuizResult :=
  let '(scores, stress_markers) := score_loop db l in
  let sorted_scores := sorted_reverse snd scores in
  primary ← item sorted_scores 0;
  secondary ← item sorted_scores 1;
  max_score ← py_max (dict_values scores);
  min_score ← py_min (dict_values scores);
  quotient ← truediv (max_score - min_score) (total_questions l);
  balance ← round2 quotient;
  Return {| primary_archetype := primary.1;
            secondary_archetype := secondary.1;
            scores := scores;
            balance_index := balance;
            stress_flag := 3 <=? stress_markers;
            is_paid := false |}.

(** [submit_quiz]: the attempt must exist for the user, then the answers
    are scored.  The writes to [db.results] and [db.quiz_attempts] do not
    feed back into the returned result and are left out. *)
Definition submit_quiz (db : Database) (data : QuizSubmit) (user_id : string)
    : py QuizResult :=
  match find_attempt db (attempt_id data) user_id with
  | None => Raise (HTTPException 404 "Quiz attempt not found")
  | Some _ => calculate_scores db (answers data)
  end.

(** ** The compatibility matrix *)

Definition archetypes : list string := ["driver"; "spark"; "anchor"; "analyst"].

(** One entry of [COMPATIBILITY_MATRIX]: a dict with these twelve keys. *)
Record CompatRecord : Type := {
  compatibility_score : Z;
  energy : string;
  title_id : string;
  title_en : string;
  summary_id : string;
  summary_en : string;
  strengths_id : list string;
  strengths_en : list string;
  challenges_id : list string;
  challenges_en : list string;
  tips_id : list string;
  tips_en : list string
}.

Definition rec_driver_driver : CompatRecord :=
  {| compatibility_score := 65;
     energy := "high";
     title_id := "Duo Dinamis";
     title_en := "Dynamic Duo";
     summary_id := "Dua Driver bersama menciptakan energi tinggi dan momentum luar biasa. Keduanya fokus pada hasil dan efisiensi.";
     summary_en := "Two Drivers together create high energy and incredible momentum. Both are focused on results and efficiency.";
     strengths_id := [ "Pengambilan keputusan cepat";
                       "Fokus pada tujuan yang jelas";
                       "Momentum tinggi dalam eksekusi";
                       "Tidak takut tantangan besar";
                       "Saling memahami kebutuhan akan kontrol" ];
     strengths_en := [ "Quick decision making";
                       "Clear goal focus";
                       "High momentum in execution";
                       "Not afraid of big challenges";
                       "Mutual understanding of control needs" ];
     challenges_id := [ "Perebutan kendali dan dominasi";
                        "Kurang sabar satu sama lain";
                        "Kompetisi yang tidak sehat";
                        "Kesulitan kompromi";
                        "Risiko konflik ego" ];
     challenges_en := [ "Power struggles and dominance";
                        "Impatience with each other";
                        "Unhealthy competition";
                        "Difficulty compromising";
                        "Risk of ego conflicts" ];
     tips_id := [ "Bagi area tanggung jawab dengan jelas";
                  "Jadwalkan waktu untuk mendengarkan, bukan hanya memimpin";
                  "Rayakan kemenangan bersama, bukan individu";
                  "Latih kesabaran dengan timeout sebelum bereaksi" ];
     tips_en := [ "Clearly divide areas of responsibility";
                  "Schedule time for listening, not just leading";
                  "Celebrate victories together, not individually";
                  "Practice patience with timeouts before reacting" ] |}.

Definition rec_driver_spark : CompatRecord :=
  {| compatibility_score := 85;
     energy := "very_high";
     title_id := "Pemimpin & Inspirator";
     title_en := "Leader & Inspirer";
     summary_id := "Kombinasi yang sangat dinamis! Driver memberikan arah dan struktur, sementara Spark membawa energi, kreativitas, dan antusiasme.";
     summary_en := "A highly dynamic combination! Driver provides direction and structure, while Spark brings energy, creativity, and enthusiasm.";
     strengths_id := [ "Visi besar + eksekusi kreatif";
                       "Energi tinggi yang saling melengkapi";
                       "Driver memberi fokus, Spark memberi inspirasi";
                       "Kemampuan motivasi tim yang kuat";
                       "Inovasi dengan arah yang jelas" ];
     strengths_en := [ "Big vision + creative execution";
                       "Complementary high energy";
                       "Driver gives focus, Spark gives inspiration";
                       "Strong team motivation ability";
                       "Innovation with clear direction" ];
     challenges_id := [ "Spark mungkin merasa dikontrol berlebihan";
                        "Driver bisa frustrasi dengan ketidakkonsistenan Spark";
                        "Perbedaan dalam menghargai detail vs gambaran besar";
                        "Risiko burnout dari terlalu banyak aktivitas" ];
     challenges_en := [ "Spark may feel overly controlled";
                        "Driver can get frustrated with Spark's inconsistency";
                        "Differences in valuing details vs big picture";
                        "Risk of burnout from too many activities" ];
     tips_id := [ "Driver: beri ruang kreativitas untuk Spark";
                  "Spark: hormati kebutuhan Driver akan struktur";
                  "Tetapkan waktu untuk brainstorming bebas";
                  "Buat sistem yang fleksibel tapi tetap ada batasan" ];
     tips_en := [ "Driver: give creative space to Spark";
                  "Spark: respect Driver's need for structure";
                  "Set aside time for free brainstorming";
                  "Create systems that are flexible but have boundaries" ] |}.

Definition rec_driver_anchor : CompatRecord :=
  {| compatibility_score := 75;
     energy := "balanced";
     title_id := "Aksi & Stabilitas";
     title_en := "Action & Stability";
     summary_id := "Driver yang berorientasi hasil bertemu Anchor yang menjaga harmoni. Kombinasi yang seimbang antara progress dan stabilitas.";
     summary_en := "Results-oriented Driver meets harmony-keeping Anchor. A balanced combination of progress and stability.";
     strengths_id := [ "Keseimbangan antara dorongan dan kehati-hatian";
                       "Anchor menstabilkan intensitas Driver";
                       "Driver membantu Anchor keluar dari zona nyaman";
                       "Keputusan yang lebih matang";
                       "Tim yang solid dan dapat diandalkan" ];
     strengths_en := [ "Balance between drive and caution";
                       "Anchor stabilizes Driver's intensity";
                       "Driver helps Anchor step out of comfort zone";
                       "More mature decisions";
                       "Solid and reliable team" ];
     challenges_id := [ "Driver bisa frustrasi dengan kecepatan Anchor";
                        "Anchor mungkin merasa terburu-buru";
                        "Perbedaan prioritas (hasil vs hubungan)";
                        "Anchor kesulitan menyuarakan ketidaksetujuan" ];
     challenges_en := [ "Driver may get frustrated with Anchor's pace";
                        "Anchor may feel rushed";
                        "Different priorities (results vs relationships)";
                        "Anchor struggles to voice disagreement" ];
     tips_id := [ "Driver: perlambat dan hargai proses";
                  "Anchor: berani menyampaikan kebutuhan";
                  "Jadwalkan check-in emosional rutin";
                  "Buat timeline yang realistis bersama" ];
     tips_en := [ "Driver: slow down and appreciate the process";
                  "Anchor: be brave in expressing needs";
                  "Schedule regular emotional check-ins";
                  "Create realistic timelines together" ] |}.

Definition rec_driver_analyst : CompatRecord :=
  {| compatibility_score := 70;
     energy := "focused";
     title_id := "Eksekutor & Strategis";
     title_en := "Executor & Strategist";
     summary_id := "Driver ingin bertindak cepat, Analyst ingin menganalisis dulu. Jika dikelola dengan baik, menghasilkan keputusan yang cepat DAN tepat.";
     summary_en := "Driver wants quick action, Analyst wants to analyze first. If managed well, produces decisions that are both fast AND accurate.";
     strengths_id := [ "Tindakan yang didukung data";
                       "Keputusan strategis yang tereksekusi";
                       "Analyst memberikan perspektif yang Driver lewatkan";
                       "Kombinasi intuisi dan logika";
                       "Hasil yang terukur dan akuntabel" ];
     strengths_en := [ "Data-backed actions";
                       "Strategic decisions that get executed";
                       "Analyst provides perspective Driver misses";
                       "Combination of intuition and logic";
                       "Measurable and accountable results" ];
     challenges_id := [ "Driver frustrasi dengan analysis paralysis";
                        "Analyst merasa didesak tanpa informasi cukup";
                        "Perbedaan kecepatan kerja yang signifikan";
                        "Konflik antara 'cukup baik' vs 'sempurna'" ];
     challenges_en := [ "Driver frustrated with analysis paralysis";
                        "Analyst feels rushed without enough information";
                        "Significant difference in work pace";
                        "Conflict between 'good enough' vs 'perfect'" ];
     tips_id := [ "Tetapkan deadline analisis yang jelas";
                  "Driver: hargai kebutuhan akan data";
                  "Analyst: berikan rekomendasi, bukan hanya data";
                  "Buat framework keputusan bersama" ];
     tips_en := [ "Set clear analysis deadlines";
                  "Driver: appreciate the need for data";
                  "Analyst: provide recommendations, not just data";
                  "Create a decision framework together" ] |}.

Definition rec_spark_spark : CompatRecord :=
  {| compatibility_score := 75;
     energy := "explosive";
     title_id := "Festival Ide";
     title_en := "Idea Festival";
     summary_id := "Dua Spark bersama menciptakan ledakan kreativitas dan kegembiraan! Penuh ide brilian, tapi mungkin kesulitan menuntaskan.";
     summary_en := "Two Sparks together create an explosion of creativity and joy! Full of brilliant ideas, but may struggle to complete them.";
     strengths_id := [ "Kreativitas tanpa batas";
                       "Energi positif yang menular";
                       "Selalu ada ide baru yang exciting";
                       "Lingkungan yang menyenangkan";
                       "Kemampuan improvisasi tinggi" ];
     strengths_en := [ "Unlimited creativity";
                       "Contagious positive energy";
                       "Always new exciting ideas";
                       "Fun environment";
                       "High improvisation ability" ];
     challenges_id := [ "Kesulitan menyelesaikan proyek";
                        "Kurang struktur dan organisasi";
                        "Terlalu banyak ide, kurang fokus";
                        "Menghindari tugas yang membosankan";
                        "Risiko chaos tanpa anchor" ];
     challenges_en := [ "Difficulty completing projects";
                        "Lack of structure and organization";
                        "Too many ideas, not enough focus";
                        "Avoiding boring tasks";
                        "Risk of chaos without anchor" ];
     tips_id := [ "Pilih SATU ide untuk difokuskan";
                  "Buat sistem accountability bersama";
                  "Jadwalkan 'boring time' untuk admin";
                  "Rekrut bantuan untuk detail dan follow-through" ];
     tips_en := [ "Choose ONE idea to focus on";
                  "Create an accountability system together";
                  "Schedule 'boring time' for admin tasks";
                  "Recruit help for details and follow-through" ] |}.

Definition rec_spark_anchor : CompatRecord :=
  {| compatibility_score := 90;
     energy := "harmonious";
     title_id := "Kegembiraan & Kehangatan";
     title_en := "Joy & Warmth";
     summary_id := "Kombinasi yang sangat harmonis! Spark membawa kegembiraan dan spontanitas, Anchor memberikan kehangatan dan stabilitas emosional.";
     summary_en := "A very harmonious combination! Spark brings joy and spontaneity, Anchor provides warmth and emotional stability.";
     strengths_id := [ "Hubungan yang penuh cinta dan kegembiraan";
                       "Anchor memberikan rumah yang aman untuk Spark";
                       "Spark membawa petualangan ke kehidupan Anchor";
                       "Komunikasi yang penuh empati";
                       "Keseimbangan antara fun dan keamanan" ];
     strengths_en := [ "Relationship full of love and joy";
                       "Anchor provides a safe home for Spark";
                       "Spark brings adventure to Anchor's life";
                       "Communication full of empathy";
                       "Balance between fun and security" ];
     challenges_id := [ "Spark mungkin merasa terikat";
                        "Anchor bisa kewalahan dengan energi Spark";
                        "Perbedaan dalam kebutuhan sosial";
                        "Anchor mungkin terlalu mengalah" ];
     challenges_en := [ "Spark may feel tied down";
                        "Anchor can be overwhelmed by Spark's energy";
                        "Differences in social needs";
                        "Anchor may give in too much" ];
     tips_id := [ "Spark: jadwalkan waktu berkualitas di rumah";
                  "Anchor: ikut sesekali dalam petualangan Spark";
                  "Komunikasikan kebutuhan akan ruang/kebersamaan";
                  "Ciptakan tradisi yang menyenangkan bersama" ];
     tips_en := [ "Spark: schedule quality time at home";
                  "Anchor: join Spark's adventures occasionally";
                  "Communicate needs for space/togetherness";
                  "Create fun traditions together" ] |}.

Definition rec_spark_analyst : CompatRecord :=
  {| compatibility_score := 60;
     energy := "contrasting";
     title_id := "Kreativitas & Logika";
     title_en := "Creativity & Logic";
     summary_id := "Kombinasi yang kontras tapi bisa sangat produktif! Spark membawa ide out-of-the-box, Analyst membantu mewujudkannya dengan sistematis.";
     summary_en := "A contrasting but potentially very productive combination! Spark brings out-of-the-box ideas, Analyst helps realize them systematically.";
     strengths_id := [ "Ide kreatif + implementasi sistematis";
                       "Saling melengkapi kekurangan";
                       "Inovasi yang tervalidasi";
                       "Perspektif yang sangat berbeda = solusi unik";
                       "Analyst memberikan reality check yang dibutuhkan" ];
     strengths_en := [ "Creative ideas + systematic implementation";
                       "Complementing each other's weaknesses";
                       "Validated innovation";
                       "Very different perspectives = unique solutions";
                       "Analyst provides needed reality check" ];
     challenges_id := [ "Perbedaan gaya komunikasi yang ekstrem";
                        "Spark merasa dikritik terus-menerus";
                        "Analyst frustrasi dengan ketidakteraturan";
                        "Kesulitan memahami cara berpikir satu sama lain" ];
     challenges_en := [ "Extreme difference in communication styles";
                        "Spark feels constantly criticized";
                        "Analyst frustrated with disorganization";
                        "Difficulty understanding each other's thinking" ];
     tips_id := [ "Hargai perbedaan sebagai kekuatan";
                  "Spark: terima feedback sebagai bantuan";
                  "Analyst: sampaikan kritik dengan cara positif";
                  "Buat zona bebas kritik untuk brainstorming" ];
     tips_en := [ "Appreciate differences as strengths";
                  "Spark: receive feedback as help";
                  "Analyst: deliver criticism positively";
                  "Create criticism-free zones for brainstorming" ] |}.

Definition rec_anchor_anchor : CompatRecord :=
  {| compatibility_score := 80;
     energy := "peaceful";
     title_id := "Pelabuhan Tenang";
     title_en := "Peaceful Harbor";
     summary_id := "Dua Anchor menciptakan lingkungan yang sangat stabil, damai, dan penuh dukungan. Hubungan yang dalam dan tulus.";
     summary_en := "Two Anchors create a very stable, peaceful, and supportive environment. A deep and sincere relationship.";
     strengths_id := [ "Hubungan yang sangat stabil";
                       "Komunikasi yang penuh empati";
                       "Saling mendukung tanpa syarat";
                       "Rumah yang damai dan harmonis";
                       "Loyalitas dan komitmen tinggi" ];
     strengths_en := [ "Very stable relationship";
                       "Empathetic communication";
                       "Unconditional mutual support";
                       "Peaceful and harmonious home";
                       "High loyalty and commitment" ];
     challenges_id := [ "Terlalu nyaman = kurang pertumbuhan";
                        "Menghindari konflik yang perlu dihadapi";
                        "Kesulitan membuat perubahan";
                        "Mungkin terlalu fokus ke dalam";
                        "Kurang spontanitas dan petualangan" ];
     challenges_en := [ "Too comfortable = less growth";
                        "Avoiding conflicts that need to be addressed";
                        "Difficulty making changes";
                        "May be too inward-focused";
                        "Lack of spontaneity and adventure" ];
     tips_id := [ "Jadwalkan petualangan kecil bersama";
                  "Praktikkan menghadapi konflik, bukan menghindari";
                  "Dukung pertumbuhan individu masing-masing";
                  "Undang energi baru sesekali (teman, aktivitas)" ];
     tips_en := [ "Schedule small adventures together";
                  "Practice facing conflicts, not avoiding";
                  "Support each other's individual growth";
                  "Invite new energy occasionally (friends, activities)" ] |}.

Definition rec_anchor_analyst : CompatRecord :=
  {| compatibility_score := 70;
     energy := "thoughtful";
     title_id := "Hati & Pikiran";
     title_en := "Heart & Mind";
     summary_id := "Anchor membawa kehangatan emosional, Analyst membawa kejelasan rasional. Kombinasi yang seimbang jika dikomunikasikan dengan baik.";
     summary_en := "Anchor brings emotional warmth, Analyst brings rational clarity. A balanced combination if communicated well.";
     strengths_id := [ "Keputusan yang melibatkan logika DAN perasaan";
                       "Anchor membantu Analyst terhubung emosional";
                       "Analyst membantu Anchor berpikir jernih";
                       "Keseimbangan antara empati dan objektivitas";
                       "Hubungan yang dalam dan bermakna" ];
     strengths_en := [ "Decisions involving both logic AND feelings";
                       "Anchor helps Analyst connect emotionally";
                       "Analyst helps Anchor think clearly";
                       "Balance between empathy and objectivity";
                       "Deep and meaningful relationship" ];
     challenges_id := [ "Perbedaan bahasa emosional vs logis";
                        "Anchor merasa tidak dipahami secara emosional";
                        "Analyst merasa keputusan terlalu emosional";
                        "Gaya pemecahan masalah yang berbeda" ];
     challenges_en := [ "Difference between emotional vs logical language";
                        "Anchor feels emotionally misunderstood";
                        "Analyst feels decisions are too emotional";
                        "Different problem-solving styles" ];
     tips_id := [ "Analyst: akui perasaan sebelum memberikan solusi";
                  "Anchor: sampaikan kebutuhan dengan jelas";
                  "Belajar 'bahasa' satu sama lain";
                  "Buat waktu untuk emosi DAN analisis" ];
     tips_en := [ "Analyst: acknowledge feelings before giving solutions";
                  "Anchor: express needs clearly";
                  "Learn each other's 'language'";
                  "Make time for both emotions AND analysis" ] |}.

Definition rec_analyst_analyst : CompatRecord :=
  {| compatibility_score := 75;
     energy := "intellectual";
     title_id := "Pikiran Ganda";
     title_en := "Double Minds";
     summary_id := "Dua Analyst bersama menciptakan kemitraan yang sangat rasional dan terstruktur. Percakapan yang dalam dan bermakna.";
     summary_en := "Two Analysts together create a very rational and structured partnership. Deep and meaningful conversations.";
     strengths_id := [ "Percakapan intelektual yang memuaskan";
                       "Keputusan yang sangat terpertimbangkan";
                       "Saling menghormati kebutuhan akan ruang";
                       "Tidak ada drama yang tidak perlu";
                       "Efisiensi dalam mengelola kehidupan" ];
     strengths_en := [ "Satisfying intellectual conversations";
                       "Very well-considered decisions";
                       "Mutual respect for space needs";
                       "No unnecessary drama";
                       "Efficiency in managing life" ];
     challenges_id := [ "Kurang ekspresi emosional";
                        "Terlalu banyak analisis, kurang tindakan";
                        "Menghindari pembicaraan emosional penting";
                        "Hubungan terasa 'dingin' dari luar";
                        "Overthinking masalah kecil" ];
     challenges_en := [ "Lack of emotional expression";
                        "Too much analysis, not enough action";
                        "Avoiding important emotional conversations";
                        "Relationship seems 'cold' from outside";
                        "Overthinking small problems" ];
     tips_id := [ "Jadwalkan waktu untuk koneksi emosional";
                  "Praktikkan menyatakan perasaan, bukan hanya pikiran";
                  "Batasi waktu analisis sebelum bertindak";
                  "Tambahkan elemen spontanitas dan fun" ];
     tips_en := [ "Schedule time for emotional connection";
                  "Practice stating feelings, not just thoughts";
                  "Limit analysis time before acting";
                  "Add elements of spontaneity and fun" ] |}.

Definition rec_spark_driver : CompatRecord :=
  {| compatibility_score := 85;
     energy := "very_high";
     title_id := "Inspirator & Pemimpin";
     title_en := "Inspirer & Leader";
     summary_id := "Kombinasi yang sangat dinamis! Spark membawa kreativitas dan energi, sementara Driver memberikan arah dan eksekusi.";
     summary_en := "A highly dynamic combination! Spark brings creativity and energy, while Driver provides direction and execution.";
     strengths_id := [ "Kreativitas + eksekusi yang kuat";
                       "Energi tinggi yang saling mendorong";
                       "Spark menginspirasi, Driver mewujudkan";
                       "Tim yang mampu memotivasi orang lain";
                       "Inovasi dengan hasil nyata" ];
     strengths_en := [ "Creativity + strong execution";
                       "High energy pushing each other";
                       "Spark inspires, Driver delivers";
                       "Team that can motivate others";
                       "Innovation with real results" ];
     challenges_id := [ "Driver bisa mendominasi ide Spark";
                        "Spark merasa tidak didengar";
                        "Perbedaan dalam pendekatan (struktural vs bebas)";
                        "Kompetisi untuk spotlight" ];
     challenges_en := [ "Driver may dominate Spark's ideas";
                        "Spark feels unheard";
                        "Difference in approach (structural vs free)";
                        "Competition for spotlight" ];
     tips_id := [ "Driver: akui kontribusi kreatif Spark";
                  "Spark: apresiasi kemampuan eksekusi Driver";
                  "Bergantian memimpin dalam proyek berbeda";
                  "Ciptakan ruang aman untuk ide bebas" ];
     tips_en := [ "Driver: acknowledge Spark's creative contribution";
                  "Spark: appreciate Driver's execution ability";
                  "Take turns leading different projects";
                  "Create safe space for free ideas" ] |}.

Definition rec_anchor_driver : CompatRecord :=
  {| compatibility_score := 75;
     energy := "balanced";
     title_id := "Stabilitas & Aksi";
     title_en := "Stability & Action";
     summary_id := "Anchor yang menjaga harmoni bertemu Driver yang berorientasi hasil. Kombinasi yang menyeimbangkan kecepatan dan stabilitas.";
     summary_en := "Harmony-keeping Anchor meets results-oriented Driver. A combination that balances speed and stability.";
     strengths_id := [ "Driver mendorong kemajuan, Anchor menjaga keseimbangan";
                       "Keputusan yang mempertimbangkan hubungan dan hasil";
                       "Anchor memberikan support emosional";
                       "Driver memberikan arah dan motivasi";
                       "Tim yang solid dan produktif" ];
     strengths_en := [ "Driver pushes progress, Anchor maintains balance";
                       "Decisions considering relationships and results";
                       "Anchor provides emotional support";
                       "Driver provides direction and motivation";
                       "Solid and productive team" ];
     challenges_id := [ "Anchor merasa tidak dihargai kontribusinya";
                        "Driver merasa ditahan oleh Anchor";
                        "Perbedaan kecepatan kerja";
                        "Anchor sulit mengatakan tidak ke Driver" ];
     challenges_en := [ "Anchor feels contributions unappreciated";
                        "Driver feels held back by Anchor";
                        "Different work speeds";
                        "Anchor has difficulty saying no to Driver" ];
     tips_id := [ "Driver: ucapkan terima kasih secara eksplisit";
                  "Anchor: latih ketegasan dalam menyampaikan batasan";
                  "Buat keputusan bersama tentang prioritas";
                  "Jadwalkan waktu santai tanpa agenda" ];
     tips_en := [ "Driver: say thank you explicitly";
                  "Anchor: practice assertiveness in setting boundaries";
                  "Make decisions together about priorities";
                  "Schedule relaxation time without agenda" ] |}.

Definition rec_analyst_driver : CompatRecord :=
  {| compatibility_score := 70;
     energy := "focused";
     title_id := "Strategis & Eksekutor";
     title_en := "Strategist & Executor";
     summary_id := "Analyst ingin menganalisis, Driver ingin bertindak. Kombinasi yang kuat untuk keputusan cepat berbasis data.";
     summary_en := "Analyst wants to analyze, Driver wants to act. A strong combination for fast data-based decisions.";
     strengths_id := [ "Keputusan yang cepat dan berbasis data";
                       "Driver memberikan urgensi yang dibutuhkan";
                       "Analyst memberikan kedalaman analisis";
                       "Hasil yang terukur dan optimal";
                       "Saling melengkapi dalam perencanaan dan eksekusi" ];
     strengths_en := [ "Fast and data-based decisions";
                       "Driver provides needed urgency";
                       "Analyst provides depth of analysis";
                       "Measurable and optimal results";
                       "Complementing in planning and execution" ];
     challenges_id := [ "Analyst merasa tertekan oleh deadline Driver";
                        "Driver frustrasi menunggu analisis";
                        "Konflik antara 'sempurna' dan 'sekarang'";
                        "Komunikasi yang terlalu singkat atau terlalu detail" ];
     challenges_en := [ "Analyst feels pressured by Driver's deadlines";
                        "Driver frustrated waiting for analysis";
                        "Conflict between 'perfect' and 'now'";
                        "Communication too brief or too detailed" ];
     tips_id := [ "Sepakati definisi 'cukup' untuk setiap keputusan";
                  "Driver: berikan waktu yang realistis";
                  "Analyst: prioritaskan insight paling penting";
                  "Buat template keputusan bersama" ];
     tips_en := [ "Agree on definition of 'enough' for each decision";
                  "Driver: give realistic time";
                  "Analyst: prioritize most important insights";
                  "Create decision templates together" ] |}.

Definition rec_anchor_spark : CompatRecord :=
  {| compatibility_score := 90;
     energy := "harmonious";
     title_id := "Kehangatan & Kegembiraan";
     title_en := "Warmth & Joy";
     summary_id := "Kombinasi yang sangat harmonis! Anchor memberikan stabilitas dan kehangatan, Spark membawa kegembiraan dan petualangan.";
     summary_en := "A very harmonious combination! Anchor provides stability and warmth, Spark brings joy and adventure.";
     strengths_id := [ "Rumah yang hangat DAN menyenangkan";
                       "Spark dibumi-kan oleh Anchor";
                       "Anchor dibawa keluar zona nyaman oleh Spark";
                       "Keseimbangan sempurna antara fun dan keamanan";
                       "Hubungan yang penuh cinta dan tawa" ];
     strengths_en := [ "Home that is warm AND fun";
                       "Spark grounded by Anchor";
                       "Anchor pushed out of comfort zone by Spark";
                       "Perfect balance between fun and security";
                       "Relationship full of love and laughter" ];
     challenges_id := [ "Spark butuh lebih banyak variasi";
                        "Anchor butuh lebih banyak stabilitas";
                        "Perbedaan energi sosial";
                        "Anchor mungkin terlalu protektif" ];
     challenges_en := [ "Spark needs more variety";
                        "Anchor needs more stability";
                        "Differences in social energy";
                        "Anchor may be too protective" ];
     tips_id := [ "Ciptakan keseimbangan waktu di rumah dan di luar";
                  "Anchor: percayai petualangan Spark";
                  "Spark: hargai kebutuhan Anchor akan rutinitas";
                  "Buat ritual yang menyenangkan bersama" ];
     tips_en := [ "Create balance of time at home and outside";
                  "Anchor: trust Spark's adventures";
                  "Spark: appreciate Anchor's need for routine";
                  "Create fun rituals together" ] |}.

Definition rec_analyst_spark : CompatRecord :=
  {| compatibility_score := 60;
     energy := "contrasting";
     title_id := "Logika & Kreativitas";
     title_en := "Logic & Creativity";
     summary_id := "Kombinasi yang sangat kontras! Analyst yang sistematis bertemu Spark yang bebas. Potensi besar jika saling menghormati.";
     summary_en := "A very contrasting combination! Systematic Analyst meets free-spirited Spark. Great potential if mutually respectful.";
     strengths_id := [ "Kreativitas yang tervalidasi oleh logika";
                       "Ide-ide inovatif yang bisa dieksekusi";
                       "Saling melengkapi perspektif";
                       "Analyst memberi struktur pada ide Spark";
                       "Spark memberi kehidupan pada analisis" ];
     strengths_en := [ "Creativity validated by logic";
                       "Innovative ideas that can be executed";
                       "Complementing perspectives";
                       "Analyst gives structure to Spark's ideas";
                       "Spark brings life to analysis" ];
     challenges_id := [ "Spark merasa dibatasi dan dikritik";
                        "Analyst frustrasi dengan chaos";
                        "Perbedaan cara pemecahan masalah yang ekstrem";
                        "Sulit menemukan bahasa yang sama" ];
     challenges_en := [ "Spark feels limited and criticized";
                        "Analyst frustrated with chaos";
                        "Extreme difference in problem-solving approaches";
                        "Difficult to find common language" ];
     tips_id := [ "Pisahkan waktu brainstorming dan evaluasi";
                  "Analyst: apresiasi dulu sebelum mengkritik";
                  "Spark: terima analisis sebagai bentuk perhatian";
                  "Rayakan keunikan perspektif masing-masing" ];
     tips_en := [ "Separate brainstorming and evaluation time";
                  "Analyst: appreciate first before criticizing";
                  "Spark: accept analysis as a form of care";
                  "Celebrate each other's unique perspectives" ] |}.

Definition rec_analyst_anchor : CompatRecord :=
  {| compatibility_score := 70;
     energy := "thoughtful";
     title_id := "Pikiran & Hati";
     title_en := "Mind & Heart";
     summary_id := "Analyst yang rasional bertemu Anchor yang emosional. Keseimbangan yang baik jika bisa saling memahami bahasa masing-masing.";
     summary_en := "Rational Analyst meets emotional Anchor. A good balance if they can understand each other's language.";
     strengths_id := [ "Keputusan yang seimbang (logis dan emosional)";
                       "Analyst belajar empati dari Anchor";
                       "Anchor belajar berpikir jernih dari Analyst";
                       "Hubungan yang stabil dan bermakna";
                       "Komunikasi yang dalam jika terbangun" ];
     strengths_en := [ "Balanced decisions (logical and emotional)";
                       "Analyst learns empathy from Anchor";
                       "Anchor learns clear thinking from Analyst";
                       "Stable and meaningful relationship";
                       "Deep communication once established" ];
     challenges_id := [ "Anchor merasa tidak dipahami secara emosional";
                        "Analyst merasa terlalu banyak emosi";
                        "Perbedaan cara mengekspresikan cinta";
                        "Kesulitan dalam komunikasi konflik" ];
     challenges_en := [ "Anchor feels emotionally misunderstood";
                        "Analyst feels there are too many emotions";
                        "Different ways of expressing love";
                        "Difficulty in conflict communication" ];
     tips_id := [ "Analyst: latih menyebut perasaan secara eksplisit";
                  "Anchor: berikan ruang untuk Analyst memproses";
                  "Buat 'love language' yang dipahami bersama";
                  "Jadwalkan waktu untuk koneksi emosional" ];
     tips_en := [ "Analyst: practice naming feelings explicitly";
                  "Anchor: give Analyst space to process";
                  "Create a 'love language' understood by both";
                  "Schedule time for emotional connection" ] |}.

(** The items of the dict literal, in the order they are written. *)
Definition matrix_items : list (string * CompatRecord) :=
    [ ("driver_driver", rec_driver_driver);
      ("driver_spark", rec_driver_spark);
      ("driver_anchor", rec_driver_anchor);
      ("driver_analyst", rec_driver_analyst);
      ("spark_spark", rec_spark_spark);
      ("spark_anchor", rec_spark_anchor);
      ("spark_analyst", rec_spark_analyst);
      ("anchor_anchor", rec_anchor_anchor);
      ("anchor_analyst", rec_anchor_analyst);
      ("analyst_analyst", rec_analyst_analyst);
      ("spark_driver", rec_spark_driver);
      ("anchor_driver", rec_anchor_driver);
      ("analyst_driver", rec_analyst_driver);
      ("anchor_spark", rec_anchor_spark);
      ("analyst_spark", rec_analyst_spark);
      ("analyst_anchor", rec_analyst_anchor) ].

Definition COMPATIBILITY_MATRIX : gmap string CompatRecord :=
  list_to_map matrix_items.

(** [key in COMPATIBILITY_MATRIX] *)
Definition matrix_contains (key : string) : bool :=
  match COMPATIBILITY_MATRIX !! key with
  | Some _ => true
  | None => false
  end.

(** [COMPATIBILITY_MATRIX[key]] *)
Definition matrix_get (key : string) : py CompatRecord :=
  match COMPATIBILITY_MATRIX !! key with
  | Some data => Return data
  | None => Raise (KeyError key)
  end.

(** [data[f"{name}_{language}"]] for one of the localized fields: the
    record holds the key for the languages [id] and [en] only. *)
Definition localized {A : Type} (name language : string) (v_id v_en : A) : py A :=
  if String.eqb language "id" then Return v_id
  else if String.eqb language "en" then Return v_en
  else Raise (KeyError (name +:+ "_" +:+ language)).

Definition get_title (data : CompatRecord) (language : string) : py string :=
  localized "title" language (title_id data) (title_en data).
Definition get_summary (data : CompatRecord) (language : string) : py string :=
  localized "summary" language (summary_id data) (summary_en data).
Definition get_strengths (data : CompatRecord) (language : string) : py (list string) :=
  localized "strengths" language (strengths_id data) (strengths_en data).
Definition get_challenges (data : CompatRecord) (language : string) : py (list string) :=
  localized "challenges" language (challenges_id data) (challenges_en data).
Definition get_tips (data : CompatRecord) (language : string) : py (list string) :=
  localized "tips" language (tips_id data) (tips_en data).

(** The dict returned by [get_compatibility_pair]. *)
Record PairView : Type := {
  pair : string;
  archetype1 : string;
  archetype2 : string;
  pair_compatibility_score : Z;
  pair_energy : string;
  pair_title : string;
  pair_summary : string;
  pair_strengths : list string;
  pair_challenges : list string;
  pair_tips : list string
}.

Definition pair_key (a b : string) : string := a +:+ "_" +:+ b.

(** The key under which the pair is found: caller order first, then
    reversed; neither present is a 404. *)
Definition resolve_key (arch1 arch2 : string) : py string :=
  let key := pair_key arch1 arch2 in
  if negb (matrix_contains key) then
    let key := pair_key arch2 arch1 in
    if negb (matrix_contains key) then
      Raise (HTTPException 404 "Compatibility pair not found")
    else Return key
  else Return key.

Definition get_compatibility_pair (arch1 arch2 language : string) : py PairView :=
  let arch1 := lower arch1 in
  let arch2 := lower arch2 in
  key ← resolve_key arch1 arch2;
  data ← matrix_get key;
  title ← get_title data language;
  summary ← get_summary data language;
  strengths ← get_strengths data language;
  challenges ← get_challenges data language;
  tips ← get_tips data language;
  Return {| pair := pair_key arch1 arch2;
            archetype1 := arch1;
            archetype2 := arch2;
            pair_compatibility_score := compatibility_score data;
            pair_energy := energy data;
            pair_title := title;
            pair_summary := summary;
            pair_strengths := strengths;
            pair_challenges := challenges;
            pair_tips := tips |}.

(** One element of the list built by [get_compatibility_for_archetype]. *)
Record Entry : Type := {
  with_archetype : string;
  entry_compatibility_score : Z;
  entry_energy : string;
  entry_title : string;
  entry_summary : string
}.

Record ArchetypeView : Type := {
  view_archetype : string;
  compatibilities : list Entry
}.

(** One iteration of the loop over [archetypes]: the entry for
    [other_arch] is appended when one of the two keys is in the table. *)
Definition append_entry (archetype language : string) (acc : list Entry)
    (other_arch : string) : py (list Entry) :=
  let key := pair_key archetype other_arch in
  let key := if negb (matrix_contains key) then pair_key other_arch archetype else key in
  if matrix_contains key then
    data ← matrix_get key;
    title ← get_title data language;
    summary ← get_summary data language;
    Return (acc ++ [ {| with_archetype := other_arch;
                        entry_compatibility_score := compatibility_score data;
                        entry_energy := energy data;
                        entry_title := title;
                        entry_summary := summary |} ])%list
  else Return acc.

Fixpoint entries_loop (archetype language : string) (acc : list Entry)
    (others : list string) : py (list Entry) :=
  match others with
  | [] => Return acc
  | other_arch :: rest =>
      acc' ← append_entry archetype language acc other_arch;
      entries_loop archetype language acc' rest
  end.

Definition get_compatibility_for_archetype (archetype language : string)
    : py ArchetypeView :=
  let archetype := lower archetype in
  if negb (existsb (String.eqb archetype) archetypes) then
    Raise (HTTPException 400 "Invalid archetype")
  else
    compatibilities ← entries_loop archetype language [] archetypes;
    Return {| view_archetype := archetype;
              compatibilities := sorted_reverse entry_compatibility_score compatibilities |}.

(** ** Vocabulary of the properties *)

(** The languages for which every table entry carries its localized keys. *)
Definition supported_languages : list string := ["id"; "en"].

(** The number of answers whose lowercased option is [a]. *)
Definition count_for (a : string) (l : list QuizAnswer) : Z :=
  Z.of_nat (length (filter (λ x, lower (selected_option x) = a) l)).

Definition counted_scores (l : list QuizAnswer) : list (string * Z) :=
  [("driver", count_for "driver" l); ("spark", count_for "spark" l);
   ("anchor", count_for "anchor" l); ("analyst", count_for "analyst" l)].

Definition max_count (l : list QuizAnswer) : Z :=
  Z.max (count_for "driver" l)
    (Z.max (count_for "spark" l) (Z.max (count_for "anchor" l) (count_for "analyst" l))).

Definition min_count (l : list QuizAnswer) : Z :=
  Z.min (count_for "driver" l)
    (Z.min (count_for "spark" l) (Z.min (count_for "anchor" l) (count_for "analyst" l))).

(** The answers that were scored: their lowercased option is an archetype. *)
Definition scored (l : list QuizAnswer) : list QuizAnswer :=
  filter (λ x, lower (selected_option x) ∈ archetypes) l.

(** The position of an archetype in the fixed order driver, spark, anchor,
    analyst. *)
Definition order_index (a : string) : nat :=
  if String.eqb a "driver" then 0
  else if String.eqb a "spark" then 1
  else if String.eqb a "anchor" then 2
  else if String.eqb a "analyst" then 3
  else 4.

(** [a] ranks before [b]: more answers, or as many and earlier in the
    fixed order. *)
Definition outranks (l : list QuizAnswer) (a b : string) : Prop :=
  count_for b l < count_for a l ∨
  (count_for b l = count_for a l ∧ (order_index a < order_index b)%nat).

(** [x] comes before [y] in a descending order on [key] whose ties are
    broken by the ascending order on [ord]. *)
Definition tie_break_before {A : Type} (key : A → Z) (ord : A → nat) (x y : A) : Prop :=
  key y < key x ∨ (key y = key x ∧ (ord x < ord y)%nat).

(** Item [p] of the dict [scores] ranks before item [e]. *)
Definition ranks_before (p e : string * Z) : Prop :=
  e.2 < p.2 ∨ (e.2 = p.2 ∧ (order_index p.1 < order_index e.1)%nat).

(** The question of the answer exists and is flagged as a stress marker. *)
Definition has_stress_marker (db : Database) (x : QuizAnswer) : Prop :=
  ∃ q, find_question db (question_id x) = Some q ∧ stress_marker_flag q = Some true.

Definition stress_answer (db : Database) (x : QuizAnswer) : Prop :=
  has_stress_marker db x ∧ lower (selected_option x) = "driver".

#[global] Instance has_stress_marker_dec db x : Decision (has_stress_marker db x).
Proof.
  unfold has_stress_marker.
  destruct (find_question db (question_id x)) as [q|].
  - destruct (stress_marker_flag q) as [[|]|] eqn:Hflag.
    + left. by exists q.
    + right. intros (q' & [= <-] & Hq). congruence.
    + right. intros (q' & [= <-] & Hq). congruence.
  - right. intros (q' & Hq & _). discriminate.
Defined.

#[global] Instance stress_answer_dec db x : Decision (stress_answer db x).
Proof.
  unfold stress_answer. apply and_dec; [apply has_stress_marker_dec|].
  apply String.eq_dec.
Defined.

Definition stress_count (db : Database) (l : list QuizAnswer) : Z :=
  Z.of_nat (length (filter (stress_answer db) l)).

(** The balance index as the specification words it: the denominator is
    the number of answers that were scored, or 1 when there is none. *)
Definition spec_total_answers (l : list QuizAnswer) : Z :=
  Z.max 1 (Z.of_nat (length (scored l))).

Definition spec_balance_index (l : list QuizAnswer) : py float :=
  q ← truediv (max_count l - min_count l) (spec_total_answers l);
  round2 q.

(** The balance index over the number of submitted answers. *)
Definition submitted_balance_index (l : list QuizAnswer) : py float :=
  q ← truediv (max_count l - min_count l) (Z.max 1 (Z.of_nat (length l)));
  round2 q.

(** The two error classes of the specification, as the handlers raise them. *)
Definition InvalidArgumentError : exn := HTTPException 400 "Invalid archetype".
Definition NotFoundError : exn := HTTPException 404 "Compatibility pair not found".

(** Entry [e] is listed before [e']: a higher score, or the same score and
    an archetype earlier in the fixed order. *)
Definition listed_before (e e' : Entry) : Prop :=
  entry_compatibility_score e' < entry_compatibility_score e ∨
  (entry_compatibility_score e' = entry_compatibility_score e ∧
   (order_index (with_archetype e) < order_index (with_archetype e'))%nat).

(** The list entry that repeats the pair lookup [w] for archetype [x]. *)
Definition entry_of (x : string) (w : PairView) : Entry :=
  {| with_archetype := x;
     entry_compatibility_score := pair_compatibility_score w;
     entry_energy := pair_energy w;
     entry_title := pair_title w;
     entry_summary := pair_summary w |}.

(** All the ways to write [k] as [x +:+ "_" +:+ y]. *)
Fixpoint splits (k : string) : list (string * string) :=
  match k with
  | EmptyString => []
  | String c k' =>
      (if Ascii.eqb c "_"%char then [(EmptyString, k')] else []) ++
      List.map (λ xy, (String c xy.1, xy.2)) (splits k')
  end.

Definition mk_answer (qid opt : string) : QuizAnswer :=
  {| question_id := qid; selected_option := opt; answer_value := None |}.

Definition db0 : Database := {| quiz_attempts := []; questions := [] |}.

(** A question bank with one stress marker, one plain question and one
    document without the flag. *)
Definition db1 : Database :=
  {| quiz_attempts := [];
     questions := [ {| q_question_id := "q_family_1"; stress_marker_flag := Some true |};
                    {| q_question_id := "q_family_2"; stress_marker_flag := Some false |};
                    {| q_question_id := "q_family_3"; stress_marker_flag := None |} ] |}.

Definition flag_of (r : py QuizResult) : option bool :=
  match r with
  | Return r => Some (stress_flag r)
  | Raise _ => None
  end.

(** The running state of the scoring loop when the four counts are
    [a], [b], [c] and [d]. *)
Definition tally (a b c d : Z) : list (string * Z) :=
  [("driver", a); ("spark", b); ("anchor", c); ("analyst", d)].

Definition hit (a : string) (x : QuizAnswer) : Z :=
  if decide (lower (selected_option x) = a) then 1 else 0.

Definition stress_hit (db : Database) (x : QuizAnswer) : Z :=
  if decide (stress_answer db x) then 1 else 0.

(** * The handlers around scoring and the matrix *)

(** ** More of Python *)

(** A loop whose body may raise. *)
Fixpoint py_foldl {A B : Type} (f : A → B → py A) (a : A) (l : list B) : py A :=
  match l with
  | [] => Return a
  | x :: l' => a' ← f a x; py_foldl f a' l'
  end.

(** [d.get(k)] and [d[k] = v] on an ordered dict with string keys. *)
Definition dict_get {V : Type} (d : list (string * V)) (k : string) : option V :=
  snd <$> List.find (λ kv, String.eqb kv.1 k) d.

Definition dict_set {V : Type} (d : list (string * V)) (k : string) (v : V)
    : list (string * V) :=
  if existsb (λ kv, String.eqb kv.1 k) d
  then List.map (λ kv, if String.eqb kv.1 k then (kv.1, v) else kv) d
  else (d ++ [(k, v)])%list.

(** The truth value of a string, and of a string that may be [None]. *)
Definition truthy (s : string) : bool := negb (String.eqb s "").

Definition truthy_opt (s : option string) : bool :=
  match s with
  | Some s => truthy s
  | None => false
  end.

(** [str.title()]: a code point that follows a cased code point is
    lowercased, any other is titlecased.  The titlecase mapping is that of
    the same database: [to_title_table] for the code points that map to
    one code point, [to_title_special] for those that map to several. *)
Definition to_title_table : list (N * N) :=
  [(0x61, 0x41); (0x62, 0x42); (0x63, 0x43); (0x64, 0x44);
    (0x65, 0x45); (0x66, 0x46); (0x67, 0x47); (0x68, 0x48);
    (0x69, 0x49); (0x6A, 0x4A); (0x6B, 0x4B); (0x6C, 0x4C);
    (0x6D, 0x4D); (0x6E, 0x4E); (0x6F, 0x4F); (0x70, 0x50);
    (0x71, 0x51); (0x72, 0x52); (0x73, 0x53); (0x74, 0x54);
    (0x75, 0x55); (0x76, 0x56); (0x77, 0x57); (0x78, 0x58);
    (0x79, 0x59); (0x7A, 0x5A); (0xB5, 0x39C); (0xE0, 0xC0);
    (0xE1, 0xC1); (0xE2, 0xC2); (0xE3, 0xC3); (0xE4, 0xC4);
    (0xE5, 0xC5); (0xE6, 0xC6); (0xE7, 0xC7); (0xE8, 0xC8);
    (0xE9, 0xC9); (0xEA, 0xCA); (0xEB, 0xCB); (0xEC, 0xCC);
    (0xED, 0xCD); (0xEE, 0xCE); (0xEF, 0xCF); (0xF0, 0xD0);
    (0xF1, 0xD1); (0xF2, 0xD2); (0xF3, 0xD3); (0xF4, 0xD4);
    (0xF5, 0xD5); (0xF6, 0xD6); (0xF8, 0xD8); (0xF9, 0xD9);
    (0xFA, 0xDA); (0xFB, 0xDB); (0xFC, 0xDC); (0xFD, 0xDD);
    (0xFE, 0xDE); (0xFF, 0x178); (0x101, 0x100); (0x103, 0x102);
    (0x105, 0x104); (0x107, 0x106); (0x109, 0x108); (0x10B, 0x10A);
    (0x10D, 0x10C); (0x10F, 0x10E); (0x111, 0x110); (0x113, 0x112);
    (0x115, 0x114); (0x117, 0x116); (0x119, 0x118); (0x11B, 0x11A);
    (0x11D, 0x11C); (0x11F, 0x11E); (0x121, 0x120); (0x123, 0x122);
    (0x125, 0x124); (0x127, 0x126); (0x129, 0x128); (0x12B, 0x12A);
    (0x12D, 0x12C); (0x12F, 0x12E); (0x131, 0x49); (0x133, 0x132);
    (0x135, 0x134); (0x137, 0x136); (0x13A, 0x139); (0x13C, 0x13B);
    (0x13E, 0x13D); (0x140, 0x13F); (0x142, 0x141); (0x144, 0x143);
    (0x146, 0x145); (0x148, 0x147); (0x14B, 0x14A); (0x14D, 0x14C);
    (0x14F, 0x14E); (0x151, 0x150); (0x153, 0x152); (0x155, 0x154);
    (0x157, 0x156); (0x159, 0x158); (0x15B, 0x15A); (0x15D, 0x15C);
    (0x15F, 0x15E); (0x161, 0x160); (0x163, 0x162); (0x165, 0x164);
    (0x167, 0x166); (0x169, 0x168); (0x16B, 0x16A); (0x16D, 0x16C);
    (0x16F, 0x16E); (0x171, 0x170); (0x173, 0x172); (0x175, 0x174);
    (0x177, 0x176); (0x17A, 0x179); (0x17C, 0x17B); (0x17E, 0x17D);
    (0x17F, 0x53); (0x180, 0x243); (0x183, 0x182); (0x185, 0x184);
    (0x188, 0x187); (0x18C, 0x18B); (0x192, 0x191); (0x195, 0x1F6);
    (0x199, 0x198); (0x19A, 0x23D); (0x19E, 0x220); (0x1A1, 0x1A0);
    (0x1A3, 0x1A2); (0x1A5, 0x1A4); (0x1A8, 0x1A7); (0x1AD, 0x1AC);
    (0x1B0, 0x1AF); (0x1B4, 0x1B3); (0x1B6, 0x1B5); (0x1B9, 0x1B8);
    (0x1BD, 0x1BC); (0x1BF, 0x1F7); (0x1C4, 0x1C5); (0x1C6, 0x1C5);
    (0x1C7, 0x1C8); (0x1C9, 0x1C8); (0x1CA, 0x1CB); (0x1CC, 0x1CB);
    (0x1CE, 0x1CD); (0x1D0, 0x1CF); (0x1D2, 0x1D1); (0x1D4, 0x1D3);
    (0x1D6, 0x1D5); (0x1D8, 0x1D7); (0x1DA, 0x1D9); (0x1DC, 0x1DB);
    (0x1DD, 0x18E); (0x1DF, 0x1DE); (0x1E1, 0x1E0); (0x1E3, 0x1E2);
    (0x1E5, 0x1E4); (0x1E7, 0x1E6); (0x1E9, 0x1E8); (0x1EB, 0x1EA);
    (0x1ED, 0x1EC); (0x1EF, 0x1EE); (0x1F1, 0x1F2); (0x1F3, 0x1F2);
    (0x1F5, 0x1F4); (0x1F9, 0x1F8); (0x1FB, 0x1FA); (0x1FD, 0x1FC);
    (0x1FF, 0x1FE); (0x201, 0x200); (0x203, 0x202); (0x205, 0x204);
    (0x207, 0x206); (0x209, 0x208); (0x20B, 0x20A); (0x20D, 0x20C);
    (0x20F, 0x20E); (0x211, 0x210); (0x213, 0x212); (0x215, 0x214);
    (0x217, 0x216); (0x219, 0x218); (0x21B, 0x21A); (0x21D, 0x21C);
    (0x21F, 0x21E); (0x223, 0x222); (0x225, 0x224); (0x227, 0x226);
    (0x229, 0x228); (0x22B, 0x22A); (0x22D, 0x22C); (0x22F, 0x22E);
    (0x231, 0x230); (0x233, 0x232); (0x23C, 0x23B); (0x23F, 0x2C7E);
    (0x240, 0x2C7F); (0x242, 0x241); (0x247, 0x246); (0x249, 0x248);
    (0x24B, 0x24A); (0x24D, 0x24C); (0x24F, 0x24E); (0x250, 0x2C6F);
    (0x251, 0x2C6D); (0x252, 0x2C70); (0x253, 0x181); (0x254, 0x186);
    (0x256, 0x189); (0x257, 0x18A); (0x259, 0x18F); (0x25B, 0x190);
    (0x25C, 0xA7AB); (0x260, 0x193); (0x261, 0xA7AC); (0x263, 0x194);
    (0x265, 0xA78D); (0x266, 0xA7AA); (0x268, 0x197); (0x269, 0x196);
    (0x26A, 0xA7AE); (0x26B, 0x2C62); (0x26C, 0xA7AD); (0x26F, 0x19C);
    (0x271, 0x2C6E); (0x272, 0x19D); (0x275, 0x19F); (0x27D, 0x2C64);
    (0x280, 0x1A6); (0x282, 0xA7C5); (0x283, 0x1A9); (0x287, 0xA7B1);
    (0x288, 0x1AE); (0x289, 0x244); (0x28A, 0x1B1); (0x28B, 0x1B2);
    (0x28C, 0x245); (0x292, 0x1B7); (0x29D, 0xA7B2); (0x29E, 0xA7B0);
    (0x345, 0x399); (0x371, 0x370); (0x373, 0x372); (0x377, 0x376);
    (0x37B, 0x3FD); (0x37C, 0x3FE); (0x37D, 0x3FF); (0x3AC, 0x386);
    (0x3AD, 0x388); (0x3AE, 0x389); (0x3AF, 0x38A); (0x3B1, 0x391);
    (0x3B2, 0x392); (0x3B3, 0x393); (0x3B4, 0x394); (0x3B5, 0x395);
    (0x3B6, 0x396); (0x3B7, 0x397); (0x3B8, 0x398); (0x3B9, 0x399);
    (0x3BA, 0x39A); (0x3BB, 0x39B); (0x3BC, 0x39C); (0x3BD, 0x39D);
    (0x3BE, 0x39E); (0x3BF, 0x39F); (0x3C0, 0x3A0); (0x3C1, 0x3A1);
    (0x3C2, 0x3A3); (0x3C3, 0x3A3); (0x3C4, 0x3A4); (0x3C5, 0x3A5);
    (0x3C6, 0x3A6); (0x3C7, 0x3A7); (0x3C8, 0x3A8); (0x3C9, 0x3A9);
    (0x3CA, 0x3AA); (0x3CB, 0x3AB); (0x3CC, 0x38C); (0x3CD, 0x38E);
    (0x3CE, 0x38F); (0x3D0, 0x392); (0x3D1, 0x398); (0x3D5, 0x3A6);
    (0x3D6, 0x3A0); (0x3D7, 0x3CF); (0x3D9, 0x3D8); (0x3DB, 0x3DA);
    (0x3DD, 0x3DC); (0x3DF, 0x3DE); (0x3E1, 0x3E0); (0x3E3, 0x3E2);
    (0x3E5, 0x3E4); (0x3E7, 0x3E6); (0x3E9, 0x3E8); (0x3EB, 0x3EA);
    (0x3ED, 0x3EC); (0x3EF, 0x3EE); (0x3F0, 0x39A); (0x3F1, 0x3A1);
    (0x3F2, 0x3F9); (0x3F3, 0x37F); (0x3F5, 0x395); (0x3F8, 0x3F7);
    (0x3FB, 0x3FA); (0x430, 0x410); (0x431, 0x411); (0x432, 0x412);
    (0x433, 0x413); (0x434, 0x414); (0x435, 0x415); (0x436, 0x416);
    (0x437, 0x417); (0x438, 0x418); (0x439, 0x419); (0x43A, 0x41A);
    (0x43B, 0x41B); (0x43C, 0x41C); (0x43D, 0x41D); (0x43E, 0x41E);
    (0x43F, 0x41F); (0x440, 0x420); (0x441, 0x421); (0x442, 0x422);
    (0x443, 0x423); (0x444, 0x424); (0x445, 0x425); (0x446, 0x426);
    (0x447, 0x427); (0x448, 0x428); (0x449, 0x429); (0x44A, 0x42A);
    (0x44B, 0x42B); (0x44C, 0x42C); (0x44D, 0x42D); (0x44E, 0x42E);
    (0x44F, 0x42F); (0x450, 0x400); (0x451, 0x401); (0x452, 0x402);
    (0x453, 0x403); (0x454, 0x404); (0x455, 0x405); (0x456, 0x406);
    (0x457, 0x407); (0x458, 0x408); (0x459, 0x409); (0x45A, 0x40A);
    (0x45B, 0x40B); (0x45C, 0x40C); (0x45D, 0x40D); (0x45E, 0x40E);
    (0x45F, 0x40F); (0x461, 0x460); (0x463, 0x462); (0x465, 0x464);
    (0x467, 0x466); (0x469, 0x468); (0x46B, 0x46A); (0x46D, 0x46C);
    (0x46F, 0x46E); (0x471, 0x470); (0x473, 0x472); (0x475, 0x474);
    (0x477, 0x476); (0x479, 0x478); (0x47B, 0x47A); (0x47D, 0x47C);
    (0x47F, 0x47E); (0x481, 0x480); (0x48B, 0x48A); (0x48D, 0x48C);
    (0x48F, 0x48E); (0x491, 0x490); (0x493, 0x492); (0x495, 0x494);
    (0x497, 0x496); (0x499, 0x498); (0x49B, 0x49A); (0x49D, 0x49C);
    (0x49F, 0x49E); (0x4A1, 0x4A0); (0x4A3, 0x4A2); (0x4A5, 0x4A4);
    (0x4A7, 0x4A6); (0x4A9, 0x4A8); (0x4AB, 0x4AA); (0x4AD, 0x4AC);
    (0x4AF, 0x4AE); (0x4B1, 0x4B0); (0x4B3, 0x4B2); (0x4B5, 0x4B4);
    (0x4B7, 0x4B6); (0x4B9, 0x4B8); (0x4BB, 0x4BA); (0x4BD, 0x4BC);
    (0x4BF, 0x4BE); (0x4C2, 0x4C1); (0x4C4, 0x4C3); (0x4C6, 0x4C5);
    (0x4C8, 0x4C7); (0x4CA, 0x4C9); (0x4CC, 0x4CB); (0x4CE, 0x4CD);
    (0x4CF, 0x4C0); (0x4D1, 0x4D0); (0x4D3, 0x4D2); (0x4D5, 0x4D4);
    (0x4D7, 0x4D6); (0x4D9, 0x4D8); (0x4DB, 0x4DA); (0x4DD, 0x4DC);
    (0x4DF, 0x4DE); (0x4E1, 0x4E0); (0x4E3, 0x4E2); (0x4E5, 0x4E4);
    (0x4E7, 0x4E6); (0x4E9, 0x4E8); (0x4EB, 0x4EA); (0x4ED, 0x4EC);
    (0x4EF, 0x4EE); (0x4F1, 0x4F0); (0x4F3, 0x4F2); (0x4F5, 0x4F4);
    (0x4F7, 0x4F6); (0x4F9, 0x4F8); (0x4FB, 0x4FA); (0x4FD, 0x4FC);
    (0x4FF, 0x4FE); (0x501, 0x500); (0x503, 0x502); (0x505, 0x504);
    (0x507, 0x506); (0x509, 0x508); (0x50B, 0x50A); (0x50D, 0x50C);
    (0x50F, 0x50E); (0x511, 0x510); (0x513, 0x512); (0x515, 0x514);
    (0x517, 0x516); (0x519, 0x518); (0x51B, 0x51A); (0x51D, 0x51C);
    (0x51F, 0x51E); (0x521, 0x520); (0x523, 0x522); (0x525, 0x524);
    (0x527, 0x526); (0x529, 0x528); (0x52B, 0x52A); (0x52D, 0x52C);
    (0x52F, 0x52E); (0x561, 0x531); (0x562, 0x532); (0x563, 0x533);
    (0x564, 0x534); (0x565, 0x535); (0x566, 0x536); (0x567, 0x537);
    (0x568, 0x538); (0x569, 0x539); (0x56A, 0x53A); (0x56B, 0x53B);
    (0x56C, 0x53C); (0x56D, 0x53D); (0x56E, 0x53E); (0x56F, 0x53F);
    (0x570, 0x540); (0x571, 0x541); (0x572, 0x542); (0x573, 0x543);
    (0x574, 0x544); (0x575, 0x545); (0x576, 0x546); (0x577, 0x547);
    (0x578, 0x548); (0x579, 0x549); (0x57A, 0x54A); (0x57B, 0x54B);
    (0x57C, 0x54C); (0x57D, 0x54D); (0x57E, 0x54E); (0x57F, 0x54F);
    (0x580, 0x550); (0x581, 0x551); (0x582, 0x552); (0x583, 0x553);
    (0x584, 0x554); (0x585, 0x555); (0x586, 0x556); (0x13F8, 0x13F0);
    (0x13F9, 0x13F1); (0x13FA, 0x13F2); (0x13FB, 0x13F3); (0x13FC, 0x13F4);
    (0x13FD, 0x13F5); (0x1C80, 0x412); (0x1C81, 0x414); (0x1C82, 0x41E);
    (0x1C83, 0x421); (0x1C84, 0x422); (0x1C85, 0x422); (0x1C86, 0x42A);
    (0x1C87, 0x462); (0x1C88, 0xA64A); (0x1D79, 0xA77D); (0x1D7D, 0x2C63);
    (0x1D8E, 0xA7C6); (0x1E01, 0x1E00); (0x1E03, 0x1E02); (0x1E05, 0x1E04);
    (0x1E07, 0x1E06); (0x1E09, 0x1E08); (0x1E0B, 0x1E0A); (0x1E0D, 0x1E0C);
    (0x1E0F, 0x1E0E); (0x1E11, 0x1E10); (0x1E13, 0x1E12); (0x1E15, 0x1E14);
    (0x1E17, 0x1E16); (0x1E19, 0x1E18); (0x1E1B, 0x1E1A); (0x1E1D, 0x1E1C);
    (0x1E1F, 0x1E1E); (0x1E21, 0x1E20); (0x1E23, 0x1E22); (0x1E25, 0x1E24);
    (0x1E27, 0x1E26); (0x1E29, 0x1E28); (0x1E2B, 0x1E2A); (0x1E2D, 0x1E2C);
    (0x1E2F, 0x1E2E); (0x1E31, 0x1E30); (0x1E33, 0x1E32); (0x1E35, 0x1E34);
    (0x1E37, 0x1E36); (0x1E39, 0x1E38); (0x1E3B, 0x1E3A); (0x1E3D, 0x1E3C);
    (0x1E3F, 0x1E3E); (0x1E41, 0x1E40); (0x1E43, 0x1E42); (0x1E45, 0x1E44);
    (0x1E47, 0x1E46); (0x1E49, 0x1E48); (0x1E4B, 0x1E4A); (0x1E4D, 0x1E4C);
    (0x1E4F, 0x1E4E); (0x1E51, 0x1E50); (0x1E53, 0x1E52); (0x1E55, 0x1E54);
    (0x1E57, 0x1E56); (0x1E59, 0x1E58); (0x1E5B, 0x1E5A); (0x1E5D, 0x1E5C);
    (0x1E5F, 0x1E5E); (0x1E61, 0x1E60); (0x1E63, 0x1E62); (0x1E65, 0x1E64);
    (0x1E67, 0x1E66); (0x1E69, 0x1E68); (0x1E6B, 0x1E6A); (0x1E6D, 0x1E6C);
    (0x1E6F, 0x1E6E); (0x1E71, 0x1E70); (0x1E73, 0x1E72); (0x1E75, 0x1E74);
    (0x1E77, 0x1E76); (0x1E79, 0x1E78); (0x1E7B, 0x1E7A); (0x1E7D, 0x1E7C);
    (0x1E7F, 0x1E7E); (0x1E81, 0x1E80); (0x1E83, 0x1E82); (0x1E85, 0x1E84);
    (0x1E87, 0x1E86); (0x1E89, 0x1E88); (0x1E8B, 0x1E8A); (0x1E8D, 0x1E8C);
    (0x1E8F, 0x1E8E); (0x1E91, 0x1E90); (0x1E93, 0x1E92); (0x1E95, 0x1E94);
    (0x1E9B, 0x1E60); (0x1EA1, 0x1EA0); (0x1EA3, 0x1EA2); (0x1EA5, 0x1EA4);
    (0x1EA7, 0x1EA6); (0x1EA9, 0x1EA8); (0x1EAB, 0x1EAA); (0x1EAD, 0x1EAC);
    (0x1EAF, 0x1EAE); (0x1EB1, 0x1EB0); (0x1EB3, 0x1EB2); (0x1EB5, 0x1EB4);
    (0x1EB7, 0x1EB6); (0x1EB9, 0x1EB8); (0x1EBB, 0x1EBA); (0x1EBD, 0x1EBC);
    (0x1EBF, 0x1EBE); (0x1EC1, 0x1EC0); (0x1EC3, 0x1EC2); (0x1EC5, 0x1EC4);
    (0x1EC7, 0x1EC6); (0x1EC9, 0x1EC8); (0x1ECB, 0x1ECA); (0x1ECD, 0x1ECC);
    (0x1ECF, 0x1ECE); (0x1ED1, 0x1ED0); (0x1ED3, 0x1ED2); (0x1ED5, 0x1ED4);
    (0x1ED7, 0x1ED6); (0x1ED9, 0x1ED8); (0x1EDB, 0x1EDA); (0x1EDD, 0x1EDC);
    (0x1EDF, 0x1EDE); (0x1EE1, 0x1EE0); (0x1EE3, 0x1EE2); (0x1EE5, 0x1EE4);
    (0x1EE7, 0x1EE6); (0x1EE9, 0x1EE8); (0x1EEB, 0x1EEA); (0x1EED, 0x1EEC);
    (0x1EEF, 0x1EEE); (0x1EF1, 0x1EF0); (0x1EF3, 0x1EF2); (0x1EF5, 0x1EF4);
    (0x1EF7, 0x1EF6); (0x1EF9, 0x1EF8); (0x1EFB, 0x1EFA); (0x1EFD, 0x1EFC);
    (0x1EFF, 0x1EFE); (0x1F00, 0x1F08); (0x1F01, 0x1F09); (0x1F02, 0x1F0A);
    (0x1F03, 0x1F0B); (0x1F04, 0x1F0C); (0x1F05, 0x1F0D); (0x1F06, 0x1F0E);
    (0x1F07, 0x1F0F); (0x1F10, 0x1F18); (0x1F11, 0x1F19); (0x1F12, 0x1F1A);
    (0x1F13, 0x1F1B); (0x1F14, 0x1F1C); (0x1F15, 0x1F1D); (0x1F20, 0x1F28);
    (0x1F21, 0x1F29); (0x1F22, 0x1F2A); (0x1F23, 0x1F2B); (0x1F24, 0x1F2C);
    (0x1F25, 0x1F2D); (0x1F26, 0x1F2E); (0x1F27, 0x1F2F); (0x1F30, 0x1F38);
    (0x1F31, 0x1F39); (0x1F32, 0x1F3A); (0x1F33, 0x1F3B); (0x1F34, 0x1F3C);
    (0x1F35, 0x1F3D); (0x1F36, 0x1F3E); (0x1F37, 0x1F3F); (0x1F40, 0x1F48);
    (0x1F41, 0x1F49); (0x1F42, 0x1F4A); (0x1F43, 0x1F4B); (0x1F44, 0x1F4C);
    (0x1F45, 0x1F4D); (0x1F51, 0x1F59); (0x1F53, 0x1F5B); (0x1F55, 0x1F5D);
    (0x1F57, 0x1F5F); (0x1F60, 0x1F68); (0x1F61, 0x1F69); (0x1F62, 0x1F6A);
    (0x1F63, 0x1F6B); (0x1F64, 0x1F6C); (0x1F65, 0x1F6D); (0x1F66, 0x1F6E);
    (0x1F67, 0x1F6F); (0x1F70, 0x1FBA); (0x1F71, 0x1FBB); (0x1F72, 0x1FC8);
    (0x1F73, 0x1FC9); (0x1F74, 0x1FCA); (0x1F75, 0x1FCB); (0x1F76, 0x1FDA);
    (0x1F77, 0x1FDB); (0x1F78, 0x1FF8); (0x1F79, 0x1FF9); (0x1F7A, 0x1FEA);
    (0x1F7B, 0x1FEB); (0x1F7C, 0x1FFA); (0x1F7D, 0x1FFB); (0x1F80, 0x1F88);
    (0x1F81, 0x1F89); (0x1F82, 0x1F8A); (0x1F83, 0x1F8B); (0x1F84, 0x1F8C);
    (0x1F85, 0x1F8D); (0x1F86, 0x1F8E); (0x1F87, 0x1F8F); (0x1F90, 0x1F98);
    (0x1F91, 0x1F99); (0x1F92, 0x1F9A); (0x1F93, 0x1F9B); (0x1F94, 0x1F9C);
    (0x1F95, 0x1F9D); (0x1F96, 0x1F9E); (0x1F97, 0x1F9F); (0x1FA0, 0x1FA8);
    (0x1FA1, 0x1FA9); (0x1FA2, 0x1FAA); (0x1FA3, 0x1FAB); (0x1FA4, 0x1FAC);
    (0x1FA5, 0x1FAD); (0x1FA6, 0x1FAE); (0x1FA7, 0x1FAF); (0x1FB0, 0x1FB8);
    (0x1FB1, 0x1FB9); (0x1FB3, 0x1FBC); (0x1FBE, 0x399); (0x1FC3, 0x1FCC);
    (0x1FD0, 0x1FD8); (0x1FD1, 0x1FD9); (0x1FE0, 0x1FE8); (0x1FE1, 0x1FE9);
    (0x1FE5, 0x1FEC); (0x1FF3, 0x1FFC); (0x214E, 0x2132); (0x2170, 0x2160);
    (0x2171, 0x2161); (0x2172, 0x2162); (0x2173, 0x2163); (0x2174, 0x2164);
    (0x2175, 0x2165); (0x2176, 0x2166); (0x2177, 0x2167); (0x2178, 0x2168);
    (0x2179, 0x2169); (0x217A, 0x216A); (0x217B, 0x216B); (0x217C, 0x216C);
    (0x217D, 0x216D); (0x217E, 0x216E); (0x217F, 0x216F); (0x2184, 0x2183);
    (0x24D0, 0x24B6); (0x24D1, 0x24B7); (0x24D2, 0x24B8); (0x24D3, 0x24B9);
    (0x24D4, 0x24BA); (0x24D5, 0x24BB); (0x24D6, 0x24BC); (0x24D7, 0x24BD);
    (0x24D8, 0x24BE); (0x24D9, 0x24BF); (0x24DA, 0x24C0); (0x24DB, 0x24C1);
    (0x24DC, 0x24C2); (0x24DD, 0x24C3); (0x24DE, 0x24C4); (0x24DF, 0x24C5);
    (0x24E0, 0x24C6); (0x24E1, 0x24C7); (0x24E2, 0x24C8); (0x24E3, 0x24C9);
    (0x24E4, 0x24CA); (0x24E5, 0x24CB); (0x24E6, 0x24CC); (0x24E7, 0x24CD);
    (0x24E8, 0x24CE); (0x24E9, 0x24CF); (0x2C30, 0x2C00); (0x2C31, 0x2C01);
    (0x2C32, 0x2C02); (0x2C33, 0x2C03); (0x2C34, 0x2C04); (0x2C35, 0x2C05);
    (0x2C36, 0x2C06); (0x2C37, 0x2C07); (0x2C38, 0x2C08); (0x2C39, 0x2C09);
    (0x2C3A, 0x2C0A); (0x2C3B, 0x2C0B); (0x2C3C, 0x2C0C); (0x2C3D, 0x2C0D);
    (0x2C3E, 0x2C0E); (0x2C3F, 0x2C0F); (0x2C40, 0x2C10); (0x2C41, 0x2C11);
    (0x2C42, 0x2C12); (0x2C43, 0x2C13); (0x2C44, 0x2C14); (0x2C45, 0x2C15);
    (0x2C46, 0x2C16); (0x2C47, 0x2C17); (0x2C48, 0x2C18); (0x2C49, 0x2C19);
    (0x2C4A, 0x2C1A); (0x2C4B, 0x2C1B); (0x2C4C, 0x2C1C); (0x2C4D, 0x2C1D);
    (0x2C4E, 0x2C1E); (0x2C4F, 0x2C1F); (0x2C50, 0x2C20); (0x2C51, 0x2C21);
    (0x2C52, 0x2C22); (0x2C53, 0x2C23); (0x2C54, 0x2C24); (0x2C55, 0x2C25);
    (0x2C56, 0x2C26); (0x2C57, 0x2C27); (0x2C58, 0x2C28); (0x2C59, 0x2C29);
    (0x2C5A, 0x2C2A); (0x2C5B, 0x2C2B); (0x2C5C, 0x2C2C); (0x2C5D, 0x2C2D);
    (0x2C5E, 0x2C2E); (0x2C5F, 0x2C2F); (0x2C61, 0x2C60); (0x2C65, 0x23A);
    (0x2C66, 0x23E); (0x2C68, 0x2C67); (0x2C6A, 0x2C69); (0x2C6C, 0x2C6B);
    (0x2C73, 0x2C72); (0x2C76, 0x2C75); (0x2C81, 0x2C80); (0x2C83, 0x2C82);
    (0x2C85, 0x2C84); (0x2C87, 0x2C86); (0x2C89, 0x2C88); (0x2C8B, 0x2C8A);
    (0x2C8D, 0x2C8C); (0x2C8F, 0x2C8E); (0x2C91, 0x2C90); (0x2C93, 0x2C92);
    (0x2C95, 0x2C94); (0x2C97, 0x2C96); (0x2C99, 0x2C98); (0x2C9B, 0x2C9A);
    (0x2C9D, 0x2C9C); (0x2C9F, 0x2C9E); (0x2CA1, 0x2CA0); (0x2CA3, 0x2CA2);
    (0x2CA5, 0x2CA4); (0x2CA7, 0x2CA6); (0x2CA9, 0x2CA8); (0x2CAB, 0x2CAA);
    (0x2CAD, 0x2CAC); (0x2CAF, 0x2CAE); (0x2CB1, 0x2CB0); (0x2CB3, 0x2CB2);
    (0x2CB5, 0x2CB4); (0x2CB7, 0x2CB6); (0x2CB9, 0x2CB8); (0x2CBB, 0x2CBA);
    (0x2CBD, 0x2CBC); (0x2CBF, 0x2CBE); (0x2CC1, 0x2CC0); (0x2CC3, 0x2CC2);
    (0x2CC5, 0x2CC4); (0x2CC7, 0x2CC6); (0x2CC9, 0x2CC8); (0x2CCB, 0x2CCA);
    (0x2CCD, 0x2CCC); (0x2CCF, 0x2CCE); (0x2CD1, 0x2CD0); (0x2CD3, 0x2CD2);
    (0x2CD5, 0x2CD4); (0x2CD7, 0x2CD6); (0x2CD9, 0x2CD8); (0x2CDB, 0x2CDA);
    (0x2CDD, 0x2CDC); (0x2CDF, 0x2CDE); (0x2CE1, 0x2CE0); (0x2CE3, 0x2CE2);
    (0x2CEC, 0x2CEB); (0x2CEE, 0x2CED); (0x2CF3, 0x2CF2); (0x2D00, 0x10A0);
    (0x2D01, 0x10A1); (0x2D02, 0x10A2); (0x2D03, 0x10A3); (0x2D04, 0x10A4);
    (0x2D05, 0x10A5); (0x2D06, 0x10A6); (0x2D07, 0x10A7); (0x2D08, 0x10A8);
    (0x2D09, 0x10A9); (0x2D0A, 0x10AA); (0x2D0B, 0x10AB); (0x2D0C, 0x10AC);
    (0x2D0D, 0x10AD); (0x2D0E, 0x10AE); (0x2D0F, 0x10AF); (0x2D10, 0x10B0);
    (0x2D11, 0x10B1); (0x2D12, 0x10B2); (0x2D13, 0x10B3); (0x2D14, 0x10B4);
    (0x2D15, 0x10B5); (0x2D16, 0x10B6); (0x2D17, 0x10B7); (0x2D18, 0x10B8);
    (0x2D19, 0x10B9); (0x2D1A, 0x10BA); (0x2D1B, 0x10BB); (0x2D1C, 0x10BC);
    (0x2D1D, 0x10BD); (0x2D1E, 0x10BE); (0x2D1F, 0x10BF); (0x2D20, 0x10C0);
    (0x2D21, 0x10C1); (0x2D22, 0x10C2); (0x2D23, 0x10C3); (0x2D24, 0x10C4);
    (0x2D25, 0x10C5); (0x2D27, 0x10C7); (0x2D2D, 0x10CD); (0xA641, 0xA640);
    (0xA643, 0xA642); (0xA645, 0xA644); (0xA647, 0xA646); (0xA649, 0xA648);
    (0xA64B, 0xA64A); (0xA64D, 0xA64C); (0xA64F, 0xA64E); (0xA651, 0xA650);
    (0xA653, 0xA652); (0xA655, 0xA654); (0xA657, 0xA656); (0xA659, 0xA658);
    (0xA65B, 0xA65A); (0xA65D, 0xA65C); (0xA65F, 0xA65E); (0xA661, 0xA660);
    (0xA663, 0xA662); (0xA665, 0xA664); (0xA667, 0xA666); (0xA669, 0xA668);
    (0xA66B, 0xA66A); (0xA66D, 0xA66C); (0xA681, 0xA680); (0xA683, 0xA682);
    (0xA685, 0xA684); (0xA687, 0xA686); (0xA689, 0xA688); (0xA68B, 0xA68A);
    (0xA68D, 0xA68C); (0xA68F, 0xA68E); (0xA691, 0xA690); (0xA693, 0xA692);
    (0xA695, 0xA694); (0xA697, 0xA696); (0xA699, 0xA698); (0xA69B, 0xA69A);
    (0xA723, 0xA722); (0xA725, 0xA724); (0xA727, 0xA726); (0xA729, 0xA728);
    (0xA72B, 0xA72A); (0xA72D, 0xA72C); (0xA72F, 0xA72E); (0xA733, 0xA732);
    (0xA735, 0xA734); (0xA737, 0xA736); (0xA739, 0xA738); (0xA73B, 0xA73A);
    (0xA73D, 0xA73C); (0xA73F, 0xA73E); (0xA741, 0xA740); (0xA743, 0xA742);
    (0xA745, 0xA744); (0xA747, 0xA746); (0xA749, 0xA748); (0xA74B, 0xA74A);
    (0xA74D, 0xA74C); (0xA74F, 0xA74E); (0xA751, 0xA750); (0xA753, 0xA752);
    (0xA755, 0xA754); (0xA757, 0xA756); (0xA759, 0xA758); (0xA75B, 0xA75A);
    (0xA75D, 0xA75C); (0xA75F, 0xA75E); (0xA761, 0xA760); (0xA763, 0xA762);
    (0xA765, 0xA764); (0xA767, 0xA766); (0xA769, 0xA768); (0xA76B, 0xA76A);
    (0xA76D, 0xA76C); (0xA76F, 0xA76E); (0xA77A, 0xA779); (0xA77C, 0xA77B);
    (0xA77F, 0xA77E); (0xA781, 0xA780); (0xA783, 0xA782); (0xA785, 0xA784);
    (0xA787, 0xA786); (0xA78C, 0xA78B); (0xA791, 0xA790); (0xA793, 0xA792);
    (0xA794, 0xA7C4); (0xA797, 0xA796); (0xA799, 0xA798); (0xA79B, 0xA79A);
    (0xA79D, 0xA79C); (0xA79F, 0xA79E); (0xA7A1, 0xA7A0); (0xA7A3, 0xA7A2);
    (0xA7A5, 0xA7A4); (0xA7A7, 0xA7A6); (0xA7A9, 0xA7A8); (0xA7B5, 0xA7B4);
    (0xA7B7, 0xA7B6); (0xA7B9, 0xA7B8); (0xA7BB, 0xA7BA); (0xA7BD, 0xA7BC);
    (0xA7BF, 0xA7BE); (0xA7C1, 0xA7C0); (0xA7C3, 0xA7C2); (0xA7C8, 0xA7C7);
    (0xA7CA, 0xA7C9); (0xA7D1, 0xA7D0); (0xA7D7, 0xA7D6); (0xA7D9, 0xA7D8);
    (0xA7F6, 0xA7F5); (0xAB53, 0xA7B3); (0xAB70, 0x13A0); (0xAB71, 0x13A1);
    (0xAB72, 0x13A2); (0xAB73, 0x13A3); (0xAB74, 0x13A4); (0xAB75, 0x13A5);
    (0xAB76, 0x13A6); (0xAB77, 0x13A7); (0xAB78, 0x13A8); (0xAB79, 0x13A9);
    (0xAB7A, 0x13AA); (0xAB7B, 0x13AB); (0xAB7C, 0x13AC); (0xAB7D, 0x13AD);
    (0xAB7E, 0x13AE); (0xAB7F, 0x13AF); (0xAB80, 0x13B0); (0xAB81, 0x13B1);
    (0xAB82, 0x13B2); (0xAB83, 0x13B3); (0xAB84, 0x13B4); (0xAB85, 0x13B5);
    (0xAB86, 0x13B6); (0xAB87, 0x13B7); (0xAB88, 0x13B8); (0xAB89, 0x13B9);
    (0xAB8A, 0x13BA); (0xAB8B, 0x13BB); (0xAB8C, 0x13BC); (0xAB8D, 0x13BD);
    (0xAB8E, 0x13BE); (0xAB8F, 0x13BF); (0xAB90, 0x13C0); (0xAB91, 0x13C1);
    (0xAB92, 0x13C2); (0xAB93, 0x13C3); (0xAB94, 0x13C4); (0xAB95, 0x13C5);
    (0xAB96, 0x13C6); (0xAB97, 0x13C7); (0xAB98, 0x13C8); (0xAB99, 0x13C9);
    (0xAB9A, 0x13CA); (0xAB9B, 0x13CB); (0xAB9C, 0x13CC); (0xAB9D, 0x13CD);
    (0xAB9E, 0x13CE); (0xAB9F, 0x13CF); (0xABA0, 0x13D0); (0xABA1, 0x13D1);
    (0xABA2, 0x13D2); (0xABA3, 0x13D3); (0xABA4, 0x13D4); (0xABA5, 0x13D5);
    (0xABA6, 0x13D6); (0xABA7, 0x13D7); (0xABA8, 0x13D8); (0xABA9, 0x13D9);
    (0xABAA, 0x13DA); (0xABAB, 0x13DB); (0xABAC, 0x13DC); (0xABAD, 0x13DD);
    (0xABAE, 0x13DE); (0xABAF, 0x13DF); (0xABB0, 0x13E0); (0xABB1, 0x13E1);
    (0xABB2, 0x13E2); (0xABB3, 0x13E3); (0xABB4, 0x13E4); (0xABB5, 0x13E5);
    (0xABB6, 0x13E6); (0xABB7, 0x13E7); (0xABB8, 0x13E8); (0xABB9, 0x13E9);
    (0xABBA, 0x13EA); (0xABBB, 0x13EB); (0xABBC, 0x13EC); (0xABBD, 0x13ED);
    (0xABBE, 0x13EE); (0xABBF, 0x13EF); (0xFF41, 0xFF21); (0xFF42, 0xFF22);
    (0xFF43, 0xFF23); (0xFF44, 0xFF24); (0xFF45, 0xFF25); (0xFF46, 0xFF26);
    (0xFF47, 0xFF27); (0xFF48, 0xFF28); (0xFF49, 0xFF29); (0xFF4A, 0xFF2A);
    (0xFF4B, 0xFF2B); (0xFF4C, 0xFF2C); (0xFF4D, 0xFF2D); (0xFF4E, 0xFF2E);
    (0xFF4F, 0xFF2F); (0xFF50, 0xFF30); (0xFF51, 0xFF31); (0xFF52, 0xFF32);
    (0xFF53, 0xFF33); (0xFF54, 0xFF34); (0xFF55, 0xFF35); (0xFF56, 0xFF36);
    (0xFF57, 0xFF37); (0xFF58, 0xFF38); (0xFF59, 0xFF39); (0xFF5A, 0xFF3A);
    (0x10428, 0x10400); (0x10429, 0x10401); (0x1042A, 0x10402); (0x1042B, 0x10403);
    (0x1042C, 0x10404); (0x1042D, 0x10405); (0x1042E, 0x10406); (0x1042F, 0x10407);
    (0x10430, 0x10408); (0x10431, 0x10409); (0x10432, 0x1040A); (0x10433, 0x1040B);
    (0x10434, 0x1040C); (0x10435, 0x1040D); (0x10436, 0x1040E); (0x10437, 0x1040F);
    (0x10438, 0x10410); (0x10439, 0x10411); (0x1043A, 0x10412); (0x1043B, 0x10413);
    (0x1043C, 0x10414); (0x1043D, 0x10415); (0x1043E, 0x10416); (0x1043F, 0x10417);
    (0x10440, 0x10418); (0x10441, 0x10419); (0x10442, 0x1041A); (0x10443, 0x1041B);
    (0x10444, 0x1041C); (0x10445, 0x1041D); (0x10446, 0x1041E); (0x10447, 0x1041F);
    (0x10448, 0x10420); (0x10449, 0x10421); (0x1044A, 0x10422); (0x1044B, 0x10423);
    (0x1044C, 0x10424); (0x1044D, 0x10425); (0x1044E, 0x10426); (0x1044F, 0x10427);
    (0x104D8, 0x104B0); (0x104D9, 0x104B1); (0x104DA, 0x104B2); (0x104DB, 0x104B3);
    (0x104DC, 0x104B4); (0x104DD, 0x104B5); (0x104DE, 0x104B6); (0x104DF, 0x104B7);
    (0x104E0, 0x104B8); (0x104E1, 0x104B9); (0x104E2, 0x104BA); (0x104E3, 0x104BB);
    (0x104E4, 0x104BC); (0x104E5, 0x104BD); (0x104E6, 0x104BE); (0x104E7, 0x104BF);
    (0x104E8, 0x104C0); (0x104E9, 0x104C1); (0x104EA, 0x104C2); (0x104EB, 0x104C3);
    (0x104EC, 0x104C4); (0x104ED, 0x104C5); (0x104EE, 0x104C6); (0x104EF, 0x104C7);
    (0x104F0, 0x104C8); (0x104F1, 0x104C9); (0x104F2, 0x104CA); (0x104F3, 0x104CB);
    (0x104F4, 0x104CC); (0x104F5, 0x104CD); (0x104F6, 0x104CE); (0x104F7, 0x104CF);
    (0x104F8, 0x104D0); (0x104F9, 0x104D1); (0x104FA, 0x104D2); (0x104FB, 0x104D3);
    (0x10597, 0x10570); (0x10598, 0x10571); (0x10599, 0x10572); (0x1059A, 0x10573);
    (0x1059B, 0x10574); (0x1059C, 0x10575); (0x1059D, 0x10576); (0x1059E, 0x10577);
    (0x1059F, 0x10578); (0x105A0, 0x10579); (0x105A1, 0x1057A); (0x105A3, 0x1057C);
    (0x105A4, 0x1057D); (0x105A5, 0x1057E); (0x105A6, 0x1057F); (0x105A7, 0x10580);
    (0x105A8, 0x10581); (0x105A9, 0x10582); (0x105AA, 0x10583); (0x105AB, 0x10584);
    (0x105AC, 0x10585); (0x105AD, 0x10586); (0x105AE, 0x10587); (0x105AF, 0x10588);
    (0x105B0, 0x10589); (0x105B1, 0x1058A); (0x105B3, 0x1058C); (0x105B4, 0x1058D);
    (0x105B5, 0x1058E); (0x105B6, 0x1058F); (0x105B7, 0x10590); (0x105B8, 0x10591);
    (0x105B9, 0x10592); (0x105BB, 0x10594); (0x105BC, 0x10595); (0x10CC0, 0x10C80);
    (0x10CC1, 0x10C81); (0x10CC2, 0x10C82); (0x10CC3, 0x10C83); (0x10CC4, 0x10C84);
    (0x10CC5, 0x10C85); (0x10CC6, 0x10C86); (0x10CC7, 0x10C87); (0x10CC8, 0x10C88);
    (0x10CC9, 0x10C89); (0x10CCA, 0x10C8A); (0x10CCB, 0x10C8B); (0x10CCC, 0x10C8C);
    (0x10CCD, 0x10C8D); (0x10CCE, 0x10C8E); (0x10CCF, 0x10C8F); (0x10CD0, 0x10C90);
    (0x10CD1, 0x10C91); (0x10CD2, 0x10C92); (0x10CD3, 0x10C93); (0x10CD4, 0x10C94);
    (0x10CD5, 0x10C95); (0x10CD6, 0x10C96); (0x10CD7, 0x10C97); (0x10CD8, 0x10C98);
    (0x10CD9, 0x10C99); (0x10CDA, 0x10C9A); (0x10CDB, 0x10C9B); (0x10CDC, 0x10C9C);
    (0x10CDD, 0x10C9D); (0x10CDE, 0x10C9E); (0x10CDF, 0x10C9F); (0x10CE0, 0x10CA0);
    (0x10CE1, 0x10CA1); (0x10CE2, 0x10CA2); (0x10CE3, 0x10CA3); (0x10CE4, 0x10CA4);
    (0x10CE5, 0x10CA5); (0x10CE6, 0x10CA6); (0x10CE7, 0x10CA7); (0x10CE8, 0x10CA8);
    (0x10CE9, 0x10CA9); (0x10CEA, 0x10CAA); (0x10CEB, 0x10CAB); (0x10CEC, 0x10CAC);
    (0x10CED, 0x10CAD); (0x10CEE, 0x10CAE); (0x10CEF, 0x10CAF); (0x10CF0, 0x10CB0);
    (0x10CF1, 0x10CB1); (0x10CF2, 0x10CB2); (0x118C0, 0x118A0); (0x118C1, 0x118A1);
    (0x118C2, 0x118A2); (0x118C3, 0x118A3); (0x118C4, 0x118A4); (0x118C5, 0x118A5);
    (0x118C6, 0x118A6); (0x118C7, 0x118A7); (0x118C8, 0x118A8); (0x118C9, 0x118A9);
    (0x118CA, 0x118AA); (0x118CB, 0x118AB); (0x118CC, 0x118AC); (0x118CD, 0x118AD);
    (0x118CE, 0x118AE); (0x118CF, 0x118AF); (0x118D0, 0x118B0); (0x118D1, 0x118B1);
    (0x118D2, 0x118B2); (0x118D3, 0x118B3); (0x118D4, 0x118B4); (0x118D5, 0x118B5);
    (0x118D6, 0x118B6); (0x118D7, 0x118B7); (0x118D8, 0x118B8); (0x118D9, 0x118B9);
    (0x118DA, 0x118BA); (0x118DB, 0x118BB); (0x118DC, 0x118BC); (0x118DD, 0x118BD);
    (0x118DE, 0x118BE); (0x118DF, 0x118BF); (0x16E60, 0x16E40); (0x16E61, 0x16E41);
    (0x16E62, 0x16E42); (0x16E63, 0x16E43); (0x16E64, 0x16E44); (0x16E65, 0x16E45);
    (0x16E66, 0x16E46); (0x16E67, 0x16E47); (0x16E68, 0x16E48); (0x16E69, 0x16E49);
    (0x16E6A, 0x16E4A); (0x16E6B, 0x16E4B); (0x16E6C, 0x16E4C); (0x16E6D, 0x16E4D);
    (0x16E6E, 0x16E4E); (0x16E6F, 0x16E4F); (0x16E70, 0x16E50); (0x16E71, 0x16E51);
    (0x16E72, 0x16E52); (0x16E73, 0x16E53); (0x16E74, 0x16E54); (0x16E75, 0x16E55);
    (0x16E76, 0x16E56); (0x16E77, 0x16E57); (0x16E78, 0x16E58); (0x16E79, 0x16E59);
    (0x16E7A, 0x16E5A); (0x16E7B, 0x16E5B); (0x16E7C, 0x16E5C); (0x16E7D, 0x16E5D);
    (0x16E7E, 0x16E5E); (0x16E7F, 0x16E5F); (0x1E922, 0x1E900); (0x1E923, 0x1E901);
    (0x1E924, 0x1E902); (0x1E925, 0x1E903); (0x1E926, 0x1E904); (0x1E927, 0x1E905);
    (0x1E928, 0x1E906); (0x1E929, 0x1E907); (0x1E92A, 0x1E908); (0x1E92B, 0x1E909);
    (0x1E92C, 0x1E90A); (0x1E92D, 0x1E90B); (0x1E92E, 0x1E90C); (0x1E92F, 0x1E90D);
    (0x1E930, 0x1E90E); (0x1E931, 0x1E90F); (0x1E932, 0x1E910); (0x1E933, 0x1E911);
    (0x1E934, 0x1E912); (0x1E935, 0x1E913); (0x1E936, 0x1E914); (0x1E937, 0x1E915);
    (0x1E938, 0x1E916); (0x1E939, 0x1E917); (0x1E93A, 0x1E918); (0x1E93B, 0x1E919);
    (0x1E93C, 0x1E91A); (0x1E93D, 0x1E91B); (0x1E93E, 0x1E91C); (0x1E93F, 0x1E91D);
    (0x1E940, 0x1E91E); (0x1E941, 0x1E91F); (0x1E942, 0x1E920); (0x1E943, 0x1E921)
  ]%N.

Definition to_title_special : list (N * list N) :=
  [(0xDF, [0x53; 0x73]); (0x149, [0x2BC; 0x4E]);
    (0x1F0, [0x4A; 0x30C]); (0x390, [0x399; 0x308; 0x301]);
    (0x3B0, [0x3A5; 0x308; 0x301]); (0x587, [0x535; 0x582]);
    (0x1E96, [0x48; 0x331]); (0x1E97, [0x54; 0x308]);
    (0x1E98, [0x57; 0x30A]); (0x1E99, [0x59; 0x30A]);
    (0x1E9A, [0x41; 0x2BE]); (0x1F50, [0x3A5; 0x313]);
    (0x1F52, [0x3A5; 0x313; 0x300]); (0x1F54, [0x3A5; 0x313; 0x301]);
    (0x1F56, [0x3A5; 0x313; 0x342]); (0x1FB2, [0x1FBA; 0x345]);
    (0x1FB4, [0x386; 0x345]); (0x1FB6, [0x391; 0x342]);
    (0x1FB7, [0x391; 0x342; 0x345]); (0x1FC2, [0x1FCA; 0x345]);
    (0x1FC4, [0x389; 0x345]); (0x1FC6, [0x397; 0x342]);
    (0x1FC7, [0x397; 0x342; 0x345]); (0x1FD2, [0x399; 0x308; 0x300]);
    (0x1FD3, [0x399; 0x308; 0x301]); (0x1FD6, [0x399; 0x342]);
    (0x1FD7, [0x399; 0x308; 0x342]); (0x1FE2, [0x3A5; 0x308; 0x300]);
    (0x1FE3, [0x3A5; 0x308; 0x301]); (0x1FE4, [0x3A1; 0x313]);
    (0x1FE6, [0x3A5; 0x342]); (0x1FE7, [0x3A5; 0x308; 0x342]);
    (0x1FF2, [0x1FFA; 0x345]); (0x1FF4, [0x38F; 0x345]);
    (0x1FF6, [0x3A9; 0x342]); (0x1FF7, [0x3A9; 0x342; 0x345]);
    (0xFB00, [0x46; 0x66]); (0xFB01, [0x46; 0x69]);
    (0xFB02, [0x46; 0x6C]); (0xFB03, [0x46; 0x66; 0x69]);
    (0xFB04, [0x46; 0x66; 0x6C]); (0xFB05, [0x53; 0x74]);
    (0xFB06, [0x53; 0x74]); (0xFB13, [0x544; 0x576]);
    (0xFB14, [0x544; 0x565]); (0xFB15, [0x544; 0x56B]);
    (0xFB16, [0x54E; 0x576]); (0xFB17, [0x544; 0x56D])
  ]%N.

Definition to_title_full (p : N) : list N :=
  match List.find (λ e, (e.1 =? p)%N) to_title_special with
  | Some e => e.2
  | None =>
      match List.find (λ e, (e.1 =? p)%N) to_title_table with
      | Some e => [e.2]
      | None => [p]
      end
  end.

Fixpoint do_title (previous_is_cased : bool) (before l : list N) : list N :=
  match l with
  | [] => []
  | p :: after =>
      ((if previous_is_cased then lower_ucs4 before p after else to_title_full p)
       ++ do_title (is_cased p) (p :: before) after)%list
  end.

Definition title (s : string) : string := utf8_encode (do_title false [] (utf8_decode s)).

(** Text that holds double quotes or line breaks is written as the pieces
    between them. *)
Definition dq : string := String "034"%char EmptyString.
Definition nl : string := String "010"%char EmptyString.
Definition quoted (pieces : list string) : string := String.concat dq pieces.
Definition lines (rows : list string) : string := String.concat nl rows.

(** [await db.<collection>.update_one(filter, update)]: the first document
    that matches is updated; [insert_one] appends and [find_one] is
    [List.find]. *)
Fixpoint update_one {A : Type} (p : A → bool) (f : A → A) (l : list A) : list A :=
  match l with
  | [] => []
  | x :: l' => if p x then f x :: l' else x :: update_one p f l'
  end.

(** ** The matrix summary *)

Record Cell : Type := {
  cell_score : Z;
  cell_energy : string
}.

Record MatrixRow : Type := {
  row_archetype : string;
  row_compatibilities : list (string * Cell)
}.

Record MatrixView : Type := {
  matrix : list MatrixRow;
  matrix_archetypes : list string
}.

(** One iteration of the inner loop: the cell of [arch2] is set when the
    key [arch1_arch2] is in the table; the reversed key is not tried. *)
Definition matrix_cell (arch1 : string) (cells : list (string * Cell)) (arch2 : string)
    : py (list (string * Cell)) :=
  let key := pair_key arch1 arch2 in
  if matrix_contains key then
    data ← matrix_get key;
    Return (dict_set cells arch2 {| cell_score := compatibility_score data;
                                    cell_energy := energy data |})
  else Return cells.

Definition matrix_row (rows : list MatrixRow) (arch1 : string) : py (list MatrixRow) :=
  cells ← py_foldl (matrix_cell arch1) [] archetypes;
  Return (rows ++ [ {| row_archetype := arch1; row_compatibilities := cells |} ])%list.

Definition get_compatibility_matrix : py MatrixView :=
  matrix_summary ← py_foldl matrix_row [] archetypes;
  Return {| matrix := matrix_summary; matrix_archetypes := archetypes |}.

(** ** Archetype data *)

(** One entry of [ARCHETYPES]. *)
Record ArchetypeData : Type := {
  arch_name_id : string;
  arch_name_en : string;
  arch_color : string;
  arch_bg_color : string;
  arch_summary_id : string;
  arch_summary_en : string;
  arch_strengths_id : list string;
  arch_strengths_en : list string;
  arch_blindspots_id : list string;
  arch_blindspots_en : list string;
  arch_under_stress_id : list string;
  arch_under_stress_en : list string;
  arch_communication_tips_id : list string;
  arch_communication_tips_en : list string
}.

Definition archetype_driver : ArchetypeData :=
  {| arch_name_id := "Penggerak";
     arch_name_en := "Driver";
     arch_color := "#C05640";
     arch_bg_color := "#FDF3F1";
     arch_summary_id := "Anda adalah sosok yang tegas dan berorientasi pada hasil. Anda memiliki kemampuan alami untuk mengambil keputusan cepat dan memimpin orang lain menuju tujuan. Ketegasan Anda membantu tim bergerak maju, namun penting untuk tetap mendengarkan perspektif orang lain.";
     arch_summary_en := "You are a decisive and results-oriented individual. You have a natural ability to make quick decisions and lead others toward goals. Your assertiveness helps teams move forward, but it's important to still listen to others' perspectives.";
     arch_strengths_id := [ "Tegas dalam mengambil keputusan";
                            "Fokus pada hasil";
                            "Memotivasi orang lain";
                            "Efisien dalam bekerja";
                            "Berani menghadapi tantangan" ];
     arch_strengths_en := [ "Decisive in making decisions";
                            "Results-focused";
                            "Motivates others";
                            "Efficient in work";
                            "Brave in facing challenges" ];
     arch_blindspots_id := [ "Cenderung mendominasi percakapan";
                             "Kurang sabar dengan proses";
                             "Bisa terkesan tidak sensitif";
                             "Sulit mendelegasikan";
                             "Mengabaikan detail kecil" ];
     arch_blindspots_en := [ "Tends to dominate conversations";
                             "Less patient with processes";
                             "Can seem insensitive";
                             "Difficulty delegating";
                             "Overlooks small details" ];
     arch_under_stress_id := [ "Menjadi lebih mengontrol";
                               "Lebih cepat marah";
                               "Mengambil alih tanpa konsultasi" ];
     arch_under_stress_en := [ "Becomes more controlling";
                               "Gets angry faster";
                               "Takes over without consulting" ];
     arch_communication_tips_id := [ "Langsung ke inti masalah";
                                     "Berikan fakta dan data";
                                     "Hormati waktu mereka";
                                     "Tawarkan solusi, bukan masalah";
                                     "Biarkan mereka memimpin jika memungkinkan" ];
     arch_communication_tips_en := [ "Get straight to the point";
                                     "Provide facts and data";
                                     "Respect their time";
                                     "Offer solutions, not problems";
                                     "Let them lead when possible" ] |}.

Definition archetype_spark : ArchetypeData :=
  {| arch_name_id := "Percikan";
     arch_name_en := "Spark";
     arch_color := "#D99E30";
     arch_bg_color := "#FFF9EB";
     arch_summary_id := "Anda adalah energi positif dalam setiap interaksi. Kemampuan Anda untuk terhubung dengan orang lain dan menciptakan suasana yang menyenangkan membuat Anda menjadi pusat perhatian alami. Kreativitas dan antusiasme Anda menginspirasi orang di sekitar Anda.";
     arch_summary_en := "You are positive energy in every interaction. Your ability to connect with others and create a pleasant atmosphere makes you a natural center of attention. Your creativity and enthusiasm inspire those around you.";
     arch_strengths_id := [ "Komunikator yang baik";
                            "Kreatif dan inovatif";
                            "Membangun hubungan dengan mudah";
                            "Antusias dan optimis";
                            "Fleksibel dengan perubahan" ];
     arch_strengths_en := [ "Good communicator";
                            "Creative and innovative";
                            "Builds relationships easily";
                            "Enthusiastic and optimistic";
                            "Flexible with change" ];
     arch_blindspots_id := [ "Kurang fokus pada detail";
                             "Bisa terlalu impulsif";
                             "Kesulitan menyelesaikan tugas";
                             "Terlalu banyak bicara";
                             "Menghindari konflik" ];
     arch_blindspots_en := [ "Lacks focus on details";
                             "Can be too impulsive";
                             "Difficulty completing tasks";
                             "Talks too much";
                             "Avoids conflict" ];
     arch_under_stress_id := [ "Menjadi lebih dramatis";
                               "Mencari perhatian berlebihan";
                               "Sulit berkonsentrasi" ];
     arch_under_stress_en := [ "Becomes more dramatic";
                               "Seeks excessive attention";
                               "Has difficulty concentrating" ];
     arch_communication_tips_id := [ "Buat suasana yang hangat";
                                     "Dengarkan cerita mereka";
                                     "Berikan apresiasi";
                                     "Libatkan dalam brainstorming";
                                     "Jangan terlalu kaku" ];
     arch_communication_tips_en := [ "Create a warm atmosphere";
                                     "Listen to their stories";
                                     "Give appreciation";
                                     "Involve in brainstorming";
                                     "Don't be too rigid" ] |}.

Definition archetype_anchor : ArchetypeData :=
  {| arch_name_id := "Jangkar";
     arch_name_en := "Anchor";
     arch_color := "#5D8A66";
     arch_bg_color := "#F1F7F3";
     arch_summary_id := "Anda adalah pilar ketenangan dan stabilitas. Dalam situasi yang kacau, Anda menjadi tempat berlindung yang dapat diandalkan. Kesabaran dan kesetiaan Anda membuat hubungan Anda bertahan lama dan bermakna.";
     arch_summary_en := "You are a pillar of calm and stability. In chaotic situations, you become a reliable haven. Your patience and loyalty make your relationships lasting and meaningful.";
     arch_strengths_id := [ "Sabar dan tenang";
                            "Pendengar yang baik";
                            "Dapat diandalkan";
                            "Setia dan konsisten";
                            "Menciptakan harmoni" ];
     arch_strengths_en := [ "Patient and calm";
                            "Good listener";
                            "Dependable";
                            "Loyal and consistent";
                            "Creates harmony" ];
     arch_blindspots_id := [ "Sulit mengatakan tidak";
                             "Menghindari perubahan";
                             "Memendam perasaan";
                             "Lambat dalam mengambil keputusan";
                             "Terlalu mengalah" ];
     arch_blindspots_en := [ "Difficulty saying no";
                             "Avoids change";
                             "Holds feelings inside";
                             "Slow in making decisions";
                             "Too yielding" ];
     arch_under_stress_id := [ "Menarik diri";
                               "Menjadi pasif-agresif";
                               "Menolak berbicara tentang masalah" ];
     arch_under_stress_en := [ "Withdraws";
                               "Becomes passive-aggressive";
                               "Refuses to talk about problems" ];
     arch_communication_tips_id := [ "Berikan waktu untuk berpikir";
                                     "Jangan menekan untuk keputusan cepat";
                                     "Tunjukkan apresiasi";
                                     "Buat lingkungan yang aman";
                                     "Konsisten dalam perilaku" ];
     arch_communication_tips_en := [ "Give time to think";
                                     "Don't pressure for quick decisions";
                                     "Show appreciation";
                                     "Create a safe environment";
                                     "Be consistent in behavior" ] |}.

Definition archetype_analyst : ArchetypeData :=
  {| arch_name_id := "Analis";
     arch_name_en := "Analyst";
     arch_color := "#5B8FA8";
     arch_bg_color := "#F0F7FA";
     arch_summary_id := "Anda adalah pemikir yang sistematis dan teliti. Kemampuan Anda untuk menganalisis situasi secara mendalam membantu mengambil keputusan yang tepat. Standar tinggi Anda memastikan kualitas dalam setiap pekerjaan.";
     arch_summary_en := "You are a systematic and thorough thinker. Your ability to analyze situations deeply helps make the right decisions. Your high standards ensure quality in every work.";
     arch_strengths_id := [ "Analitis dan teliti";
                            "Standar kualitas tinggi";
                            "Pemecah masalah yang baik";
                            "Terorganisir";
                            "Berpikir logis" ];
     arch_strengths_en := [ "Analytical and thorough";
                            "High quality standards";
                            "Good problem solver";
                            "Organized";
                            "Logical thinking" ];
     arch_blindspots_id := [ "Terlalu kritis";
                             "Perfeksionis berlebihan";
                             "Sulit menerima kritik";
                             "Kurang spontan";
                             "Menganalisis berlebihan" ];
     arch_blindspots_en := [ "Too critical";
                             "Excessive perfectionism";
                             "Difficulty accepting criticism";
                             "Lacks spontaneity";
                             "Over-analyzes" ];
     arch_under_stress_id := [ "Menjadi lebih kritis";
                               "Menarik diri untuk menganalisis";
                               "Menolak kompromi" ];
     arch_under_stress_en := [ "Becomes more critical";
                               "Withdraws to analyze";
                               "Refuses compromise" ];
     arch_communication_tips_id := [ "Berikan data dan fakta";
                                     "Hormati kebutuhan akan detail";
                                     "Berikan waktu persiapan";
                                     "Hindari tekanan emosional";
                                     "Hargai ketelitian mereka" ];
     arch_communication_tips_en := [ "Provide data and facts";
                                     "Respect the need for detail";
                                     "Give preparation time";
                                     "Avoid emotional pressure";
                                     "Appreciate their thoroughness" ] |}.

(** The items of the dict literal [ARCHETYPES], in the order they are written. *)
Definition ARCHETYPES_items : list (string * ArchetypeData) :=
  [ ("driver", archetype_driver);
    ("spark", archetype_spark);
    ("anchor", archetype_anchor);
    ("analyst", archetype_analyst) ].

Definition ARCHETYPES : gmap string ArchetypeData := list_to_map ARCHETYPES_items.

(** [get_archetype]: the [language] argument is not read. *)
Definition get_archetype (archetype language : string) : py ArchetypeData :=
  match ARCHETYPES !! lower archetype with
  | None => Raise (HTTPException 404 "Archetype not found")
  | Some archetype_data => Return archetype_data
  end.

(** The name of an archetype in [id], and in English otherwise. *)
Definition localized_name (d : ArchetypeData) (language : string) : string :=
  if String.eqb language "id" then arch_name_id d else arch_name_en d.

(** ** Share cards *)

(** [Response(content=..., media_type=...)] *)
Record Response : Type := {
  content : string;
  media_type : string
}.

(** The two dicts that both card handlers build. *)
Definition archetype_colors : list (string * string) :=
  [("driver", "#C05640"); ("spark", "#D99E30");
   ("anchor", "#5D8A66"); ("analyst", "#5B8FA8")].

Definition archetype_names : list (string * list (string * string)) :=
  [("driver", [("id", "Penggerak"); ("en", "Driver")]);
   ("spark", [("id", "Percikan"); ("en", "Spark")]);
   ("anchor", [("id", "Jangkar"); ("en", "Anchor")]);
   ("analyst", [("id", "Analis"); ("en", "Analyst")])].

(** [archetype_colors.get(arch, "#4A3B32")] *)
Definition color_of (arch : string) : string :=
  default "#4A3B32" (dict_get archetype_colors arch).

(** [archetype_names.get(arch, {}).get(language, arch.title())] *)
Definition name_of (arch language : string) : string :=
  default (title arch) (dict_get (default [] (dict_get archetype_names arch)) language).

Definition score_color_of (score : Z) : string :=
  if 85 <=? score then "#5D8A66"
  else if 75 <=? score then "#D99E30"
  else if 65 <=? score then "#C05640"
  else "#5B8FA8".

Definition compatibility_card_svg
    (arch1_color : string) (arch2_color : string) (header_text : string) (arch1_name : string) (arch2_name : string) (score_color : string) (score : Z) (title : string) (cta : string)
    : string :=
  lines
    [ quoted ["<svg xmlns="; "http://www.w3.org/2000/svg"; " viewBox="; "0 0 600 315"; " width="; "600"; " height="; "315"; ">"];
      "        <defs>";
      quoted ["            <linearGradient id="; "bgGrad"; " x1="; "0%"; " y1="; "0%"; " x2="; "100%"; " y2="; "100%"; ">"];
      quoted ["                <stop offset="; "0%"; " style="; "stop-color:#FDFCF8"; "/>"];
      quoted ["                <stop offset="; "100%"; " style="; "stop-color:#F2EFE9"; "/>"];
      "            </linearGradient>";
      quoted ["            <linearGradient id="; "topBar"; " x1="; "0%"; " y1="; "0%"; " x2="; "100%"; " y2="; "0%"; ">"];
      quoted ["                <stop offset="; "0%"; " style="; "stop-color:" +:+ arch1_color; "/>"];
      quoted ["                <stop offset="; "100%"; " style="; "stop-color:" +:+ arch2_color; "/>"];
      "            </linearGradient>";
      "        </defs>";
      quoted ["        <rect width="; "600"; " height="; "315"; " fill="; "url(#bgGrad)"; "/>"];
      quoted ["        <rect x="; "0"; " y="; "0"; " width="; "600"; " height="; "8"; " fill="; "url(#topBar)"; "/>"];
      "        ";
      "        <!-- Archetype circles -->";
      quoted ["        <circle cx="; "180"; " cy="; "130"; " r="; "40"; " fill="; arch1_color; " opacity="; "0.15"; "/>"];
      quoted ["        <circle cx="; "180"; " cy="; "130"; " r="; "25"; " fill="; arch1_color; "/>"];
      quoted ["        <circle cx="; "420"; " cy="; "130"; " r="; "40"; " fill="; arch2_color; " opacity="; "0.15"; "/>"];
      quoted ["        <circle cx="; "420"; " cy="; "130"; " r="; "25"; " fill="; arch2_color; "/>"];
      "        ";
      "        <!-- Heart icon in middle -->";
      quoted ["        <text x="; "300"; " y="; "140"; " text-anchor="; "middle"; " font-size="; "28"; " fill="; "#E6E2D8"; ">♥</text>"];
      "        ";
      "        <!-- Header -->";
      quoted ["        <text x="; "300"; " y="; "45"; " text-anchor="; "middle"; " font-family="; "serif"; " font-size="; "16"; " fill="; "#7A6E62"; ">" +:+ header_text +:+ "</text>"];
      "        ";
      "        <!-- Archetype names -->";
      quoted ["        <text x="; "180"; " y="; "190"; " text-anchor="; "middle"; " font-family="; "serif"; " font-weight="; "bold"; " font-size="; "18"; " fill="; arch1_color; ">" +:+ arch1_name +:+ "</text>"];
      quoted ["        <text x="; "420"; " y="; "190"; " text-anchor="; "middle"; " font-family="; "serif"; " font-weight="; "bold"; " font-size="; "18"; " fill="; arch2_color; ">" +:+ arch2_name +:+ "</text>"];
      "        ";
      "        <!-- Score -->";
      quoted ["        <rect x="; "255"; " y="; "200"; " width="; "90"; " height="; "45"; " rx="; "10"; " fill="; score_color; " opacity="; "0.15"; "/>"];
      quoted ["        <text x="; "300"; " y="; "232"; " text-anchor="; "middle"; " font-family="; "sans-serif"; " font-weight="; "bold"; " font-size="; "28"; " fill="; score_color; ">" +:+ pretty score +:+ "</text>"];
      "        ";
      "        <!-- Title -->";
      quoted ["        <text x="; "300"; " y="; "265"; " text-anchor="; "middle"; " font-family="; "serif"; " font-size="; "14"; " fill="; "#4A3B32"; ">"; title; "</text>"];
      "        ";
      "        <!-- Divider -->";
      quoted ["        <rect x="; "150"; " y="; "278"; " width="; "300"; " height="; "1"; " fill="; "#E6E2D8"; "/>"];
      "        ";
      "        <!-- CTA -->";
      quoted ["        <text x="; "300"; " y="; "300"; " text-anchor="; "middle"; " font-family="; "sans-serif"; " font-size="; "11"; " fill="; "#7A6E62"; ">" +:+ cta +:+ "</text>"];
      "        ";
      "        <!-- Logo -->";
      quoted ["        <rect x="; "20"; " y="; "287"; " width="; "50"; " height="; "16"; " rx="; "4"; " fill="; "#4A3B32"; "/>"];
      quoted ["        <text x="; "45"; " y="; "299"; " text-anchor="; "middle"; " font-family="; "serif"; " font-weight="; "bold"; " font-size="; "10"; " fill="; "#FDFCF8"; ">R4</text>"];
      "    </svg>" ].

Definition generate_compatibility_share_card (arch1 arch2 language : string)
    : py Response :=
  let arch1 := lower arch1 in
  let arch2 := lower arch2 in
  key ← resolve_key arch1 arch2;
  data ← matrix_get key;
  let arch1_color := color_of arch1 in
  let arch2_color := color_of arch2 in
  let arch1_name := name_of arch1 language in
  let arch2_name := name_of arch2 language in
  let score := compatibility_score data in
  title ← get_title data language;
  let score_color := score_color_of score in
  let header_text := if String.eqb language "id" then "Kompatibilitas Komunikasi"
                     else "Communication Compatibility" in
  let cta := if String.eqb language "id" then "Cek kompatibilitasmu di relasi4warna.com"
             else "Check your compatibility at 4colorrelating.com" in
  Return {| content := compatibility_card_svg arch1_color arch2_color header_text
                         arch1_name arch2_name score_color score title cta;
            media_type := "image/svg+xml" |}.

(** ** The document store *)

(** The authenticated user, as [get_current_user] returns it. *)
Record User : Type := {
  u_user_id : string;
  u_email : string;
  u_name : option string
}.

(** A document of [db.quiz_attempts] with its progress. *)
Record AttemptDoc : Type := {
  at_attempt_id : string;
  at_user_id : string;
  at_series : string;
  at_language : string;
  at_status : string;
  at_started_at : string;
  at_completed_at : option string;
  at_answers : list QuizAnswer
}.

(** A document of [db.results]: the scored result with its identifiers. *)
Record ResultDoc : Type := {
  r_result_id : string;
  r_user_id : string;
  r_attempt_id : string;
  r_series : string;
  r_result : QuizResult;
  r_created_at : string
}.

(** A Python number: an [int] or a [float]. *)
Inductive number : Type :=
  | Int (n : Z)
  | Flt (x : float).

(** A document of [db.payments]. *)
Record PaymentDoc : Type := {
  pay_payment_id : string;
  pay_user_id : string;
  pay_result_id : string;
  pay_product_type : string;
  pay_amount : number;
  pay_currency : string;
  pay_status : string;
  pay_created_at : string;
  pay_paid_at : option string
}.

(** A document of [db.couples_packs]. *)
Record CouplesPack : Type := {
  cp_pack_id : string;
  cp_pack_name : string;
  cp_creator_id : string;
  cp_creator_name : string;
  cp_partner_id : option string;
  cp_partner_name : option string;
  cp_creator_result_id : option string;
  cp_partner_result_id : option string;
  cp_status : string;
  cp_comparison_report : option string;
  cp_created_at : string
}.

(** An element of the [members] array of a team pack. *)
Record TeamMember : Type := {
  m_user_id : string;
  m_email : string;
  m_name : option string;
  m_role : string;
  m_result_id : option string;
  m_joined_at : string
}.

(** A document of [db.team_packs]. *)
Record TeamPack : Type := {
  tp_pack_id : string;
  tp_pack_name : string;
  tp_pack_type : string;
  tp_owner_id : string;
  tp_owner_name : string;
  tp_owner_email : string;
  tp_max_members : Z;
  tp_members : list TeamMember;
  tp_status : string;
  tp_is_paid : bool;
  tp_created_at : string
}.

(** A document of [db.team_invites]. *)
Record TeamInvite : Type := {
  inv_invite_id : string;
  inv_pack_id : string;
  inv_email : string;
  inv_name : option string;
  inv_invited_by : string;
  inv_status : string;
  inv_created_at : string;
  inv_accepted_at : option string
}.

(** A document of [db.challenges], without the generated [days]. *)
Record Challenge : Type := {
  ch_challenge_id : string;
  ch_user_id : string;
  ch_archetype : string;
  ch_language : string;
  ch_status : string;
  ch_current_day : Z;
  ch_completed_days : list Z;
  ch_badges_earned : list string;
  ch_content_unlocked : list string;
  ch_reflections : list (string * (string * string));
  ch_completed_at : option string
}.

(** The collections of [db] that the handlers below read and write. *)
Record Store : Type := {
  st_quiz_attempts : list AttemptDoc;
  st_questions : list Question;
  st_results : list ResultDoc;
  st_payments : list PaymentDoc;
  st_couples_packs : list CouplesPack;
  st_team_packs : list TeamPack;
  st_team_invites : list TeamInvite;
  st_challenges : list Challenge
}.

Definition empty_store : Store :=
  {| st_quiz_attempts := []; st_questions := []; st_results := []; st_payments := [];
     st_couples_packs := []; st_team_packs := []; st_team_invites := [];
     st_challenges := [] |}.

Definition with_quiz_attempts (st : Store) (l : list AttemptDoc) : Store :=
  {| st_quiz_attempts := l; st_questions := st_questions st; st_results := st_results st;
     st_payments := st_payments st; st_couples_packs := st_couples_packs st;
     st_team_packs := st_team_packs st; st_team_invites := st_team_invites st;
     st_challenges := st_challenges st |}.

Definition with_results (st : Store) (l : list ResultDoc) : Store :=
  {| st_quiz_attempts := st_quiz_attempts st; st_questions := st_questions st;
     st_results := l; st_payments := st_payments st;
     st_couples_packs := st_couples_packs st; st_team_packs := st_team_packs st;
     st_team_invites := st_team_invites st; st_challenges := st_challenges st |}.

Definition with_payments (st : Store) (l : list PaymentDoc) : Store :=
  {| st_quiz_attempts := st_quiz_attempts st; st_questions := st_questions st;
     st_results := st_results st; st_payments := l;
     st_couples_packs := st_couples_packs st; st_team_packs := st_team_packs st;
     st_team_invites := st_team_invites st; st_challenges := st_challenges st |}.

Definition with_couples_packs (st : Store) (l : list CouplesPack) : Store :=
  {| st_quiz_attempts := st_quiz_attempts st; st_questions := st_questions st;
     st_results := st_results st; st_payments := st_payments st;
     st_couples_packs := l; st_team_packs := st_team_packs st;
     st_team_invites := st_team_invites st; st_challenges := st_challenges st |}.

Definition with_team_packs (st : Store) (l : list TeamPack) : Store :=
  {| st_quiz_attempts := st_quiz_attempts st; st_questions := st_questions st;
     st_results := st_results st; st_payments := st_payments st;
     st_couples_packs := st_couples_packs st; st_team_packs := l;
     st_team_invites := st_team_invites st; st_challenges := st_challenges st |}.


Definition with_challenges (st : Store) (l : list Challenge) : Store :=
  {| st_quiz_attempts := st_quiz_attempts st; st_questions := st_questions st;
     st_results := st_results st; st_payments := st_payments st;
     st_couples_packs := st_couples_packs st; st_team_packs := st_team_packs st;
     st_team_invites := st_team_invites st; st_challenges := l |}.

(** What the scoring block reads of the store. *)
Definition store_db (st : Store) : Database :=
  {| quiz_attempts :=
       List.map (λ a, {| a_attempt_id := at_attempt_id a;
                         a_user_id := at_user_id a;
                         a_series := at_series a |}) (st_quiz_attempts st);
     questions := st_questions st |}.

(** [uuid.uuid4().hex[:n]]: the first [n] of the generated digits. *)
Definition hex_prefix (n : nat) (uuid_hex : string) : string :=
  String.substring 0 n uuid_hex.

(** ** Quiz handlers with their writes *)

(** [start_quiz]: [uuid_hex] and [now] are the generated uuid and the
    current time. *)
Definition start_quiz (st : Store) (series language : string) (user : User)
    (uuid_hex now : string) : Store * (string * string) :=
  let attempt_id := "attempt_" +:+ hex_prefix 12 uuid_hex in
  let attempt := {| at_attempt_id := attempt_id;
                    at_user_id := u_user_id user;
                    at_series := series;
                    at_language := language;
                    at_status := "in_progress";
                    at_started_at := now;
                    at_completed_at := None;
                    at_answers := [] |} in
  (with_quiz_attempts st (st_quiz_attempts st ++ [attempt]), (attempt_id, series)).

Definition find_attempt_doc (st : Store) (aid uid : string) : option AttemptDoc :=
  List.find (λ a, (String.eqb (at_attempt_id a) aid && String.eqb (at_user_id a) uid)%bool)
            (st_quiz_attempts st).

(** The dict that [submit_quiz] returns. *)
Record SubmitResponse : Type := {
  resp_result_id : string;
  resp_primary_archetype : string;
  resp_secondary_archetype : string;
  resp_scores : list (string * Z);
  resp_balance_index : float;
  resp_stress_flag : bool
}.

(** The whole of [submit_quiz]: the result is stored and the attempt is
    marked completed; [created_at] and [completed_at] are the two readings
    of the clock. *)
Definition submit_quiz_handler (st : Store) (data : QuizSubmit) (user : User)
    (uuid_hex created_at completed_at : string) : py (Store * SubmitResponse) :=
  match find_attempt_doc st (attempt_id data) (u_user_id user) with
  | None => Raise (HTTPException 404 "Quiz attempt not found")
  | Some attempt =>
      r ← calculate_scores (store_db st) (answers data);
      let result_id := "result_" +:+ hex_prefix 12 uuid_hex in
      let result := {| r_result_id := result_id;
                       r_user_id := u_user_id user;
                       r_attempt_id := attempt_id data;
                       r_series := at_series attempt;
                       r_result := r;
                       r_created_at := created_at |} in
      let st := with_results st (st_results st ++ [result]) in
      let st := with_quiz_attempts st
                  (update_one (λ a, String.eqb (at_attempt_id a) (attempt_id data))
                     (λ a, {| at_attempt_id := at_attempt_id a;
                              at_user_id := at_user_id a;
                              at_series := at_series a;
                              at_language := at_language a;
                              at_status := "completed";
                              at_started_at := at_started_at a;
                              at_completed_at := Some completed_at;
                              at_answers := answers data |})
                     (st_quiz_attempts st)) in
      Return (st, {| resp_result_id := result_id;
                     resp_primary_archetype := primary_archetype r;
                     resp_secondary_archetype := secondary_archetype r;
                     resp_scores := scores r;
                     resp_balance_index := balance_index r;
                     resp_stress_flag := stress_flag r |})
  end.

(** [get_result] *)
Definition get_result (st : Store) (result_id : string) (user : User) : py ResultDoc :=
  match List.find (λ r, (String.eqb (r_result_id r) result_id
                         && String.eqb (r_user_id r) (u_user_id user))%bool)
                  (st_results st) with
  | None => Raise (HTTPException 404 "Result not found")
  | Some result => Return result
  end.

(** [db.results.find_one({"result_id": result_id})] *)
Definition find_result (st : Store) (result_id : string) : option ResultDoc :=
  List.find (λ r, String.eqb (r_result_id r) result_id) (st_results st).

Definition share_card_svg
    (primary_color : string) (title : string) (primary_name : string) (secondary_label : string) (secondary_name : string) (cta : string)
    : string :=
  lines
    [ quoted ["<svg xmlns="; "http://www.w3.org/2000/svg"; " viewBox="; "0 0 600 315"; " width="; "600"; " height="; "315"; ">"];
      "        <defs>";
      quoted ["            <linearGradient id="; "bg"; " x1="; "0%"; " y1="; "0%"; " x2="; "100%"; " y2="; "100%"; ">"];
      quoted ["                <stop offset="; "0%"; " style="; "stop-color:#FDFCF8"; "/>"];
      quoted ["                <stop offset="; "100%"; " style="; "stop-color:#F2EFE9"; "/>"];
      "            </linearGradient>";
      "        </defs>";
      quoted ["        <rect width="; "600"; " height="; "315"; " fill="; "url(#bg)"; "/>"];
      quoted ["        <rect x="; "0"; " y="; "0"; " width="; "600"; " height="; "8"; " fill="; primary_color; "/>"];
      quoted ["        <circle cx="; "80"; " cy="; "157"; " r="; "50"; " fill="; primary_color; " opacity="; "0.15"; "/>"];
      quoted ["        <circle cx="; "80"; " cy="; "157"; " r="; "30"; " fill="; primary_color; "/>"];
      quoted ["        <text x="; "300"; " y="; "60"; " text-anchor="; "middle"; " font-family="; "serif"; " font-size="; "18"; " fill="; "#7A6E62"; ">" +:+ title +:+ "</text>"];
      quoted ["        <text x="; "300"; " y="; "140"; " text-anchor="; "middle"; " font-family="; "serif"; " font-weight="; "bold"; " font-size="; "48"; " fill="; primary_color; ">" +:+ primary_name +:+ "</text>"];
      quoted ["        <text x="; "300"; " y="; "180"; " text-anchor="; "middle"; " font-family="; "sans-serif"; " font-size="; "16"; " fill="; "#7A6E62"; ">" +:+ secondary_label +:+ " " +:+ secondary_name +:+ "</text>"];
      quoted ["        <rect x="; "150"; " y="; "220"; " width="; "300"; " height="; "1"; " fill="; "#E6E2D8"; "/>"];
      quoted ["        <text x="; "300"; " y="; "260"; " text-anchor="; "middle"; " font-family="; "sans-serif"; " font-size="; "14"; " fill="; "#7A6E62"; ">" +:+ cta +:+ "</text>"];
      quoted ["        <rect x="; "20"; " y="; "287"; " width="; "60"; " height="; "18"; " rx="; "4"; " fill="; "#4A3B32"; "/>"];
      quoted ["        <text x="; "50"; " y="; "300"; " text-anchor="; "middle"; " font-family="; "serif"; " font-weight="; "bold"; " font-size="; "12"; " fill="; "#FDFCF8"; ">R4</text>"];
      "    </svg>" ].

(** [generate_share_card] *)
Definition generate_share_card (st : Store) (result_id language : string) : py Response :=
  match find_result st result_id with
  | None => Raise (HTTPException 404 "Result not found")
  | Some result =>
      let primary := primary_archetype (r_result result) in
      let secondary := secondary_archetype (r_result result) in
      let primary_color := color_of primary in
      let primary_name := name_of primary language in
      let secondary_name := name_of secondary language in
      let title := if String.eqb language "id" then "Tipe Komunikasi Saya"
                   else "My Communication Type" in
      let secondary_label := if String.eqb language "id" then "dengan kecenderungan"
                             else "with tendency" in
      let cta := if String.eqb language "id" then "Temukan tipe Anda di relasi4warna.com"
                 else "Find your type at 4colorrelating.com" in
      Return {| content := share_card_svg primary_color title primary_name
                             secondary_label secondary_name cta;
                media_type := "image/svg+xml" |}
  end.

(** ** Payments *)

(** One entry of [PRODUCTS]. *)
Record Product : Type := {
  price_idr : Z;
  price_usd : float;
  product_name_id : string;
  product_name_en : string
}.

(** The float literal with the decimal digits [digits] and [places] digits
    after the point: the binary64 value nearest to it. *)
Definition decimal (digits places : Z) : float :=
  match truediv digits (10 ^ places) with
  | Return x => x
  | Raise _ => float_zero
  end.

Definition PRODUCTS_items : list (string * Product) :=
  [ ("single_report", {| price_idr := 99000; price_usd := decimal 699 2;
                         product_name_id := "Laporan Lengkap";
                         product_name_en := "Full Report" |});
    ("family_pack", {| price_idr := 349000; price_usd := decimal 2499 2;
                       product_name_id := "Paket Keluarga (6 orang)";
                       product_name_en := "Family Pack (6 people)" |});
    ("team_pack", {| price_idr := 499000; price_usd := decimal 3499 2;
                     product_name_id := "Paket Tim (10 orang)";
                     product_name_en := "Team Pack (10 people)" |});
    ("couples_pack", {| price_idr := 149000; price_usd := decimal 999 2;
                        product_name_id := "Paket Pasangan";
                        product_name_en := "Couples Pack" |});
    ("subscription", {| price_idr := 199000; price_usd := decimal 1499 2;
                        product_name_id := "Langganan Bulanan";
                        product_name_en := "Monthly Subscription" |}) ].

Definition PRODUCTS : gmap string Product := list_to_map PRODUCTS_items.

Record PaymentCreate : Type := {
  pc_result_id : string;
  pc_product_type : string;
  pc_currency : string
}.

(** The dict that [create_payment] returns. *)
Record PaymentSession : Type := {
  ps_payment_id : string;
  ps_payment_url : string;
  ps_amount : number;
  ps_currency : string
}.

Definition create_payment (st : Store) (data : PaymentCreate) (user : User)
    (uuid_hex now : string) : py (Store * PaymentSession) :=
  match PRODUCTS !! pc_product_type data with
  | None => Raise (HTTPException 400 "Invalid product type")
  | Some product =>
      let amount := if String.eqb (pc_currency data) "IDR"
                    then Int (price_idr product) else Flt (price_usd product) in
      let payment_id := "pay_" +:+ hex_prefix 12 uuid_hex in
      let payment := {| pay_payment_id := payment_id;
                        pay_user_id := u_user_id user;
                        pay_result_id := pc_result_id data;
                        pay_product_type := pc_product_type data;
                        pay_amount := amount;
                        pay_currency := pc_currency data;
                        pay_status := "pending";
                        pay_created_at := now;
                        pay_paid_at := None |} in
      Return (with_payments st (st_payments st ++ [payment]),
              {| ps_payment_id := payment_id;
                 ps_payment_url := "/checkout/" +:+ payment_id;
                 ps_amount := amount;
                 ps_currency := pc_currency data |})
  end.

(** [{"$set": {"status": "paid", "paid_at": now}}] *)
Definition mark_paid (now : string) (p : PaymentDoc) : PaymentDoc :=
  {| pay_payment_id := pay_payment_id p;
     pay_user_id := pay_user_id p;
     pay_result_id := pay_result_id p;
     pay_product_type := pay_product_type p;
     pay_amount := pay_amount p;
     pay_currency := pay_currency p;
     pay_status := "paid";
     pay_created_at := pay_created_at p;
     pay_paid_at := Some now |}.

(** [{"$set": {"is_paid": True}}] *)
Definition set_is_paid (r : ResultDoc) : ResultDoc :=
  {| r_result_id := r_result_id r;
     r_user_id := r_user_id r;
     r_attempt_id := r_attempt_id r;
     r_series := r_series r;
     r_result := {| primary_archetype := primary_archetype (r_result r);
                    secondary_archetype := secondary_archetype (r_result r);
                    scores := scores (r_result r);
                    balance_index := balance_index (r_result r);
                    stress_flag := stress_flag (r_result r);
                    is_paid := true |};
     r_created_at := r_created_at r |}.

Definition pay_result (st : Store) (result_id : string) : Store :=
  with_results st
    (update_one (λ r, String.eqb (r_result_id r) result_id) set_is_paid (st_results st)).

(** [simulate_payment]: the payment must be the user's; the result it names
    is marked paid whoever owns it. *)
Definition simulate_payment (st : Store) (payment_id : string) (user : User)
    (now : string) : py (Store * (string * string)) :=
  match List.find (λ p, (String.eqb (pay_payment_id p) payment_id
                         && String.eqb (pay_user_id p) (u_user_id user))%bool)
                  (st_payments st) with
  | None => Raise (HTTPException 404 "Payment not found")
  | Some payment =>
      let st := with_payments st
                  (update_one (λ p, String.eqb (pay_payment_id p) payment_id)
                              (mark_paid now) (st_payments st)) in
      let st := pay_result st (pay_result_id payment) in
      Return (st, ("success", "Payment simulated successfully"))
  end.

(** [payment_webhook]: [callback_token] is the [x-callback-token] header,
    [external_id] and [status] are the two keys read from the JSON body,
    each absent or a string; [webhook_token] is [XENDIT_WEBHOOK_TOKEN]. *)
Definition payment_webhook (webhook_token : string) (st : Store)
    (callback_token external_id status : option string) (now : string)
    : py (Store * string) :=
  if negb (bool_decide (callback_token = Some webhook_token)) then
    Raise (HTTPException 401 "Invalid webhook token")
  else
    let payment_id := external_id in
    if bool_decide (status = Some "PAID") then
      let matches (p : PaymentDoc) := bool_decide (Some (pay_payment_id p) = payment_id) in
      let st := with_payments st (update_one matches (mark_paid now) (st_payments st)) in
      let st := match List.find matches (st_payments st) with
                | Some payment => pay_result st (pay_result_id payment)
                | None => st
                end in
      Return (st, "received")
    else Return (st, "received").

(** ** Couples packs *)

(** [user.get("name", default)] *)
Definition name_or (user : User) (default : string) : string :=
  match u_name user with
  | Some n => n
  | None => default
  end.

Definition find_couples_pack (st : Store) (pack_id : string) : option CouplesPack :=
  List.find (λ p, String.eqb (cp_pack_id p) pack_id) (st_couples_packs st).

Definition update_couples_pack (st : Store) (pack_id : string)
    (f : CouplesPack → CouplesPack) : Store :=
  with_couples_packs st
    (update_one (λ p, String.eqb (cp_pack_id p) pack_id) f (st_couples_packs st)).

Definition create_couples_pack (st : Store) (pack_name : string) (user : User)
    (uuid_hex now : string) : Store * (string * string * string) :=
  let pack_id := "couple_" +:+ hex_prefix 12 uuid_hex in
  let pack := {| cp_pack_id := pack_id;
                 cp_pack_name := pack_name;
                 cp_creator_id := u_user_id user;
                 cp_creator_name := name_or user "";
                 cp_partner_id := None;
                 cp_partner_name := None;
                 cp_creator_result_id := None;
                 cp_partner_result_id := None;
                 cp_status := "pending_partner";
                 cp_comparison_report := None;
                 cp_created_at := now |} in
  (with_couples_packs st (st_couples_packs st ++ [pack]), (pack_id, "created", pack_id)).


Definition set_creator_result (result_id : string) (p : CouplesPack) : CouplesPack :=
  {| cp_pack_id := cp_pack_id p;
     cp_pack_name := cp_pack_name p;
     cp_creator_id := cp_creator_id p;
     cp_creator_name := cp_creator_name p;
     cp_partner_id := cp_partner_id p;
     cp_partner_name := cp_partner_name p;
     cp_creator_result_id := Some result_id;
     cp_partner_result_id := cp_partner_result_id p;
     cp_status := cp_status p;
     cp_comparison_report := cp_comparison_report p;
     cp_created_at := cp_created_at p |}.

Definition set_partner_result (result_id : string) (p : CouplesPack) : CouplesPack :=
  {| cp_pack_id := cp_pack_id p;
     cp_pack_name := cp_pack_name p;
     cp_creator_id := cp_creator_id p;
     cp_creator_name := cp_creator_name p;
     cp_partner_id := cp_partner_id p;
     cp_partner_name := cp_partner_name p;
     cp_creator_result_id := cp_creator_result_id p;
     cp_partner_result_id := Some result_id;
     cp_status := cp_status p;
     cp_comparison_report := cp_comparison_report p;
     cp_created_at := cp_created_at p |}.

Definition set_couples_status (status : string) (p : CouplesPack) : CouplesPack :=
  {| cp_pack_id := cp_pack_id p;
     cp_pack_name := cp_pack_name p;
     cp_creator_id := cp_creator_id p;
     cp_creator_name := cp_creator_name p;
     cp_partner_id := cp_partner_id p;
     cp_partner_name := cp_partner_name p;
     cp_creator_result_id := cp_creator_result_id p;
     cp_partner_result_id := cp_partner_result_id p;
     cp_status := status;
     cp_comparison_report := cp_comparison_report p;
     cp_created_at := cp_created_at p |}.


(** [link_result_to_pack].  The pack read back after the update is the
    pack that was updated, so the second [find_one] cannot return [None]. *)
Definition link_result_to_pack (st : Store) (pack_id result_id : string) (user : User)
    : py (Store * (string * string)) :=
  match find_couples_pack st pack_id with
  | None => Raise (HTTPException 404 "Pack not found")
  | Some pack =>
      match get_result st result_id user with
      | Raise _ => Raise (HTTPException 404 "Result not found")
      | Return _ =>
          update_field ←
            (if String.eqb (cp_creator_id pack) (u_user_id user) then
               Return (set_creator_result result_id)
             else if bool_decide (cp_partner_id pack = Some (u_user_id user)) then
               Return (set_partner_result result_id)
             else Raise (HTTPException 403 "Not a member of this pack"));
          let st := update_couples_pack st pack_id update_field in
          let st := match find_couples_pack st pack_id with
                    | Some updated_pack =>
                        if (truthy_opt (cp_creator_result_id updated_pack)
                            && truthy_opt (cp_partner_result_id updated_pack))%bool
                        then update_couples_pack st pack_id (set_couples_status "complete")
                        else st
                    | None => st
                    end in
          Return (st, ("linked", result_id))
      end
  end.

Definition get_couples_pack (st : Store) (pack_id : string) (user : User)
    : py CouplesPack :=
  match find_couples_pack st pack_id with
  | None => Raise (HTTPException 404 "Pack not found")
  | Some pack =>
      if (negb (String.eqb (cp_creator_id pack) (u_user_id user))
          && negb (bool_decide (cp_partner_id pack = Some (u_user_id user))))%bool
      then Raise (HTTPException 403 "Not a member of this pack")
      else Return pack
  end.

(** ** Team packs *)

Record CreateTeamPackRequest : Type := {
  ctp_pack_name : string;
  ctp_pack_type : string;
  ctp_max_members : Z
}.

Definition find_team_pack (st : Store) (pack_id : string) : option TeamPack :=
  List.find (λ p, String.eqb (tp_pack_id p) pack_id) (st_team_packs st).

Definition set_members (members : list TeamMember) (p : TeamPack) : TeamPack :=
  {| tp_pack_id := tp_pack_id p;
     tp_pack_name := tp_pack_name p;
     tp_pack_type := tp_pack_type p;
     tp_owner_id := tp_owner_id p;
     tp_owner_name := tp_owner_name p;
     tp_owner_email := tp_owner_email p;
     tp_max_members := tp_max_members p;
     tp_members := members;
     tp_status := tp_status p;
     tp_is_paid := tp_is_paid p;
     tp_created_at := tp_created_at p |}.

(** [{"$push": {"members": new_member}}] on the first pack with the id. *)
Definition push_member (st : Store) (pack_id : string) (new_member : TeamMember) : Store :=
  with_team_packs st
    (update_one (λ p, String.eqb (tp_pack_id p) pack_id)
                (λ p, set_members (tp_members p ++ [new_member]) p)
                (st_team_packs st)).

Definition is_member (uid : string) (p : TeamPack) : bool :=
  existsb (λ m, String.eqb (m_user_id m) uid) (tp_members p).

(** [len(pack["members"]) >= pack["max_members"]] *)
Definition pack_full (p : TeamPack) : bool :=
  tp_max_members p <=? Z.of_nat (length (tp_members p)).

Definition create_team_pack (st : Store) (data : CreateTeamPackRequest) (user : User)
    (uuid_hex joined_at created_at : string) : py (Store * TeamPack) :=
  if negb (existsb (String.eqb (ctp_pack_type data)) ["family"; "team"]) then
    Raise (HTTPException 400 "Pack type must be 'family' or 'team'")
  else
    let max_allowed := if String.eqb (ctp_pack_type data) "family" then 6 else 10 in
    let max_members := if max_allowed <? ctp_max_members data
                       then max_allowed else ctp_max_members data in
    let pack_id := "pack_" +:+ hex_prefix 12 uuid_hex in
    let pack := {| tp_pack_id := pack_id;
                   tp_pack_name := ctp_pack_name data;
                   tp_pack_type := ctp_pack_type data;
                   tp_owner_id := u_user_id user;
                   tp_owner_name := name_or user "Owner";
                   tp_owner_email := u_email user;
                   tp_max_members := max_members;
                   tp_members := [ {| m_user_id := u_user_id user;
                                      m_email := u_email user;
                                      m_name := Some (name_or user "Owner");
                                      m_role := "owner";
                                      m_result_id := None;
                                      m_joined_at := joined_at |} ];
                   tp_status := "active";
                   tp_is_paid := false;
                   tp_created_at := created_at |} in
    Return (with_team_packs st (st_team_packs st ++ [pack]), pack).





Definition join_team_via_link (st : Store) (pack_id : string) (user : User) (now : string)
    : py (Store * (string * string)) :=
  match find_team_pack st pack_id with
  | None => Raise (HTTPException 404 "Pack not found")
  | Some pack =>
      if pack_full pack then Raise (HTTPException 400 "Pack is full")
      else if is_member (u_user_id user) pack then Return (st, ("already_member", pack_id))
      else
        let new_member := {| m_user_id := u_user_id user;
                             m_email := u_email user;
                             m_name := Some (name_or user "Member");
                             m_role := "member";
                             m_result_id := None;
                             m_joined_at := now |} in
        Return (push_member st pack_id new_member, ("joined", pack_id))
  end.

(** [next((i for i, m in enumerate(members) if m["user_id"] == uid), None)] *)
Fixpoint member_index (uid : string) (members : list TeamMember) : option nat :=
  match members with
  | [] => None
  | m :: rest =>
      if String.eqb (m_user_id m) uid then Some 0%nat
      else S <$> member_index uid rest
  end.

Definition set_member_result (result_id : string) (m : TeamMember) : TeamMember :=
  {| m_user_id := m_user_id m;
     m_email := m_email m;
     m_name := m_name m;
     m_role := m_role m;
     m_result_id := Some result_id;
     m_joined_at := m_joined_at m |}.

Definition link_result_to_team (st : Store) (pack_id result_id : string) (user : User)
    : py (Store * (string * string)) :=
  match find_team_pack st pack_id with
  | None => Raise (HTTPException 404 "Pack not found")
  | Some pack =>
      match member_index (u_user_id user) (tp_members pack) with
      | None => Raise (HTTPException 403 "Not a member of this pack")
      | Some member_idx =>
          match get_result st result_id user with
          | Raise _ => Raise (HTTPException 404 "Result not found")
          | Return _ =>
              let matches (p : TeamPack) :=
                (String.eqb (tp_pack_id p) pack_id
                 && bool_decide (m_user_id <$> tp_members p !! member_idx
                                 = Some (u_user_id user)))%bool in
              let st := with_team_packs st
                          (update_one matches
                             (λ p, set_members
                                     (alter (set_member_result result_id) member_idx
                                            (tp_members p)) p)
                             (st_team_packs st)) in
              Return (st, ("linked", result_id))
          end
      end
  end.

(** [x * 100] on a float: the binary64 value nearest to the exact product. *)
Definition float_times (x : float) (n : Z) : py float :=
  if 0 <=? fexp x then truediv (n * fmant x * 2 ^ fexp x) 1
  else truediv (n * fmant x) (2 ^ (- fexp x)).

(** What [get_team_pack] adds to the pack it returns. *)
Record TeamPackView : Type := {
  tv_pack : TeamPack;
  tv_members_with_results : list (TeamMember * option ResultDoc);
  tv_heatmap : list (string * Z);
  tv_completion_rate : float
}.

Definition member_result (st : Store) (member : TeamMember) : TeamMember * option ResultDoc :=
  (member,
   if truthy_opt (m_result_id member)
   then find_result st (default "" (m_result_id member))
   else None).

(** One iteration of the heatmap loop. *)
Definition heatmap_step (archetype_counts : list (string * Z))
    (mr : TeamMember * option ResultDoc) : list (string * Z) :=
  match mr.2 with
  | Some result =>
      let primary := primary_archetype (r_result result) in
      if dict_contains archetype_counts primary
      then dict_incr archetype_counts primary else archetype_counts
  | None => archetype_counts
  end.

Definition get_team_pack (st : Store) (pack_id : string) (user : User) : py TeamPackView :=
  match find_team_pack st pack_id with
  | None => Raise (HTTPException 404 "Pack not found")
  | Some pack =>
      if negb (is_member (u_user_id user) pack) then
        Raise (HTTPException 403 "Not a member of this pack")
      else
        let member_results := List.map (member_result st) (tp_members pack) in
        let archetype_counts := fold_left heatmap_step member_results initial_scores in
        let with_result :=
          Z.of_nat (length (List.filter (λ mr, bool_decide (is_Some mr.2)) member_results)) in
        quotient ← truediv with_result (Z.of_nat (length member_results));
        completion_rate ← float_times quotient 100;
        Return {| tv_pack := pack;
                  tv_members_with_results := member_results;
                  tv_heatmap := archetype_counts;
                  tv_completion_rate := completion_rate |}
  end.

(** [leave_team_pack]: [$pull] removes every member with the user's id. *)
Definition leave_team_pack (st : Store) (pack_id : string) (user : User)
    : py (Store * (string * string)) :=
  match find_team_pack st pack_id with
  | None => Raise (HTTPException 404 "Pack not found")
  | Some pack =>
      if String.eqb (tp_owner_id pack) (u_user_id user) then
        Raise (HTTPException 400
                 "Owner cannot leave. Transfer ownership or delete the pack.")
      else
        let st := with_team_packs st
                    (update_one (λ p, String.eqb (tp_pack_id p) pack_id)
                       (λ p, set_members
                               (List.filter
                                  (λ m, negb (String.eqb (m_user_id m) (u_user_id user)))
                                  (tp_members p)) p)
                       (st_team_packs st)) in
        Return (st, ("left", pack_id))
  end.

(** ** The seven-day challenge *)

(** One entry of [CHALLENGE_BADGES]. *)
Record Badge : Type := {
  badge_name_id : string;
  badge_name_en : string;
  badge_icon : string;
  badge_requirement : string
}.

Definition CHALLENGE_BADGES_items : list (string * Badge) :=
  [ ("communicator_novice",
     {| badge_name_id := "Komunikator Pemula"; badge_name_en := "Novice Communicator";
        badge_icon := "🌱"; badge_requirement := "complete_1_day" |});
    ("steady_speaker",
     {| badge_name_id := "Pembicara Mantap"; badge_name_en := "Steady Speaker";
        badge_icon := "💬"; badge_requirement := "complete_3_days" |});
    ("relationship_builder",
     {| badge_name_id := "Pembangun Hubungan"; badge_name_en := "Relationship Builder";
        badge_icon := "🤝"; badge_requirement := "complete_5_days" |});
    ("communication_master",
     {| badge_name_id := "Master Komunikasi"; badge_name_en := "Communication Master";
        badge_icon := "🏆"; badge_requirement := "complete_7_days" |}) ].

(** One entry of [PREMIUM_CONTENT]. *)
Record PremiumContent : Type := {
  content_name_id : string;
  content_name_en : string;
  unlock_at : Z
}.

Definition PREMIUM_CONTENT_items : list (string * PremiumContent) :=
  [ ("exclusive_tips",
     {| content_name_id := "Tips Eksklusif"; content_name_en := "Exclusive Tips";
        unlock_at := 3 |});
    ("workbook_pdf",
     {| content_name_id := "Workbook PDF"; content_name_en := "Workbook PDF";
        unlock_at := 5 |});
    ("master_guide",
     {| content_name_id := "Panduan Master"; content_name_en := "Master Guide";
        unlock_at := 7 |}) ].

(** [table[key]] on a dict literal: a missing key raises [KeyError]. *)
Definition dict_item {V : Type} (d : list (string * V)) (k : string) : py V :=
  match dict_get d k with
  | Some v => Return v
  | None => Raise (KeyError k)
  end.

(** A list comprehension whose element expression may raise. *)
Fixpoint py_map {A B : Type} (f : A → py B) (l : list A) : py (list B) :=
  match l with
  | [] => Return []
  | x :: l' => y ← f x; ys ← py_map f l'; Return (y :: ys)
  end.

(** [x in l] for a list of strings, and for a list of ints. *)
Definition str_in (x : string) (l : list string) : bool := existsb (String.eqb x) l.
Definition int_in (x : Z) (l : list Z) : bool := existsb (Z.eqb x) l.

(** One of the four badge checks: with [n] completed days the badge is
    appended to the earned and to the new badges unless already earned. *)
Definition earn (n threshold : Z) (badge : string) (st : list string * list string)
    : list string * list string :=
  if ((threshold <=? n) && negb (str_in badge st.1))%bool
  then ((st.1 ++ [badge])%list, (st.2 ++ [badge])%list) else st.

(** One iteration of the loop over [PREMIUM_CONTENT.items()]. *)
Definition unlock (n : Z) (st : list string * list string)
    (item : string * PremiumContent) : list string * list string :=
  earn n (unlock_at item.2) item.1 st.

Inductive DayResponse : Type :=
  | AlreadyCompleted (day : Z)
  | DayCompleted (day : Z) (new_badges : list Badge)
      (new_content : list (string * PremiumContent))
      (challenge_complete : bool) (next_day : option Z).

Definition find_challenge (st : Store) (challenge_id uid : string) : option Challenge :=
  List.find (λ c, (String.eqb (ch_challenge_id c) challenge_id
                   && String.eqb (ch_user_id c) uid)%bool) (st_challenges st).

(** The document after one more completed day. *)
Definition advance_challenge (challenge : Challenge) (day : Z)
    (reflection completed_at submitted_at : string) : Challenge :=
  let completed_days := (ch_completed_days challenge ++ [day])%list in
  let n := Z.of_nat (length completed_days) in
  let new_current_day := if day <? 7 then day + 1 else 7 in
  let badges :=
    earn n 7 "communication_master"
      (earn n 5 "relationship_builder"
         (earn n 3 "steady_speaker"
            (earn n 1 "communicator_novice" (ch_badges_earned challenge, [])))) in
  let contents := fold_left (unlock n) PREMIUM_CONTENT_items
                            (ch_content_unlocked challenge, []) in
  let status := if 7 <=? n then "completed" else "active" in
  {| ch_challenge_id := ch_challenge_id challenge;
     ch_user_id := ch_user_id challenge;
     ch_archetype := ch_archetype challenge;
     ch_language := ch_language challenge;
     ch_status := status;
     ch_current_day := new_current_day;
     ch_completed_days := completed_days;
     ch_badges_earned := badges.1;
     ch_content_unlocked := contents.1;
     ch_reflections := if truthy reflection
                       then dict_set (ch_reflections challenge) (pretty day)
                                     (reflection, submitted_at)
                       else ch_reflections challenge;
     ch_completed_at := if String.eqb status "completed" then Some completed_at
                        else ch_completed_at challenge |}.

Definition complete_challenge_day (st : Store) (challenge_id : string) (day : Z)
    (reflection : string) (user : User) (completed_at submitted_at : string)
    : py (Store * DayResponse) :=
  match find_challenge st challenge_id (u_user_id user) with
  | None => Raise (HTTPException 404 "Challenge not found")
  | Some challenge =>
      if negb (String.eqb (ch_status challenge) "active") then
        Raise (HTTPException 400 "Challenge is not active")
      else if int_in day (ch_completed_days challenge) then
        Return (st, AlreadyCompleted day)
      else if negb (day =? ch_current_day challenge) then
        Raise (HTTPException 400
                 ("Must complete day " +:+ pretty (ch_current_day challenge) +:+ " first"))
      else
        let n := Z.of_nat (length (ch_completed_days challenge ++ [day])) in
        let new_badges :=
          (earn n 7 "communication_master"
             (earn n 5 "relationship_builder"
                (earn n 3 "steady_speaker"
                   (earn n 1 "communicator_novice" (ch_badges_earned challenge, []))))).2 in
        let new_content :=
          (fold_left (unlock n) PREMIUM_CONTENT_items
                     (ch_content_unlocked challenge, [])).2 in
        let updated := advance_challenge challenge day reflection completed_at
                         submitted_at in
        let st' := with_challenges st
                     (update_one (λ c, String.eqb (ch_challenge_id c) challenge_id)
                                 (λ c, {| ch_challenge_id := ch_challenge_id c;
                                          ch_user_id := ch_user_id c;
                                          ch_archetype := ch_archetype c;
                                          ch_language := ch_language c;
                                          ch_status := ch_status updated;
                                          ch_current_day := ch_current_day updated;
                                          ch_completed_days := ch_completed_days updated;
                                          ch_badges_earned := ch_badges_earned updated;
                                          ch_content_unlocked := ch_content_unlocked updated;
                                          ch_reflections :=
                                            if truthy reflection
                                            then ch_reflections updated
                                            else ch_reflections c;
                                          ch_completed_at :=
                                            if String.eqb (ch_status updated) "completed"
                                            then ch_completed_at updated
                                            else ch_completed_at c |})
                                 (st_challenges st)) in
        badges ← py_map (dict_item CHALLENGE_BADGES_items) new_badges;
        content ← py_map (λ c, info ← dict_item PREMIUM_CONTENT_items c; Return (c, info))
                         new_content;
        Return (st', DayCompleted day badges content
                       (String.eqb (ch_status updated) "completed")
                       (if String.eqb (ch_status updated) "active"
                        then Some (ch_current_day updated) else None))
  end.

(** The document that [start_challenge] stores for a new challenge. *)
Definition new_challenge (challenge_id uid archetype language : string) : Challenge :=
  {| ch_challenge_id := challenge_id;
     ch_user_id := uid;
     ch_archetype := archetype;
     ch_language := language;
     ch_status := "active";
     ch_current_day := 1;
     ch_completed_days := [];
     ch_badges_earned := [];
     ch_content_unlocked := [];
     ch_reflections := [];
     ch_completed_at := None |}.

(** ** Sample data *)

Definition alice : User :=
  {| u_user_id := "user_alice"; u_email := "alice@example.com"; u_name := Some "Alice" |}.

Definition bob : User :=
  {| u_user_id := "user_bob"; u_email := "bob@example.com"; u_name := None |}.

Definition carol : User :=
  {| u_user_id := "user_carol"; u_email := "carol@example.com"; u_name := Some "Carol" |}.

(** A result of [alice] as the scoring block returns it for the answers
    spark, spark, anchor. *)
Definition sample_result : ResultDoc :=
  {| r_result_id := "result_0123456789ab";
     r_user_id := "user_alice";
     r_attempt_id := "attempt_0123456789ab";
     r_series := "family";
     r_result := {| primary_archetype := "spark";
                    secondary_archetype := "anchor";
                    scores := [("driver", 0); ("spark", 2); ("anchor", 1); ("analyst", 0)];
                    balance_index := decimal 67 2;
                    stress_flag := false;
                    is_paid := false |};
     r_created_at := "2026-01-05T10:00:00+00:00" |}.

Definition sample_attempt : AttemptDoc :=
  {| at_attempt_id := "attempt_0123456789ab";
     at_user_id := "user_alice";
     at_series := "family";
     at_language := "id";
     at_status := "in_progress";
     at_started_at := "2026-01-05T09:50:00+00:00";
     at_completed_at := None;
     at_answers := [] |}.

Definition sample_payment : PaymentDoc :=
  {| pay_payment_id := "pay_00000000beef";
     pay_user_id := "user_bob";
     pay_result_id := "result_0123456789ab";
     pay_product_type := "single_report";
     pay_amount := Int 99000;
     pay_currency := "IDR";
     pay_status := "pending";
     pay_created_at := "2026-01-05T10:05:00+00:00";
     pay_paid_at := None |}.

Definition sample_store : Store :=
  {| st_quiz_attempts := [sample_attempt];
     st_questions := questions db1;
     st_results := [sample_result];
     st_payments := [sample_payment];
     st_couples_packs := [];
     st_team_packs := [];
     st_team_invites := [];
     st_challenges := [] |}.

(** ** Vocabulary of the pack and challenge properties *)

(** Both results of a couples pack are linked. *)
Definition both_linked (p : CouplesPack) : bool :=
  (truthy_opt (cp_creator_result_id p) && truthy_opt (cp_partner_result_id p))%bool.

(** What [link_result_to_pack] does to the pack once the result is set. *)
Definition complete_if_linked (p : CouplesPack) : CouplesPack :=
  if both_linked p then set_couples_status "complete" p else p.


(** A store in which [alice] has created a couples pack. *)
Definition couples_store : Store :=
  (create_couples_pack sample_store "Alice and Bob" alice
     "c0ffee00c0ffee00c0ffee00c0ffee00" "2026-01-08T09:00:00+00:00").1.


(** The member has linked a result that is on file and has [a] as primary
    archetype. *)
Definition member_has_primary (st : Store) (a : string) (m : TeamMember) : Prop :=
  ∃ result_id doc,
    m_result_id m = Some result_id ∧ result_id ≠ "" ∧
    find_result st result_id = Some doc ∧
    primary_archetype (r_result doc) = a.

#[global] Instance member_has_primary_dec st a m : Decision (member_has_primary st a m).
Proof.
  unfold member_has_primary.
  destruct (m_result_id m) as [rid|]; [|right; by intros (? & ? & [=] & _)].
  destruct (decide (rid = "")) as [->|Hne];
    [right; by intros (? & ? & [= <-] & Hn & _)|].
  destruct (find_result st rid) as [doc|] eqn:Hdoc;
    [|right; intros (? & ? & [= <-] & _ & Hd & _); by rewrite Hdoc in Hd].
  destruct (decide (primary_archetype (r_result doc) = a)) as [Hp|Hp].
  - left. by exists rid, doc.
  - right. intros (? & doc' & [= <-] & _ & Hd & Hp'). rewrite Hdoc in Hd.
    by injection Hd as <-.
Defined.

Definition members_with_primary (st : Store) (a : string) (p : TeamPack) : Z :=
  Z.of_nat (length (filter (member_has_primary st a) (tp_members p))).

(** A store in which [alice] owns a family pack for two. *)
Definition team_store : Store :=
  match create_team_pack sample_store
          {| ctp_pack_name := "Home"; ctp_pack_type := "family"; ctp_max_members := 2 |}
          alice "7ea7000000007ea7000000007ea70000" "2026-01-09T09:00:00.000101+00:00"
          "2026-01-09T09:00:00.000104+00:00" with
  | Return (st, _) => st
  | Raise _ => sample_store
  end.


(** The badges and the premium content that [k] completed days have
    earned, in the order they are earned. *)
Definition badges_for (k : Z) : list string :=
  ((if 1 <=? k then ["communicator_novice"] else []) ++
   (if 3 <=? k then ["steady_speaker"] else []) ++
   (if 5 <=? k then ["relationship_builder"] else []) ++
   (if 7 <=? k then ["communication_master"] else []))%list.

Definition content_for (k : Z) : list string :=
  ((if 3 <=? k then ["exclusive_tips"] else []) ++
   (if 5 <=? k then ["workbook_pdf"] else []) ++
   (if 7 <=? k then ["master_guide"] else []))%list.

(** A challenge is on track after [k] days: the days 1 to [k] are
    completed in order, the next day is due, the badges and the content of
    [k] days are held, and the challenge is completed exactly at seven. *)
Definition on_track_at (k : Z) (c : Challenge) : Prop :=
  0 ≤ k ≤ 7 ∧
  ch_completed_days c = seqZ 1 k ∧
  ch_current_day c = Z.min (k + 1) 7 ∧
  ch_status c = (if k =? 7 then "completed" else "active") ∧
  ch_badges_earned c = badges_for k ∧
  ch_content_unlocked c = content_for k.

Definition on_track (c : Challenge) : Prop := ∃ k, on_track_at k c.

(** The badges awarded and the content unlocked by completing [day]. *)
Definition badges_awarded_on (day : Z) : list string :=
  if day =? 1 then ["communicator_novice"]
  else if day =? 3 then ["steady_speaker"]
  else if day =? 5 then ["relationship_builder"]
  else if day =? 7 then ["communication_master"]
  else [].

Definition content_unlocked_on (day : Z) : list string :=
  if day =? 3 then ["exclusive_tips"]
  else if day =? 5 then ["workbook_pdf"]
  else if day =? 7 then ["master_guide"]
  else [].

(** A store with a new challenge of [alice]. *)
Definition challenge_store : Store :=
  with_challenges sample_store [new_challenge "chal_000000000001" "user_alice" "spark" "id"].

(** The calls of [complete_challenge_day] for [days], one after the other,
    and the store after [alice] has completed the seven days in order. *)
Fixpoint complete_days (st : Store) (challenge_id : string) (user : User) (now : string)
    (days : list Z) : py Store :=
  match days with
  | [] => Return st
  | day :: days' =>
      r ← complete_challenge_day st challenge_id day "" user now now;
      complete_days r.1 challenge_id user now days'
  end.

Definition finished_store : Store :=
  match complete_days challenge_store "chal_000000000001" alice "2026-01-07" (seqZ 1 7) with
  | Return st => st
  | Raise _ => challenge_store
  end.

(** * Properties *)

(** ** Lowercasing *)

(** [str.lower] reaches beyond ASCII: the Kelvin sign U+212A lowers to k,
    so that an option written with it lowers to spark; U+0130 lowers to two
    code points; a capital sigma lowers to the final sigma at the end of a
    word; text without case is kept. *)
Example lower_kelvin_sign : lower "SPARK" = "spark".
Proof. vm_compute. reflexivity. Qed.

Example lower_dotted_capital_i : lower "İSTANBUL" = "i̇stanbul".
Proof. vm_compute. reflexivity. Qed.

Example lower_final_sigma : lower "ΟΔΟΣ ΣΟΦΙΑ" = "οδος σοφια".
Proof. vm_compute. reflexivity. Qed.

Example lower_uncased : lower "q-17 é中😀" = "q-17 é中😀".
Proof. vm_compute. reflexivity. Qed.

(** ** The stable descending sort *)

Section sorted_reverse.
Context {A : Type} (key : A → Z).

Lemma insert_reverse_Permutation x l : insert_reverse key x l ≡ₚ x :: l.
Proof.
  induction l as [|y l IH]; simpl; [done|].
  case_match; [done|]. rewrite IH. apply Permutation_swap.
Qed.

Lemma sorted_reverse_Permutation l : sorted_reverse key l ≡ₚ l.
Proof.
  induction l as [|x l IH]; simpl; [done|].
  by rewrite insert_reverse_Permutation, IH.
Qed.

Lemma sorted_reverse_length l : length (sorted_reverse key l) = length l.
Proof. by rewrite sorted_reverse_Permutation. Qed.

(** The result is in descending key order. *)
Lemma insert_reverse_descending x l :
  StronglySorted (λ a b, key b ≤ key a) l →
  StronglySorted (λ a b, key b ≤ key a) (insert_reverse key x l).
Proof.
  induction 1 as [|y l Hl IH Hy]; simpl.
  - repeat constructor.
  - destruct (Z.leb_spec (key y) (key x)) as [Hle|Hlt].
    + constructor; [by constructor|].
      constructor; [done|].
      eapply Forall_impl; [exact Hy|]. simpl. intros; lia.
    + constructor; [done|].
      rewrite insert_reverse_Permutation. constructor; [lia|done].
Qed.

Lemma sorted_reverse_descending l :
  StronglySorted (λ a b, key b ≤ key a) (sorted_reverse key l).
Proof.
  induction l; simpl; [constructor|by apply insert_reverse_descending].
Qed.

(** The sort is stable: the items of any one key keep their order. *)
Lemma insert_reverse_stable k x l :
  StronglySorted (λ a b, key b ≤ key a) l →
  filter (λ a, key a = k) (insert_reverse key x l)
  = filter (λ a, key a = k) (x :: l).
Proof.
  induction 1 as [|y l Hl IH Hy]; simpl; [done|].
  destruct (Z.leb_spec (key y) (key x)) as [Hle|Hlt]; [done|].
  rewrite (filter_cons _ y), IH, !filter_cons.
  repeat case_decide; try done; lia.
Qed.

Lemma sorted_reverse_stable k l :
  filter (λ a, key a = k) (sorted_reverse key l) = filter (λ a, key a = k) l.
Proof.
  induction l as [|x l IH]; simpl; [done|].
  rewrite insert_reverse_stable by apply sorted_reverse_descending.
  by rewrite !filter_cons, IH.
Qed.
End sorted_reverse.

(** A stable descending sort breaks ties by the order of its input: when
    the input is ascending in [ord], the result is descending in [key] and,
    among equal keys, ascending in [ord]. *)
Section tie_break.
Context {A : Type} (key : A → Z) (ord : A → nat).

Local Abbreviation before := (tie_break_before key ord).

Lemma insert_reverse_tie_break x l :
  Forall (λ y, (ord x < ord y)%nat) l →
  StronglySorted before l →
  StronglySorted before (insert_reverse key x l).
Proof.
  intros Hx Hl. induction Hl as [|y l Hl IH Hy]; simpl.
  - repeat constructor.
  - apply Forall_cons in Hx as [Hxy Hx].
    destruct (Z.leb_spec (key y) (key x)) as [Hle|Hlt].
    + constructor; [by constructor|].
      constructor; [unfold tie_break_before; lia|].
      rewrite Forall_forall in Hx, Hy |- *. intros z Hz.
      specialize (Hx z Hz). specialize (Hy z Hz). unfold tie_break_before in *. lia.
    + constructor; [by apply IH|].
      rewrite insert_reverse_Permutation.
      constructor; [unfold tie_break_before; lia|done].
Qed.

Lemma sorted_reverse_tie_break l :
  StronglySorted (λ x y, (ord x < ord y)%nat) l →
  StronglySorted before (sorted_reverse key l).
Proof.
  induction 1 as [|x l Hl IH Hx]; simpl; [constructor|].
  apply insert_reverse_tie_break; [|done].
  by rewrite sorted_reverse_Permutation.
Qed.
End tie_break.

(** ** The scoring loop *)

Lemma count_for_cons a x l : count_for a (x :: l) = hit a x + count_for a l.
Proof.
  unfold count_for, hit. rewrite filter_cons.
  case_decide; simpl length; lia.
Qed.

Lemma stress_count_cons db x l :
  stress_count db (x :: l) = stress_hit db x + stress_count db l.
Proof.
  unfold stress_count, stress_hit. rewrite filter_cons.
  case_decide; simpl length; lia.
Qed.

(** One iteration adds the answer's hit to each count and its stress hit
    to the counter. *)
Lemma score_answer_tally db a b c d s x :
  score_answer db (tally a b c d, s) x
  = (tally (a + hit "driver" x) (b + hit "spark" x)
           (c + hit "anchor" x) (d + hit "analyst" x),
     s + stress_hit db x).
Proof.
  unfold score_answer, hit, stress_hit, tally.
  assert (Hs : stress_marked (find_question db (question_id x)) = true
               ↔ has_stress_marker db x).
  { unfold stress_marked, has_stress_marker.
    destruct (find_question db (question_id x)) as [q|].
    - destruct (stress_marker_flag q) as [[|]|] eqn:Hq.
      + split; [intros _; by exists q|done].
      + split; [done|intros (q' & [= <-] & Hq'); congruence].
      + split; [done|intros (q' & [= <-] & Hq'); congruence].
    - split; [done|intros (q' & Hq' & _); done]. }
  assert (He : ∀ k, String.eqb k (lower (selected_option x))
                    = bool_decide (lower (selected_option x) = k)).
  { intros k. destruct (String.eqb_spec k (lower (selected_option x))) as [->|Hne].
    - by rewrite bool_decide_eq_true_2.
    - by rewrite bool_decide_eq_false_2. }
  unfold dict_contains, dict_incr. cbn [existsb List.map fst snd].
  rewrite (String.eqb_sym _ "driver"), !He.
  f_equal.
  - repeat case_bool_decide; repeat case_decide; simpl;
      try congruence; by rewrite ?Z.add_0_r.
  - destruct (decide (stress_answer db x)) as [[Hm Hd]|Hn].
    + apply Hs in Hm. by rewrite Hm, bool_decide_eq_true_2.
    + destruct (stress_marked _) eqn:Hm; [|simpl; lia].
      case_bool_decide; [|simpl; lia].
      exfalso. apply Hn. split; [by apply Hs|done].
Qed.

Lemma score_loop_from db l a b c d s :
  fold_left (score_answer db) l (tally a b c d, s)
  = (tally (a + count_for "driver" l) (b + count_for "spark" l)
           (c + count_for "anchor" l) (d + count_for "analyst" l),
     s + stress_count db l).
Proof.
  revert a b c d s. induction l as [|x l IH]; intros a b c d s.
  - simpl. unfold count_for, stress_count. simpl. by rewrite !Z.add_0_r.
  - cbn [fold_left]. rewrite score_answer_tally, IH, !count_for_cons, stress_count_cons.
    by rewrite !Z.add_assoc.
Qed.

(** The loop leaves the four counts, in the order of the initial dict, and
    the number of stress answers. *)
Lemma score_loop_counts db l :
  score_loop db l = (counted_scores l, stress_count db l).
Proof.
  unfold score_loop. change initial_scores with (tally 0 0 0 0).
  by rewrite score_loop_from.
Qed.

Ltac elem_of_list := apply list_elem_of_In; simpl; tauto.

(** ** Ranking the four counts *)

Ltac rank_cases :=
  repeat (cbn [sorted_reverse insert_reverse snd];
          match goal with
          | |- context [?x <=? ?y] => destruct (Z.leb_spec x y)
          end).

(** The sorted dict starts with two different items of the dict: the first
    ranks before every other item, the second before every item but the
    first. *)
Lemma ranking_tally a b c d :
  ∃ p s rest,
    sorted_reverse snd (tally a b c d) = p :: s :: rest ∧
    p ∈ tally a b c d ∧ s ∈ tally a b c d ∧ p.1 ≠ s.1 ∧
    Forall (λ e, e.1 ≠ p.1 → ranks_before p e) (tally a b c d) ∧
    Forall (λ e, e.1 ≠ p.1 → e.1 ≠ s.1 → ranks_before s e) (tally a b c d).
Proof.
  unfold tally, ranks_before.
  rank_cases; cbn [sorted_reverse insert_reverse snd];
    (eexists _, _, _; split; [reflexivity|]);
    (split; [apply list_elem_of_In; simpl; tauto|]);
    (split; [apply list_elem_of_In; simpl; tauto|]);
    (split; [simpl; discriminate|]);
    split; repeat (apply Forall_cons_2 || apply Forall_nil_2);
    simpl; intros; try done; unfold order_index; simpl; lia.
Qed.

Lemma elem_of_counted_scores l e :
  e ∈ counted_scores l ↔ e.1 ∈ archetypes ∧ e.2 = count_for e.1 l.
Proof.
  unfold counted_scores, archetypes. destruct e as [k v]. simpl.
  rewrite !elem_of_cons, !elem_of_nil. split.
  - intros [H|[H|[H|[H|[]]]]]; injection H as -> ->; tauto.
  - intros [[->|[->|[->|[->|[]]]]] ->]; tauto.
Qed.

(** ** Floats *)

Lemma truediv_returns p q : q ≠ 0 → ∃ x, truediv p q = Return x.
Proof.
  intros Hq. unfold truediv.
  destruct (Z.eqb_spec q 0); [done|].
  destruct (p =? 0); eauto.
Qed.

Lemma round2_returns x : ∃ y, round2 x = Return y.
Proof. by apply truediv_returns. Qed.

Lemma total_questions_max l : total_questions l = Z.max 1 (Z.of_nat (length l)).
Proof. unfold total_questions. destruct (Z.eqb_spec (Z.of_nat (length l)) 0); lia. Qed.

Lemma submitted_balance_index_returns l : ∃ x, submitted_balance_index l = Return x.
Proof.
  unfold submitted_balance_index.
  destruct (truediv_returns (max_count l - min_count l) (Z.max 1 (Z.of_nat (length l))))
    as [q ->]; [lia|].
  apply round2_returns.
Qed.

(** 1/2 is exact; 1/200 lies above 0.005 as a binary64 value and rounds
    up to 0.01; 1/8 is exact and the tie goes to the even 0.12. *)
Example truediv_half : truediv 1 2 = Return (Float (2 ^ 52) (-53)).
Proof. reflexivity. Qed.

Example hundredths_1_200 : hundredths <$> truediv 1 200 = Return 1.
Proof. reflexivity. Qed.

Example hundredths_1_8 : hundredths <$> truediv 1 8 = Return 12.
Proof. reflexivity. Qed.

Example hundredths_2_3 : hundredths <$> truediv 2 3 = Return 67.
Proof. reflexivity. Qed.

(** ** The scoring block in closed form *)

Lemma py_max_counted l : py_max (dict_values (counted_scores l)) = Return (max_count l).
Proof. unfold max_count. simpl. f_equal. lia. Qed.

Lemma py_min_counted l : py_min (dict_values (counted_scores l)) = Return (min_count l).
Proof. unfold min_count. simpl. f_equal. lia. Qed.

Lemma calculate_scores_ranked db l :
  ∃ p s rest bal,
    sorted_reverse snd (counted_scores l) = p :: s :: rest ∧
    submitted_balance_index l = Return bal ∧
    calculate_scores db l
    = Return {| primary_archetype := p.1;
                secondary_archetype := s.1;
                scores := counted_scores l;
                balance_index := bal;
                stress_flag := 3 <=? stress_count db l;
                is_paid := false |}.
Proof.
  destruct (ranking_tally (count_for "driver" l) (count_for "spark" l)
              (count_for "anchor" l) (count_for "analyst" l))
    as (p & s & rest & Hsort & _).
  destruct (submitted_balance_index_returns l) as [bal Hbal].
  exists p, s, rest, bal. split; [done|]. split; [done|].
  unfold calculate_scores. rewrite score_loop_counts.
  change (tally _ _ _ _) with (counted_scores l) in Hsort. rewrite Hsort.
  cbn [item lookup list_lookup mbind py_bind].
  rewrite py_max_counted, py_min_counted, total_questions_max.
  cbn [mbind py_bind].
  unfold submitted_balance_index in Hbal.
  destruct (truediv _ _) as [q|e]; [|done].
  cbn [mbind py_bind] in Hbal |- *. by rewrite Hbal.
Qed.

(** With the attempt on file, the handler returns what the scoring block
    returns; without it, it raises 404 before any answer is read. *)
Lemma submit_quiz_scores db data user_id :
  submit_quiz db data user_id
  = match find_attempt db (attempt_id data) user_id with
    | Some _ => calculate_scores db (answers data)
    | None => Raise (HTTPException 404 "Quiz attempt not found")
    end.
Proof. unfold submit_quiz. by destruct (find_attempt _ _ _). Qed.

Lemma submit_quiz_returns db data user_id :
  is_Some (find_attempt db (attempt_id data) user_id) →
  ∃ r, submit_quiz db data user_id = Return r.
Proof.
  intros [att Hatt]. rewrite submit_quiz_scores, Hatt.
  destruct (calculate_scores_ranked db (answers data))
    as (p & s & rest & bal & _ & _ & ->). eauto.
Qed.

(** What the head of the sorted dict says about the answers. *)
Lemma ranking_counted l p s rest :
  sorted_reverse snd (counted_scores l) = p :: s :: rest →
  p.1 ∈ archetypes ∧ s.1 ∈ archetypes ∧ p.1 ≠ s.1 ∧
  (∀ b, b ∈ archetypes → b ≠ p.1 → outranks l p.1 b) ∧
  (∀ b, b ∈ archetypes → b ≠ p.1 → b ≠ s.1 → outranks l s.1 b).
Proof.
  intros Hsort.
  destruct (ranking_tally (count_for "driver" l) (count_for "spark" l)
              (count_for "anchor" l) (count_for "analyst" l))
    as (p' & s' & rest' & Hsort' & Hp & Hs & Hne & Hfst & Hsnd).
  change (tally _ _ _ _) with (counted_scores l) in *.
  rewrite Hsort in Hsort'. injection Hsort' as <- <- <-.
  apply elem_of_counted_scores in Hp as [Hp Hpv], Hs as [Hs Hsv].
  repeat split; try done.
  - intros b Hb Hbp. rewrite Forall_forall in Hfst.
    specialize (Hfst (b, count_for b l)). unfold ranks_before in Hfst.
    simpl in Hfst. rewrite Hpv in Hfst. apply Hfst; [|done].
    by apply elem_of_counted_scores.
  - intros b Hb Hbp Hbs. rewrite Forall_forall in Hsnd.
    specialize (Hsnd (b, count_for b l)). unfold ranks_before in Hsnd.
    simpl in Hsnd. rewrite Hsv in Hsnd. apply Hsnd; [|done..].
    by apply elem_of_counted_scores.
Qed.

(** ** Balance index *)

(** C1, as amended.  The scoring block returns a result whose balance index
    is [round((max_count - min_count) / total, 2)], where [total] is the
    number of answers that were submitted, recognized or not, and 1 when
    the sequence is empty. *)
Theorem balance_index_over_submitted db l :
  ∃ r, calculate_scores db l = Return r ∧
       Return (balance_index r) = submitted_balance_index l.
Proof.
  destruct (calculate_scores_ranked db l) as (p & s & rest & bal & _ & Hbal & ->).
  eexists. split; [done|]. by rewrite Hbal.
Qed.

(** When every answer is recognized the two denominators agree. *)
Lemma spec_balance_index_all_scored l :
  Forall (λ x, lower (selected_option x) ∈ archetypes) l →
  spec_balance_index l = submitted_balance_index l.
Proof.
  intros Hall. unfold spec_balance_index, submitted_balance_index, spec_total_answers, scored.
  replace (filter _ l) with l; [done|].
  induction Hall as [|x l Hx Hl IH]; [done|].
  by rewrite filter_cons_True, <- IH.
Qed.

(** C1 as stated fails: for the answers driver, maybe the block returns
    0.5 (one half of the two submitted answers), where the stated formula
    divides by the one scored answer and gives 1.0. *)
Lemma balance_index_not_over_scored :
  ∃ r, calculate_scores db0 [mk_answer "q1" "driver"; mk_answer "q2" "maybe"] = Return r ∧
       Return (balance_index r)
       ≠ spec_balance_index [mk_answer "q1" "driver"; mk_answer "q2" "maybe"].
Proof. eexists. split; [vm_compute; reflexivity|]. vm_compute. discriminate. Qed.

(** ** Primary and secondary archetype *)

(** C2.  The primary and the secondary archetype are two different
    archetypes; the primary ranks before every other archetype and the
    secondary before every archetype but the primary, where ranking is by
    count and, for equal counts, by the fixed order driver, spark, anchor,
    analyst; for the answers driver, driver, spark, spark the counts are
    2, 2, 0, 0, the primary archetype is driver and the secondary spark. *)
Theorem ties_broken_by_fixed_order :
  (∀ db l, ∃ r, calculate_scores db l = Return r ∧
     primary_archetype r ∈ archetypes ∧ secondary_archetype r ∈ archetypes ∧
     primary_archetype r ≠ secondary_archetype r ∧
     (∀ b, b ∈ archetypes → b ≠ primary_archetype r →
           outranks l (primary_archetype r) b) ∧
     (∀ b, b ∈ archetypes → b ≠ primary_archetype r → b ≠ secondary_archetype r →
           outranks l (secondary_archetype r) b)) ∧
  (∀ db q1 q2 q3 q4, ∃ r,
     calculate_scores db [mk_answer q1 "driver"; mk_answer q2 "driver";
                          mk_answer q3 "spark"; mk_answer q4 "spark"] = Return r ∧
     scores r = [("driver", 2); ("spark", 2); ("anchor", 0); ("analyst", 0)] ∧
     primary_archetype r = "driver" ∧ secondary_archetype r = "spark").
Proof.
  split.
  - intros db l.
    destruct (calculate_scores_ranked db l) as (p & s & rest & bal & Hsort & _ & ->).
    destruct (ranking_counted l p s rest Hsort) as (Hp & Hs & Hne & Hfst & Hsnd).
    eexists. split; [done|]. simpl. done.
  - intros db q1 q2 q3 q4.
    destruct (calculate_scores_ranked db
                [mk_answer q1 "driver"; mk_answer q2 "driver";
                 mk_answer q3 "spark"; mk_answer q4 "spark"])
      as (p & s & rest & bal & Hsort & _ & ->).
    vm_compute in Hsort. injection Hsort as <- <- <-.
    eexists. split; [done|]. simpl. done.
Qed.

Lemma ties_broken_by_fixed_order_witness :
  ∃ r, calculate_scores db0 [mk_answer "q1" "anchor"; mk_answer "q2" "Spark";
                             mk_answer "q3" "analyst"] = Return r ∧
       primary_archetype r = "spark" ∧ secondary_archetype r = "anchor" ∧
       outranks [mk_answer "q1" "anchor"; mk_answer "q2" "Spark";
                 mk_answer "q3" "analyst"] (primary_archetype r) "anchor" ∧
       outranks [mk_answer "q1" "anchor"; mk_answer "q2" "Spark";
                 mk_answer "q3" "analyst"] (secondary_archetype r) "analyst".
Proof.
  destruct (proj1 ties_broken_by_fixed_order db0
              [mk_answer "q1" "anchor"; mk_answer "q2" "Spark";
               mk_answer "q3" "analyst"])
    as (r & Hr & _ & _ & _ & Hfst & Hsnd).
  vm_compute in Hr. injection Hr as <-.
  eexists. split; [vm_compute; reflexivity|].
  split; [reflexivity|]. split; [reflexivity|]. split.
  - apply Hfst; [elem_of_list|discriminate].
  - apply Hsnd; [elem_of_list|discriminate..].
Defined.

(** C10.  The primary and the secondary archetype of a result are two
    different archetypes. *)
Theorem primary_secondary_distinct db l :
  ∃ r, calculate_scores db l = Return r ∧
       primary_archetype r ≠ secondary_archetype r ∧
       primary_archetype r ∈ archetypes ∧ secondary_archetype r ∈ archetypes.
Proof.
  destruct (calculate_scores_ranked db l) as (p & s & rest & bal & Hsort & _ & ->).
  destruct (ranking_counted l p s rest Hsort) as (Hp & Hs & Hne & _).
  eexists. split; [done|]. simpl. done.
Qed.

(** ** Stress flag *)

(** C3.  The stress flag is set exactly when at least three answers select
    driver (after lowercasing) on a question that exists and is flagged as
    a stress marker; with two or fewer it is not set. *)
Theorem stress_flag_threshold db l :
  ∃ r, calculate_scores db l = Return r ∧
       (stress_flag r = true ↔ (3 ≤ length (filter (stress_answer db) l))%nat) ∧
       (stress_flag r = false ↔ (length (filter (stress_answer db) l) ≤ 2)%nat).
Proof.
  destruct (calculate_scores_ranked db l) as (p & s & rest & bal & _ & _ & ->).
  eexists. split; [done|]. simpl. unfold stress_count.
  destruct (Z.leb_spec 3 (Z.of_nat (length (filter (stress_answer db) l))));
    split; split; intros; try done; lia.
Qed.

(** The flag flips between two and three driver answers to a stress
    marker; driver answers to other questions and other answers to a
    stress marker do not count. *)
Example stress_flag_two :
  flag_of (calculate_scores db1 [mk_answer "q_family_1" "driver";
                                 mk_answer "q_family_1" "Driver";
                                 mk_answer "q_family_2" "driver";
                                 mk_answer "q_family_3" "driver";
                                 mk_answer "q_family_9" "driver";
                                 mk_answer "q_family_1" "spark"]) = Some false.
Proof. reflexivity. Qed.

Example stress_flag_three :
  flag_of (calculate_scores db1 [mk_answer "q_family_1" "driver";
                                 mk_answer "q_family_1" "Driver";
                                 mk_answer "q_family_1" "DRIVER"]) = Some true.
Proof. reflexivity. Qed.

(** ** Degenerate and unrecognized input *)

(** C7.  Scoring no answers returns the all-zero counts, balance index 0,
    no stress flag, and driver and spark as primary and secondary. *)
Theorem empty_answers_result db :
  calculate_scores db []
  = Return {| primary_archetype := "driver";
              secondary_archetype := "spark";
              scores := [("driver", 0); ("spark", 0); ("anchor", 0); ("analyst", 0)];
              balance_index := float_zero;
              stress_flag := false;
              is_paid := false |}.
Proof. reflexivity. Qed.

Lemma hit_unrecognized a x :
  a ∈ archetypes → lower (selected_option x) ∉ archetypes → hit a x = 0.
Proof. intros Ha Hx. unfold hit. case_decide; [|done]. by subst. Qed.

Lemma stress_hit_unrecognized db x :
  lower (selected_option x) ∉ archetypes → stress_hit db x = 0.
Proof.
  intros Hx. unfold stress_hit. case_decide as Hs; [|done].
  destruct Hs as [_ Hd]. exfalso. apply Hx. rewrite Hd.
  apply list_elem_of_In. simpl. tauto.
Qed.

Lemma archetypes_elems :
  "driver" ∈ archetypes ∧ "spark" ∈ archetypes ∧
  "anchor" ∈ archetypes ∧ "analyst" ∈ archetypes.
Proof. repeat split; apply list_elem_of_In; simpl; tauto. Qed.

(** C8.  An answer whose lowercased option is not an archetype leaves the
    state of the scoring loop unchanged, counts and stress counter alike,
    and scoring a sequence that contains it returns the counts and the
    stress flag of the sequence without it. *)
Theorem unrecognized_answer_ignored db l1 x l2 :
  lower (selected_option x) ∉ archetypes →
  score_answer db (score_loop db l1) x = score_loop db l1 ∧
  score_loop db (l1 ++ x :: l2) = score_loop db (l1 ++ l2) ∧
  ∃ r r', calculate_scores db (l1 ++ x :: l2) = Return r ∧
          calculate_scores db (l1 ++ l2) = Return r' ∧
          scores r = scores r' ∧ stress_flag r = stress_flag r'.
Proof.
  intros Hx.
  destruct archetypes_elems as (Hd & Hs & Ha & Hn).
  assert (Hstep : ∀ l, score_answer db (score_loop db l) x = score_loop db l).
  { intros l. rewrite score_loop_counts. unfold counted_scores.
    change [("driver", ?a); ("spark", ?b); ("anchor", ?c); ("analyst", ?d)]
      with (tally a b c d).
    rewrite score_answer_tally, !hit_unrecognized, stress_hit_unrecognized by done.
    by rewrite !Z.add_0_r. }
  assert (Hloop : score_loop db (l1 ++ x :: l2) = score_loop db (l1 ++ l2)).
  { unfold score_loop. rewrite !fold_left_app. cbn [fold_left].
    fold (score_loop db l1). by rewrite Hstep. }
  split; [done|]. split; [done|].
  destruct (calculate_scores_ranked db (l1 ++ x :: l2))
    as (p & s & rest & bal & _ & _ & ->).
  destruct (calculate_scores_ranked db (l1 ++ l2))
    as (p' & s' & rest' & bal' & _ & _ & ->).
  eexists _, _. split; [done|]. split; [done|]. simpl.
  rewrite !score_loop_counts in Hloop.
  pose proof (f_equal fst Hloop) as Hc. pose proof (f_equal snd Hloop) as Hst.
  cbn [fst snd] in Hc, Hst. by rewrite Hc, Hst.
Qed.

Lemma unrecognized_answer_ignored_witness :
  score_answer db0 (score_loop db0 [mk_answer "q1" "spark"]) (mk_answer "q2" "maybe")
  = score_loop db0 [mk_answer "q1" "spark"] ∧
  score_loop db0 ([mk_answer "q1" "spark"] ++ mk_answer "q2" "maybe" :: [mk_answer "q3" "Driver"])
  = score_loop db0 ([mk_answer "q1" "spark"] ++ [mk_answer "q3" "Driver"]) ∧
  ∃ r r',
    calculate_scores db0
      ([mk_answer "q1" "spark"] ++ mk_answer "q2" "maybe" :: [mk_answer "q3" "Driver"])
    = Return r ∧
    calculate_scores db0 ([mk_answer "q1" "spark"] ++ [mk_answer "q3" "Driver"])
    = Return r' ∧
    scores r = scores r' ∧ stress_flag r = stress_flag r'.
Proof.
  apply (unrecognized_answer_ignored db0 [mk_answer "q1" "spark"]
           (mk_answer "q2" "maybe") [mk_answer "q3" "Driver"]).
  vm_compute. intros H. apply list_elem_of_In in H. simpl in H.
  repeat (destruct H as [H|H]; [discriminate H|]). exact H.
Defined.

(** An option that lowers to an archetype name is recognized, whatever its
    spelling: with the Kelvin sign for the last letter of spark the answer
    counts for spark. *)
Example kelvin_sign_counts_for_spark :
  ∃ r, calculate_scores db0 [mk_answer "q1" "SPARK"; mk_answer "q2" "anchor";
                             mk_answer "q3" "driver"] = Return r ∧
       scores r = [("driver", 1); ("spark", 1); ("anchor", 1); ("analyst", 0)] ∧
       primary_archetype r = "driver" ∧ secondary_archetype r = "spark".
Proof. eexists. split; [vm_compute; reflexivity|]. done. Qed.

(** ** Keys of the compatibility matrix *)

Lemma splits_complete x y : (x, y) ∈ splits (pair_key x y).
Proof.
  unfold pair_key. induction x as [|c x IH]; simpl.
  - apply elem_of_cons. by left.
  - apply elem_of_app. right.
    apply (list_elem_of_fmap_2 (λ xy : string * string, (String c xy.1, xy.2)) _ (x, y)), IH.
Qed.

Lemma existsb_archetypes a :
  existsb (String.eqb a) archetypes = true ↔ a ∈ archetypes.
Proof.
  rewrite existsb_exists. split.
  - intros (k & Hk & He). apply String.eqb_eq in He as ->. by apply list_elem_of_In.
  - intros Ha. exists a. split; [by apply list_elem_of_In|apply String.eqb_refl].
Qed.

(** Every key of the table is [x_y] for two archetypes and in no other way. *)
Lemma matrix_keys_split :
  Forall (λ kv : string * CompatRecord,
            Forall (λ xy : string * string, xy.1 ∈ archetypes ∧ xy.2 ∈ archetypes)
                   (splits kv.1))
         matrix_items.
Proof.
  apply Forall_forall. intros kv Hkv. apply Forall_forall. intros xy Hxy.
  assert (Hb : forallb (λ kv : string * CompatRecord,
                 forallb (λ xy : string * string,
                            existsb (String.eqb xy.1) archetypes
                            && existsb (String.eqb xy.2) archetypes)
                         (splits kv.1)) matrix_items = true)
    by (vm_compute; reflexivity).
  rewrite forallb_forall in Hb. apply list_elem_of_In, Hb in Hkv.
  rewrite forallb_forall in Hkv. apply list_elem_of_In, Hkv in Hxy.
  apply andb_true_iff in Hxy as [H1 H2]. by rewrite <- !existsb_archetypes.
Qed.

Lemma matrix_contains_archetypes x y :
  matrix_contains (pair_key x y) = true → x ∈ archetypes ∧ y ∈ archetypes.
Proof.
  unfold matrix_contains, COMPATIBILITY_MATRIX.
  destruct (list_to_map matrix_items !! pair_key x y) as [data|] eqn:Hk; [|done].
  intros _. apply elem_of_list_to_map_2 in Hk.
  pose proof matrix_keys_split as Hall. rewrite Forall_forall in Hall.
  specialize (Hall _ Hk). rewrite Forall_forall in Hall.
  apply (Hall (x, y)), splits_complete.
Qed.

Lemma matrix_contains_invalid x y :
  x ∉ archetypes ∨ y ∉ archetypes → matrix_contains (pair_key x y) = false.
Proof.
  intros Hxy. destruct (matrix_contains (pair_key x y)) eqn:Hk; [|done].
  apply matrix_contains_archetypes in Hk. tauto.
Qed.

Ltac archetype_cases H :=
  unfold archetypes in H; rewrite !elem_of_cons, elem_of_nil in H;
  destruct H as [->|[->|[->|[->|[]]]]].

Ltac language_cases H :=
  unfold supported_languages in H; rewrite !elem_of_cons, elem_of_nil in H;
  destruct H as [->|[->|[]]].

(** ** Pair lookup *)

(** C4.  For two archetypes and a supported language the pair lookup
    returns the same score and the same energy label in either argument
    order; for spark and anchor in English both orders give score 90 and
    energy harmonious. *)
Theorem pair_lookup_symmetric :
  (∀ a b lang,
     a ∈ archetypes → b ∈ archetypes → lang ∈ supported_languages →
     ∃ v w, get_compatibility_pair a b lang = Return v ∧
            get_compatibility_pair b a lang = Return w ∧
            pair_compatibility_score v = pair_compatibility_score w ∧
            pair_energy v = pair_energy w) ∧
  (∃ v w, get_compatibility_pair "spark" "anchor" "en" = Return v ∧
          get_compatibility_pair "anchor" "spark" "en" = Return w ∧
          pair_compatibility_score v = 90 ∧ pair_energy v = "harmonious" ∧
          pair_compatibility_score w = 90 ∧ pair_energy w = "harmonious").
Proof.
  split.
  - intros a b lang Ha Hb Hl.
    archetype_cases Ha; archetype_cases Hb; language_cases Hl;
      (eexists _, _; split; [vm_compute; reflexivity|];
       split; [vm_compute; reflexivity|]; split; reflexivity).
  - eexists _, _. split; [vm_compute; reflexivity|].
    split; [vm_compute; reflexivity|]. repeat split; reflexivity.
Qed.

Lemma pair_lookup_symmetric_witness :
  ∃ v w, get_compatibility_pair "driver" "analyst" "id" = Return v ∧
         get_compatibility_pair "analyst" "driver" "id" = Return w ∧
         pair_compatibility_score v = pair_compatibility_score w ∧
         pair_energy v = pair_energy w.
Proof.
  apply (proj1 pair_lookup_symmetric "driver" "analyst" "id"); elem_of_list.
Defined.

(** C5.  For two archetypes and a supported language the pair lookup finds
    a key, in the caller's order or reversed, reads the record stored
    under it and returns its score and energy; it does not raise the
    not-found error. *)
Theorem pair_lookup_resolves a b lang :
  a ∈ archetypes → b ∈ archetypes → lang ∈ supported_languages →
  ∃ key data v,
    resolve_key a b = Return key ∧
    (key = pair_key a b ∨ key = pair_key b a) ∧
    COMPATIBILITY_MATRIX !! key = Some data ∧
    get_compatibility_pair a b lang = Return v ∧
    pair_compatibility_score v = compatibility_score data ∧
    pair_energy v = energy data ∧
    get_compatibility_pair a b lang ≠ Raise NotFoundError.
Proof.
  intros Ha Hb Hl.
  archetype_cases Ha; archetype_cases Hb; language_cases Hl;
    (eexists _, _, _; split; [vm_compute; reflexivity|];
     split; [left; reflexivity|];
     split; [vm_compute; reflexivity|];
     split; [vm_compute; reflexivity|];
     split; [reflexivity|]; split; [reflexivity|];
     vm_compute; discriminate).
Qed.

Lemma pair_lookup_resolves_witness :
  ∃ key data v,
    resolve_key "anchor" "analyst" = Return key ∧
    (key = pair_key "anchor" "analyst" ∨ key = pair_key "analyst" "anchor") ∧
    COMPATIBILITY_MATRIX !! key = Some data ∧
    get_compatibility_pair "anchor" "analyst" "en" = Return v ∧
    pair_compatibility_score v = compatibility_score data ∧
    pair_energy v = energy data ∧
    get_compatibility_pair "anchor" "analyst" "en" ≠ Raise NotFoundError.
Proof.
  apply (pair_lookup_resolves "anchor" "analyst" "en"); elem_of_list.
Defined.

(** ** Invalid archetype names *)

(** C6, as amended.  For a name whose lowercased form is not an archetype,
    the per-archetype ranking raises the invalid-argument error (400), and
    the pair lookup, with the name in either position, raises the
    not-found error (404); both for every language and before anything is
    read from the table. *)
Theorem invalid_archetype_errors a :
  lower a ∉ archetypes →
  (∀ lang, get_compatibility_for_archetype a lang = Raise InvalidArgumentError) ∧
  (∀ b lang, get_compatibility_pair a b lang = Raise NotFoundError ∧
             get_compatibility_pair b a lang = Raise NotFoundError).
Proof.
  intros Ha. split.
  - intros lang. unfold get_compatibility_for_archetype.
    destruct (existsb _ archetypes) eqn:He; [|done].
    by apply existsb_archetypes in He.
  - intros b lang. unfold get_compatibility_pair, resolve_key.
    rewrite !matrix_contains_invalid by tauto. done.
Qed.

Lemma invalid_archetype_errors_witness :
  (∀ lang, get_compatibility_for_archetype "leader" lang = Raise InvalidArgumentError) ∧
  (∀ b lang, get_compatibility_pair "leader" b lang = Raise NotFoundError ∧
             get_compatibility_pair b "leader" lang = Raise NotFoundError).
Proof.
  apply (invalid_archetype_errors "leader").
  vm_compute. intros H. apply list_elem_of_In in H. simpl in H.
  repeat (destruct H as [H|H]; [discriminate H|]). exact H.
Defined.

(** C6 as stated fails: the pair lookup of an unknown name raises the
    not-found error, 404, and no error of status 400. *)
Lemma pair_lookup_invalid_is_not_found :
  get_compatibility_pair "leader" "driver" "en" = Raise NotFoundError ∧
  ¬ ∃ detail, get_compatibility_pair "leader" "driver" "en"
              = Raise (HTTPException 400 detail).
Proof.
  split; [vm_compute; reflexivity|].
  intros [detail H]. vm_compute in H. discriminate H.
Qed.

(** A name that lowers to an archetype is valid for both handlers. *)
Example kelvin_sign_is_valid :
  (∃ v, get_compatibility_pair "SPARK" "driver" "en" = Return v) ∧
  (∃ v, get_compatibility_for_archetype "SPARK" "en" = Return v).
Proof. split; eexists; vm_compute; reflexivity. Qed.

(** ** Ranking for one archetype *)

Lemma lower_archetype a : a ∈ archetypes → lower a = a.
Proof. intros Ha. archetype_cases Ha; reflexivity. Qed.

(** One iteration of the loop appends the entry of the pair lookup. *)
Lemma append_entry_valid a x lang :
  a ∈ archetypes → x ∈ archetypes → lang ∈ supported_languages →
  ∃ w, get_compatibility_pair a x lang = Return w ∧
       ∀ acc, append_entry a lang acc x = Return (acc ++ [entry_of x w])%list.
Proof.
  intros Ha Hx Hl.
  archetype_cases Ha; archetype_cases Hx; language_cases Hl;
    (eexists; split; [vm_compute; reflexivity|]; intros acc; reflexivity).
Qed.

(** C9.  For an archetype and a supported language the ranking holds one
    entry for each of the four archetypes, the archetype itself included;
    each entry repeats the score, energy, title and summary of the pair
    lookup with that archetype; and the entries are in descending score
    order, entries of equal score in the fixed order driver, spark, anchor,
    analyst. *)
Theorem ranking_for_archetype a lang :
  a ∈ archetypes → lang ∈ supported_languages →
  ∃ v, get_compatibility_for_archetype a lang = Return v ∧
       view_archetype v = a ∧
       List.map with_archetype (compatibilities v) ≡ₚ archetypes ∧
       Forall (λ e, ∃ w, get_compatibility_pair a (with_archetype e) lang = Return w ∧
                         e = entry_of (with_archetype e) w)
              (compatibilities v) ∧
       StronglySorted listed_before (compatibilities v).
Proof.
  intros Ha Hl.
  destruct archetypes_elems as (Hd & Hs & Hc & Hn).
  destruct (append_entry_valid a "driver" lang Ha Hd Hl) as (w1 & Hw1 & He1).
  destruct (append_entry_valid a "spark" lang Ha Hs Hl) as (w2 & Hw2 & He2).
  destruct (append_entry_valid a "anchor" lang Ha Hc Hl) as (w3 & Hw3 & He3).
  destruct (append_entry_valid a "analyst" lang Ha Hn Hl) as (w4 & Hw4 & He4).
  set (es := [entry_of "driver" w1; entry_of "spark" w2;
              entry_of "anchor" w3; entry_of "analyst" w4]).
  exists {| view_archetype := a;
            compatibilities := sorted_reverse entry_compatibility_score es |}.
  split; [|split; [done|split; [|split]]].
  - unfold get_compatibility_for_archetype.
    rewrite (lower_archetype a Ha).
    apply existsb_archetypes in Ha as ->.
    unfold archetypes. cbn [negb entries_loop].
    rewrite He1. cbn [mbind py_bind]. rewrite He2. cbn [mbind py_bind].
    rewrite He3. cbn [mbind py_bind]. rewrite He4. done.
  - cbn [compatibilities]. by rewrite sorted_reverse_Permutation.
  - cbn [compatibilities]. rewrite sorted_reverse_Permutation.
    unfold es. repeat (apply Forall_cons_2 || apply Forall_nil_2);
      cbn [with_archetype entry_of]; eauto.
  - cbn [compatibilities].
    apply (sorted_reverse_tie_break entry_compatibility_score
             (λ e, order_index (with_archetype e))).
    unfold es. repeat (apply SSorted_cons || apply SSorted_nil
                       || apply Forall_cons_2 || apply Forall_nil_2);
      vm_compute; lia.
Qed.

Lemma ranking_for_archetype_witness :
  ∃ v, get_compatibility_for_archetype "analyst" "en" = Return v ∧
       view_archetype v = "analyst" ∧
       List.map with_archetype (compatibilities v) ≡ₚ archetypes ∧
       Forall (λ e, ∃ w, get_compatibility_pair "analyst" (with_archetype e) "en"
                         = Return w ∧
                         e = entry_of (with_archetype e) w)
              (compatibilities v) ∧
       StronglySorted listed_before (compatibilities v).
Proof.
  apply (ranking_for_archetype "analyst" "en"); elem_of_list.
Defined.

(** * The handlers around scoring and the matrix *)

(** ** The matrix summary *)

(** X1.  The matrix summary has a row for each archetype and in each row a
    cell for each archetype, in the fixed order, and the cell of [a] and
    [b] carries the score and the energy that the pair lookup of [a] and
    [b] returns. *)
Theorem matrix_agrees_with_pair_lookup a b lang :
  a ∈ archetypes → b ∈ archetypes → lang ∈ supported_languages →
  ∃ v row cell w,
    get_compatibility_matrix = Return v ∧
    List.map row_archetype (matrix v) = archetypes ∧
    Forall (λ row, List.map fst (row_compatibilities row) = archetypes) (matrix v) ∧
    row ∈ matrix v ∧ row_archetype row = a ∧
    dict_get (row_compatibilities row) b = Some cell ∧
    get_compatibility_pair a b lang = Return w ∧
    cell_score cell = pair_compatibility_score w ∧
    cell_energy cell = pair_energy w.
Proof.
  intros Ha Hb Hl.
  assert (Hm : ∃ v, get_compatibility_matrix = Return v ∧
                    List.map row_archetype (matrix v) = archetypes ∧
                    forallb (λ row, bool_decide
                               (List.map fst (row_compatibilities row) = archetypes))
                            (matrix v) = true).
  { eexists. split; [vm_compute; reflexivity|]. split; reflexivity. }
  destruct Hm as (v & Hv & Hrows & Hcells).
  assert (Hcells' : Forall (λ row, List.map fst (row_compatibilities row) = archetypes)
                           (matrix v)).
  { apply Forall_forall. intros row Hrow. rewrite forallb_forall in Hcells.
    apply list_elem_of_In, Hcells in Hrow. by apply bool_decide_eq_true in Hrow. }
  assert (Hv' := Hv). vm_compute in Hv'. injection Hv' as <-.
  lazymatch type of Hv with
  | _ = Return ?V =>
      exists V, (nth (order_index a) (matrix V)
                     {| row_archetype := ""; row_compatibilities := [] |})
  end.
  archetype_cases Ha; archetype_cases Hb; language_cases Hl;
    (eexists _, _;
     split; [exact Hv|]; split; [exact Hrows|]; split; [exact Hcells'|];
     split; [apply list_elem_of_In; vm_compute; tauto|];
     split; [reflexivity|]; split; [reflexivity|];
     split; [vm_compute; reflexivity|]; split; reflexivity).
Qed.

(** ** Cards and archetype data *)

Lemma Raise_eq_iff {A : Type} (e1 e2 : exn) : @Raise A e1 = Raise e2 ↔ e1 = e2.
Proof. split; [by intros [= ->]|by intros ->]. Qed.

(** X2.  The compatibility card fails exactly when the pair lookup fails,
    and with the same exception: 404 for an unknown pair, a [KeyError] on
    the title for a language other than [id] and [en]. *)
Theorem card_fails_as_pair_lookup arch1 arch2 language e :
  generate_compatibility_share_card arch1 arch2 language = Raise e
  ↔ get_compatibility_pair arch1 arch2 language = Raise e.
Proof.
  unfold generate_compatibility_share_card, get_compatibility_pair.
  destruct (resolve_key (lower arch1) (lower arch2)) as [key|e1];
    cbn [mbind py_bind]; [|by rewrite !Raise_eq_iff].
  destruct (matrix_get key) as [data|e2]; cbn [mbind py_bind];
    [|by rewrite !Raise_eq_iff].
  unfold get_title, get_summary, get_strengths, get_challenges, get_tips, localized.
  destruct (String.eqb language "id"); cbn [mbind py_bind]; [split; discriminate|].
  destruct (String.eqb language "en"); cbn [mbind py_bind];
    [split; discriminate|by rewrite !Raise_eq_iff].
Qed.

(** X3.  For two archetypes and a supported language the compatibility
    card is the template filled with the colours and the localized names
    that [ARCHETYPES] holds for them and with the score and the title of
    the pair lookup. *)
Theorem card_uses_archetype_data a b lang :
  a ∈ archetypes → b ∈ archetypes → lang ∈ supported_languages →
  ∃ da db w,
    ARCHETYPES !! a = Some da ∧ ARCHETYPES !! b = Some db ∧
    get_compatibility_pair a b lang = Return w ∧
    generate_compatibility_share_card a b lang
    = Return {| content :=
                  compatibility_card_svg (arch_color da) (arch_color db)
                    (if String.eqb lang "id" then "Kompatibilitas Komunikasi"
                     else "Communication Compatibility")
                    (localized_name da lang) (localized_name db lang)
                    (score_color_of (pair_compatibility_score w))
                    (pair_compatibility_score w) (pair_title w)
                    (if String.eqb lang "id"
                     then "Cek kompatibilitasmu di relasi4warna.com"
                     else "Check your compatibility at 4colorrelating.com");
                media_type := "image/svg+xml" |}.
Proof.
  intros Ha Hb Hl.
  archetype_cases Ha; archetype_cases Hb; language_cases Hl;
    (eexists _, _, _; split; [vm_compute; reflexivity|];
     split; [vm_compute; reflexivity|];
     split; [vm_compute; reflexivity|]; vm_compute; reflexivity).
Qed.

Lemma matrix_agrees_with_pair_lookup_witness :
  ∃ v row cell w,
    get_compatibility_matrix = Return v ∧
    List.map row_archetype (matrix v) = archetypes ∧
    Forall (λ row, List.map fst (row_compatibilities row) = archetypes) (matrix v) ∧
    row ∈ matrix v ∧ row_archetype row = "spark" ∧
    dict_get (row_compatibilities row) "analyst" = Some cell ∧
    get_compatibility_pair "spark" "analyst" "en" = Return w ∧
    cell_score cell = pair_compatibility_score w ∧
    cell_energy cell = pair_energy w.
Proof.
  apply (matrix_agrees_with_pair_lookup "spark" "analyst" "en"); elem_of_list.
Defined.

Lemma card_uses_archetype_data_witness :
  ∃ da db w,
    ARCHETYPES !! "anchor" = Some da ∧ ARCHETYPES !! "driver" = Some db ∧
    get_compatibility_pair "anchor" "driver" "id" = Return w ∧
    generate_compatibility_share_card "anchor" "driver" "id"
    = Return {| content :=
                  compatibility_card_svg (arch_color da) (arch_color db)
                    (if String.eqb "id" "id" then "Kompatibilitas Komunikasi"
                     else "Communication Compatibility")
                    (localized_name da "id") (localized_name db "id")
                    (score_color_of (pair_compatibility_score w))
                    (pair_compatibility_score w) (pair_title w)
                    (if String.eqb "id" "id"
                     then "Cek kompatibilitasmu di relasi4warna.com"
                     else "Check your compatibility at 4colorrelating.com");
                media_type := "image/svg+xml" |}.
Proof.
  apply (card_uses_archetype_data "anchor" "driver" "id"); elem_of_list.
Defined.

Lemma get_archetype_returns a lang :
  a ∈ archetypes → ∃ d, get_archetype a lang = Return d.
Proof.
  unfold archetypes. rewrite !elem_of_cons, elem_of_nil.
  intros [->|[->|[->|[->|[]]]]]; eexists; vm_compute; reflexivity.
Qed.

(** X4.  [get_archetype] returns an entry exactly for the names that
    lowercase to one of the four archetypes, and raises 404 for every
    other name; the entry does not depend on the language. *)
Theorem get_archetype_domain a lang :
  (lower a ∈ archetypes ↔ ∃ d, get_archetype a lang = Return d) ∧
  (lower a ∉ archetypes ↔
     get_archetype a lang = Raise (HTTPException 404 "Archetype not found")) ∧
  get_archetype a lang = get_archetype a "id".
Proof.
  unfold get_archetype.
  destruct (ARCHETYPES !! lower a) as [d|] eqn:Hd.
  - assert (Ha : lower a ∈ archetypes).
    { apply elem_of_list_to_map_2 in Hd. unfold ARCHETYPES_items in Hd.
      rewrite !elem_of_cons, elem_of_nil in Hd.
      destruct Hd as [[= -> _]|[[= -> _]|[[= -> _]|[[= -> _]|[]]]]]; elem_of_list. }
    split; [split; eauto|]. split; [|done]. split; [done|discriminate].
  - assert (Ha : lower a ∉ archetypes).
    { intros Ha. unfold archetypes in Ha. rewrite !elem_of_cons, elem_of_nil in Ha.
      destruct Ha as [E|[E|[E|[E|[]]]]]; rewrite E in Hd; vm_compute in Hd; discriminate. }
    split; [split; [done|intros [d [=]]]|]. split; done.
Qed.

(** X5.  The primary and the secondary archetype of every scored result
    have an entry in [ARCHETYPES]: [get_archetype] returns for both. *)
Theorem scored_archetypes_have_data db l lang :
  ∃ r p s, calculate_scores db l = Return r ∧
           get_archetype (primary_archetype r) lang = Return p ∧
           get_archetype (secondary_archetype r) lang = Return s.
Proof.
  destruct (calculate_scores_ranked db l) as (p & s & rest & bal & Hsort & _ & Hr).
  destruct (ranking_counted l p s rest Hsort) as (Hp & Hs & _).
  destruct (get_archetype_returns _ lang Hp) as [dp Hdp].
  destruct (get_archetype_returns _ lang Hs) as [ds Hds].
  eexists _, dp, ds. split; [exact Hr|]. by split.
Qed.

(** X6.  For a stored result whose archetypes are among the four and a
    supported language, the result card is the template filled with the
    colour and the localized names that [ARCHETYPES] holds; the card is
    served without any check of who asks. *)
Theorem share_card_uses_archetype_data st result_id lang doc :
  find_result st result_id = Some doc →
  primary_archetype (r_result doc) ∈ archetypes →
  secondary_archetype (r_result doc) ∈ archetypes →
  lang ∈ supported_languages →
  ∃ dp ds,
    ARCHETYPES !! primary_archetype (r_result doc) = Some dp ∧
    ARCHETYPES !! secondary_archetype (r_result doc) = Some ds ∧
    generate_share_card st result_id lang
    = Return {| content :=
                  share_card_svg (arch_color dp)
                    (if String.eqb lang "id" then "Tipe Komunikasi Saya"
                     else "My Communication Type")
                    (localized_name dp lang)
                    (if String.eqb lang "id" then "dengan kecenderungan"
                     else "with tendency")
                    (localized_name ds lang)
                    (if String.eqb lang "id" then "Temukan tipe Anda di relasi4warna.com"
                     else "Find your type at 4colorrelating.com");
                media_type := "image/svg+xml" |}.
Proof.
  intros Hfind Hp Hs Hl. unfold generate_share_card. rewrite Hfind.
  generalize dependent (primary_archetype (r_result doc)). intros p Hp.
  generalize dependent (secondary_archetype (r_result doc)). intros s Hs.
  archetype_cases Hp; archetype_cases Hs; language_cases Hl;
    (eexists _, _; split; [vm_compute; reflexivity|];
     split; [vm_compute; reflexivity|]; vm_compute; reflexivity).
Qed.

Lemma name_of_fallback p lang : lang ≠ "id" → name_of p lang = name_of p "en".
Proof.
  intros Hl. unfold name_of.
  destruct (dict_get archetype_names p) as [inner|] eqn:Hp; [|done].
  unfold dict_get, archetype_names in Hp. cbn [List.find fst] in Hp.
  destruct (String.eqb_spec lang "en") as [->|Hen]; [done|].
  assert (Hid : String.eqb "id" lang = false) by (apply String.eqb_neq; congruence).
  assert (Hen' : String.eqb "en" lang = false) by (apply String.eqb_neq; congruence).
  repeat match type of Hp with
         | context [String.eqb ?k p] =>
             destruct (String.eqb_spec k p) as [<-|?];
             [vm_compute in Hp; injection Hp as <-;
              cbv [default from_option id dict_get]; cbn [List.find fst];
              rewrite Hid, Hen'; reflexivity|]
         end.
  discriminate.
Qed.

(** X7.  The result card has no unsupported language: for every language
    other than [id] it is the English card, the capitalized archetype key
    standing in for the missing name. *)
Theorem share_card_falls_back_to_english st result_id lang :
  lang ≠ "id" →
  generate_share_card st result_id lang = generate_share_card st result_id "en".
Proof.
  intros Hl. unfold generate_share_card.
  destruct (find_result st result_id) as [doc|]; [|done].
  rewrite !(name_of_fallback _ lang) by done.
  apply String.eqb_neq in Hl. by rewrite Hl.
Qed.

Lemma share_card_uses_archetype_data_witness :
  ∃ dp ds,
    ARCHETYPES !! primary_archetype (r_result sample_result) = Some dp ∧
    ARCHETYPES !! secondary_archetype (r_result sample_result) = Some ds ∧
    generate_share_card sample_store "result_0123456789ab" "id"
    = Return {| content :=
                  share_card_svg (arch_color dp)
                    (if String.eqb "id" "id" then "Tipe Komunikasi Saya"
                     else "My Communication Type")
                    (localized_name dp "id")
                    (if String.eqb "id" "id" then "dengan kecenderungan"
                     else "with tendency")
                    (localized_name ds "id")
                    (if String.eqb "id" "id" then "Temukan tipe Anda di relasi4warna.com"
                     else "Find your type at 4colorrelating.com");
                media_type := "image/svg+xml" |}.
Proof.
  apply (share_card_uses_archetype_data sample_store "result_0123456789ab" "id"
           sample_result); [reflexivity|elem_of_list..].
Defined.

Lemma share_card_falls_back_to_english_witness :
  generate_share_card sample_store "result_0123456789ab" "fr"
  = generate_share_card sample_store "result_0123456789ab" "en".
Proof.
  apply (share_card_falls_back_to_english sample_store "result_0123456789ab" "fr").
  discriminate.
Defined.

(** ** Lists as collections *)

Section collections.
Context {A : Type}.
Implicit Types (p q : A → bool) (f : A → A) (l : list A).

Lemma find_snoc p l x :
  List.find p (l ++ [x])
  = match List.find p l with
    | Some y => Some y
    | None => if p x then Some x else None
    end.
Proof.
  induction l as [|y l IH]; simpl; [done|]. by destruct (p y).
Qed.

Lemma find_none_weaken p q l :
  (∀ x, q x = true → p x = true) → List.find p l = None → List.find q l = None.
Proof.
  intros Hqp. induction l as [|y l IH]; simpl; [done|].
  destruct (p y) eqn:Hp; [done|]. intros Hl.
  destruct (q y) eqn:Hq; [|by apply IH].
  apply Hqp in Hq. congruence.
Qed.

(** Updating by a key and reading back by the same key. *)
Lemma find_update_one_same p f l :
  (∀ x, p (f x) = p x) → List.find p (update_one p f l) = f <$> List.find p l.
Proof.
  intros Hp. induction l as [|y l IH]; simpl; [done|].
  destruct (p y) eqn:Hy; simpl.
  - by rewrite Hp, Hy.
  - by rewrite Hy.
Qed.

(** Updating by a key leaves the documents of every other key alone. *)
Lemma find_update_one_other p q f l :
  (∀ x, q (f x) = q x) → (∀ x, p x = true → q x = false) →
  List.find q (update_one p f l) = List.find q l.
Proof.
  intros Hq Hpq. induction l as [|y l IH]; simpl; [done|].
  destruct (p y) eqn:Hy; simpl.
  - by rewrite Hq, (Hpq y Hy).
  - by rewrite IH.
Qed.


Lemma update_one_map {B : Type} (g : A → B) p f l :
  (∀ x, g (f x) = g x) → List.map g (update_one p f l) = List.map g l.
Proof.
  intros Hg. induction l as [|y l IH]; simpl; [done|].
  destruct (p y); simpl; by rewrite ?Hg, ?IH.
Qed.

Lemma existsb_update_one q p f l :
  (∀ x, q (f x) = q x) → existsb q (update_one p f l) = existsb q l.
Proof.
  intros Hq. induction l as [|y l IH]; simpl; [done|].
  destruct (p y); simpl; by rewrite ?Hq, ?IH.
Qed.

Lemma Forall_update_one (P : A → Prop) p f l :
  (∀ x, P x → p x = true → P (f x)) → Forall P l → Forall P (update_one p f l).
Proof.
  intros Hf. induction 1 as [|y l Hy Hl IH]; simpl; [constructor|].
  destruct (p y) eqn:Hpy; constructor; auto.
Qed.

Lemma length_update_one p f l : length (update_one p f l) = length l.
Proof.
  induction l as [|y l IH]; simpl; [done|]. destruct (p y); simpl; by rewrite ?IH.
Qed.

Lemma find_is_Some_existsb p l : is_Some (List.find p l) ↔ existsb p l = true.
Proof.
  induction l as [|y l IH]; simpl.
  - split; [by intros [? ?]|done].
  - destruct (p y); [by split; eauto|done].
Qed.
End collections.

(** ** Submitting and reading a result *)

Lemma store_db_with_results st l : store_db (with_results st l) = store_db st.
Proof. done. Qed.

(** Marking an attempt completed changes nothing that scoring reads. *)
Lemma store_db_after_submit st data user uuid_hex now now' st' resp :
  submit_quiz_handler st data user uuid_hex now now' = Return (st', resp) →
  store_db st' = store_db st.
Proof.
  unfold submit_quiz_handler.
  destruct (find_attempt_doc _ _ _) as [attempt|]; [|done].
  destruct (calculate_scores _ _) as [r|e]; [|done].
  cbn [mbind py_bind]. intros [= <- _].
  unfold store_db. cbn [st_quiz_attempts st_questions with_quiz_attempts with_results].
  f_equal. by apply update_one_map.
Qed.

Lemma submit_quiz_handler_returns st data user uuid_hex now now' :
  is_Some (find_attempt_doc st (attempt_id data) (u_user_id user)) →
  ∃ st' resp r,
    submit_quiz_handler st data user uuid_hex now now' = Return (st', resp) ∧
    calculate_scores (store_db st) (answers data) = Return r ∧
    resp_result_id resp = "result_" +:+ hex_prefix 12 uuid_hex ∧
    resp_primary_archetype resp = primary_archetype r ∧
    resp_secondary_archetype resp = secondary_archetype r ∧
    resp_scores resp = scores r ∧
    resp_balance_index resp = balance_index r ∧
    resp_stress_flag resp = stress_flag r ∧
    ∃ doc, st_results st' = (st_results st ++ [doc])%list ∧
           r_result_id doc = resp_result_id resp ∧
           r_user_id doc = u_user_id user ∧
           r_result doc = r ∧
           r_attempt_id doc = attempt_id data.
Proof.
  intros [attempt Hattempt]. unfold submit_quiz_handler. rewrite Hattempt.
  destruct (calculate_scores_ranked (store_db st) (answers data))
    as (p & s & rest & bal & _ & _ & Hr).
  rewrite Hr. cbn [mbind py_bind].
  eexists _, _, _. split; [reflexivity|]. split; [reflexivity|].
  repeat (split; [reflexivity|]).
  eexists. split; [reflexivity|]. by repeat split.
Qed.

(** X8.  When the attempt is on file and the generated result id is not yet
    taken, [submit_quiz] stores what it returns: [get_result] with the
    returned id gives the submitting user the scored, unpaid result, and
    gives every other user 404. *)
Theorem submit_then_get_result st data user uuid_hex now now' :
  is_Some (find_attempt_doc st (attempt_id data) (u_user_id user)) →
  find_result st ("result_" +:+ hex_prefix 12 uuid_hex) = None →
  ∃ st' resp doc,
    submit_quiz_handler st data user uuid_hex now now' = Return (st', resp) ∧
    get_result st' (resp_result_id resp) user = Return doc ∧
    calculate_scores (store_db st) (answers data) = Return (r_result doc) ∧
    is_paid (r_result doc) = false ∧
    resp_primary_archetype resp = primary_archetype (r_result doc) ∧
    resp_secondary_archetype resp = secondary_archetype (r_result doc) ∧
    resp_scores resp = scores (r_result doc) ∧
    resp_balance_index resp = balance_index (r_result doc) ∧
    resp_stress_flag resp = stress_flag (r_result doc) ∧
    ∀ other, u_user_id other ≠ u_user_id user →
             get_result st' (resp_result_id resp) other
             = Raise (HTTPException 404 "Result not found").
Proof.
  intros Hattempt Hfresh.
  destruct (submit_quiz_handler_returns st data user uuid_hex now now' Hattempt)
    as (st' & resp & r & Hsub & Hr & Hid & Hp & Hs & Hsc & Hb & Hf
        & doc & Hres & Hdid & Hdu & Hdr & _).
  assert (Hpaid : is_paid r = false).
  { destruct (calculate_scores_ranked (store_db st) (answers data))
      as (? & ? & ? & ? & _ & _ & Hr'). rewrite Hr' in Hr. by injection Hr as <-. }
  assert (Hnone : ∀ u, List.find (λ r0, (String.eqb (r_result_id r0) (resp_result_id resp)
                                         && String.eqb (r_user_id r0) (u_user_id u))%bool)
                                 (st_results st) = None).
  { intros u. rewrite Hid. eapply find_none_weaken; [|exact Hfresh].
    intros x Hx. by apply andb_true_iff in Hx as [Hx _]. }
  exists st', resp, doc. split; [done|]. subst r.
  split; [|repeat (split; [done|])].
  - unfold get_result. rewrite Hres, find_snoc, Hnone.
    by rewrite Hdid, Hdu, !String.eqb_refl.
  - intros other Hother. unfold get_result. rewrite Hres, find_snoc, Hnone.
    rewrite Hdid, Hdu, String.eqb_refl. cbn [andb].
    assert (String.eqb (u_user_id user) (u_user_id other) = false) as ->; [|done].
    apply String.eqb_neq. congruence.
Qed.

Lemma submit_then_get_result_witness :
  ∃ st' resp doc,
    submit_quiz_handler sample_store
      {| attempt_id := "attempt_0123456789ab";
         answers := [mk_answer "q_family_1" "driver"; mk_answer "q_family_2" "analyst"] |}
      alice "00112233445566778899aabbccddeeff" "2026-01-06T08:00:00+00:00" "2026-01-06T08:00:01+00:00"
    = Return (st', resp) ∧
    get_result st' (resp_result_id resp) alice = Return doc ∧
    calculate_scores (store_db sample_store)
      [mk_answer "q_family_1" "driver"; mk_answer "q_family_2" "analyst"]
    = Return (r_result doc) ∧
    is_paid (r_result doc) = false ∧
    resp_primary_archetype resp = primary_archetype (r_result doc) ∧
    resp_secondary_archetype resp = secondary_archetype (r_result doc) ∧
    resp_scores resp = scores (r_result doc) ∧
    resp_balance_index resp = balance_index (r_result doc) ∧
    resp_stress_flag resp = stress_flag (r_result doc) ∧
    ∀ other, u_user_id other ≠ u_user_id alice →
             get_result st' (resp_result_id resp) other
             = Raise (HTTPException 404 "Result not found").
Proof.
  apply (submit_then_get_result sample_store
           {| attempt_id := "attempt_0123456789ab";
              answers := [mk_answer "q_family_1" "driver";
                          mk_answer "q_family_2" "analyst"] |}
           alice "00112233445566778899aabbccddeeff" "2026-01-06T08:00:00+00:00" "2026-01-06T08:00:01+00:00").
  - eexists. reflexivity.
  - reflexivity.
Defined.

Lemma submit_keeps_attempt_on_file st data user uuid_hex now now' st' resp aid uid :
  submit_quiz_handler st data user uuid_hex now now' = Return (st', resp) →
  is_Some (find_attempt_doc st' aid uid) ↔ is_Some (find_attempt_doc st aid uid).
Proof.
  unfold submit_quiz_handler.
  destruct (find_attempt_doc st _ _) as [attempt|]; [|done].
  destruct (calculate_scores _ _) as [r|e]; [|done].
  cbn [mbind py_bind]. intros [= <- _].
  unfold find_attempt_doc. cbn [st_quiz_attempts with_quiz_attempts with_results].
  rewrite !find_is_Some_existsb. by rewrite existsb_update_one.
Qed.

(** X9.  [submit_quiz] does not look at the status of the attempt: after a
    successful submission the same attempt can be submitted again, and
    each submission stores a result of its own with the same scores. *)
Theorem submit_twice_scores_twice st data user h1 t1 t1' h2 t2 t2' st1 resp1 :
  submit_quiz_handler st data user h1 t1 t1' = Return (st1, resp1) →
  ∃ st2 resp2 doc1 doc2,
    submit_quiz_handler st1 data user h2 t2 t2' = Return (st2, resp2) ∧
    st_results st2 = (st_results st ++ [doc1; doc2])%list ∧
    r_attempt_id doc1 = attempt_id data ∧
    r_attempt_id doc2 = attempt_id data ∧
    r_result doc2 = r_result doc1 ∧
    resp_primary_archetype resp2 = resp_primary_archetype resp1 ∧
    resp_secondary_archetype resp2 = resp_secondary_archetype resp1 ∧
    resp_scores resp2 = resp_scores resp1 ∧
    resp_balance_index resp2 = resp_balance_index resp1 ∧
    resp_stress_flag resp2 = resp_stress_flag resp1.
Proof.
  intros Hsub1.
  assert (Hatt : is_Some (find_attempt_doc st (attempt_id data) (u_user_id user))).
  { unfold submit_quiz_handler in Hsub1.
    destruct (find_attempt_doc st _ _); [eauto|done]. }
  destruct (submit_quiz_handler_returns st data user h1 t1 t1' Hatt)
    as (st1' & resp1' & r1 & Hsub1' & Hr1 & _ & Hp1 & Hs1 & Hsc1 & Hb1 & Hf1
        & doc1 & Hres1 & _ & _ & Hdr1 & Hda1).
  rewrite Hsub1 in Hsub1'. injection Hsub1' as <- <-.
  assert (Hatt1 : is_Some (find_attempt_doc st1 (attempt_id data) (u_user_id user))).
  { by apply (submit_keeps_attempt_on_file _ _ _ _ _ _ _ _ _ _ Hsub1). }
  destruct (submit_quiz_handler_returns st1 data user h2 t2 t2' Hatt1)
    as (st2 & resp2 & r2 & Hsub2 & Hr2 & _ & Hp2 & Hs2 & Hsc2 & Hb2 & Hf2
        & doc2 & Hres2 & _ & _ & Hdr2 & Hda2).
  rewrite (store_db_after_submit _ _ _ _ _ _ _ _ Hsub1), Hr1 in Hr2.
  injection Hr2 as <-.
  exists st2, resp2, doc1, doc2. split; [done|].
  split; [by rewrite Hres2, Hres1, <- app_assoc|].
  repeat split; congruence.
Qed.

Lemma submit_twice_scores_twice_witness :
  ∃ st1 resp1 st2 resp2 doc1 doc2,
    submit_quiz_handler sample_store
      {| attempt_id := "attempt_0123456789ab"; answers := [mk_answer "q_family_1" "anchor"] |}
      alice "00112233445566778899aabbccddeeff" "2026-01-06T08:00:00+00:00" "2026-01-06T08:00:01+00:00"
    = Return (st1, resp1) ∧
    submit_quiz_handler st1
      {| attempt_id := "attempt_0123456789ab"; answers := [mk_answer "q_family_1" "anchor"] |}
      alice "ffeeddccbbaa99887766554433221100" "2026-01-06T08:01:00+00:00" "2026-01-06T08:01:01+00:00"
    = Return (st2, resp2) ∧
    st_results st2 = (st_results sample_store ++ [doc1; doc2])%list ∧
    r_result doc2 = r_result doc1 ∧
    resp_scores resp2 = resp_scores resp1.
Proof.
  eexists _, _.
  assert (H1 : submit_quiz_handler sample_store
      {| attempt_id := "attempt_0123456789ab"; answers := [mk_answer "q_family_1" "anchor"] |}
      alice "00112233445566778899aabbccddeeff" "2026-01-06T08:00:00+00:00" "2026-01-06T08:00:01+00:00"
    = Return _) by (vm_compute; reflexivity).
  destruct (submit_twice_scores_twice _ _ _ _ _ _
              "ffeeddccbbaa99887766554433221100" "2026-01-06T08:01:00+00:00" "2026-01-06T08:01:01+00:00" _ _ H1)
    as (st2 & resp2 & doc1 & doc2 & H2 & Hres & _ & _ & Hdr & _ & _ & Hsc & _).
  exists st2, resp2, doc1, doc2. split; [exact H1|]. by repeat split.
Defined.

(** X10.  An attempt opened by [start_quiz] can be submitted by the user
    who opened it, whatever the answers: [submit_quiz] does not raise. *)
Theorem start_then_submit st series language user h1 t1 l h2 t2 t2' :
  ∃ st' aid st'' resp,
    start_quiz st series language user h1 t1 = (st', (aid, series)) ∧
    submit_quiz_handler st' {| attempt_id := aid; answers := l |} user h2 t2 t2'
    = Return (st'', resp).
Proof.
  unfold start_quiz. eexists _, _.
  edestruct (submit_quiz_handler_returns
               (with_quiz_attempts st
                  (st_quiz_attempts st ++
                   [ {| at_attempt_id := "attempt_" +:+ hex_prefix 12 h1;
                        at_user_id := u_user_id user;
                        at_series := series;
                        at_language := language;
                        at_status := "in_progress";
                        at_started_at := t1;
                        at_completed_at := None;
                        at_answers := [] |} ]))
               {| attempt_id := "attempt_" +:+ hex_prefix 12 h1; answers := l |}
               user h2 t2 t2') as (st'' & resp & _ & Hsub & _).
  { unfold find_attempt_doc. cbn [st_quiz_attempts with_quiz_attempts attempt_id].
    rewrite find_snoc. destruct (List.find _ _); [eauto|].
    cbn [at_attempt_id at_user_id]. rewrite !String.eqb_refl. eauto. }
  exists st'', resp. split; [reflexivity|exact Hsub].
Qed.

(** ** Payments *)

Section collections_sub.
Context {A : Type}.
Implicit Types (p q : A → bool) (f : A → A) (l : list A).

(** Reading by a narrower key after an update by a wider one. *)
Lemma find_update_one_sub p q f l :
  (∀ x, q x = true → p x = true) → (∀ x, q (f x) = q x) →
  List.find q (update_one p f l)
  = match List.find p l with
    | Some x => if q x then Some (f x) else List.find q l
    | None => List.find q l
    end.
Proof.
  intros Hqp Hq. induction l as [|y l IH]; simpl; [done|].
  destruct (p y) eqn:Hpy; simpl.
  - rewrite Hq. by destruct (q y).
  - destruct (q y) eqn:Hqy; [|done].
    apply Hqp in Hqy. congruence.
Qed.

Lemma find_Some_true p l x : List.find p l = Some x → p x = true.
Proof. intros H. by apply find_some in H as [_ ?]. Qed.

Lemma find_Some_elem_of p l x : List.find p l = Some x → x ∈ l.
Proof. intros H. apply find_some in H as [? _]. by apply list_elem_of_In. Qed.
End collections_sub.


Lemma with_results_same st : with_results st (st_results st) = st.
Proof. by destruct st. Qed.

Lemma find_result_pay_result st rid rid' :
  find_result (pay_result st rid) rid'
  = if String.eqb rid rid' then set_is_paid <$> find_result st rid'
    else find_result st rid'.
Proof.
  unfold find_result, pay_result. cbn [st_results with_results].
  destruct (String.eqb_spec rid rid') as [->|Hne].
  - by apply find_update_one_same.
  - apply find_update_one_other; [done|].
    intros x Hx. apply String.eqb_eq in Hx. apply String.eqb_neq. congruence.
Qed.

(** X11.  [simulate_payment] by the user who owns the payment marks the
    result that the payment names as paid, whoever owns that result, and
    leaves the results of every other id as they are. *)
Theorem simulate_payment_marks_result st payment_id user now payment :
  List.find (λ p, (String.eqb (pay_payment_id p) payment_id
                   && String.eqb (pay_user_id p) (u_user_id user))%bool)
            (st_payments st) = Some payment →
  ∃ st',
    simulate_payment st payment_id user now
    = Return (st', ("success", "Payment simulated successfully")) ∧
    find_result st' (pay_result_id payment)
    = set_is_paid <$> find_result st (pay_result_id payment) ∧
    ∀ rid, rid ≠ pay_result_id payment → find_result st' rid = find_result st rid.
Proof.
  intros Hfind. unfold simulate_payment. rewrite Hfind.
  eexists. split; [reflexivity|]. split.
  - by rewrite find_result_pay_result, String.eqb_refl.
  - intros rid Hrid. rewrite find_result_pay_result.
    by assert (String.eqb (pay_result_id payment) rid = false) as ->
      by (apply String.eqb_neq; congruence).
Qed.

Lemma simulate_payment_marks_result_witness :
  ∃ st',
    simulate_payment sample_store "pay_00000000beef" bob "2026-01-05T10:06:00+00:00"
    = Return (st', ("success", "Payment simulated successfully")) ∧
    find_result st' (pay_result_id sample_payment)
    = set_is_paid <$> find_result sample_store (pay_result_id sample_payment) ∧
    ∀ rid, rid ≠ pay_result_id sample_payment →
           find_result st' rid = find_result sample_store rid.
Proof.
  apply (simulate_payment_marks_result sample_store "pay_00000000beef" bob
           "2026-01-05T10:06:00+00:00" sample_payment).
  reflexivity.
Defined.

(** X12.  Paying needs no ownership of the result: when any user creates a
    payment for a result and simulates it, the owner of the result reads
    it back as paid. *)
Theorem pay_for_any_result st data payer uuid_hex t1 t2 owner doc :
  find_result st (pc_result_id data) = Some doc →
  r_user_id doc = u_user_id owner →
  is_Some (PRODUCTS !! pc_product_type data) →
  List.find (λ p, String.eqb (pay_payment_id p) ("pay_" +:+ hex_prefix 12 uuid_hex))
            (st_payments st) = None →
  ∃ st1 session st2,
    create_payment st data payer uuid_hex t1 = Return (st1, session) ∧
    simulate_payment st1 (ps_payment_id session) payer t2
    = Return (st2, ("success", "Payment simulated successfully")) ∧
    get_result st2 (pc_result_id data) owner = Return (set_is_paid doc).
Proof.
  intros Hdoc Howner [product Hproduct] Hfresh.
  unfold create_payment. rewrite Hproduct.
  eexists _, _, _. split; [reflexivity|]. cbn [ps_payment_id].
  unfold simulate_payment. cbn [st_payments with_payments].
  rewrite find_snoc.
  rewrite (find_none_weaken _ _ _ (λ x Hx, proj1 (andb_prop _ _ Hx)) Hfresh).
  cbn [pay_payment_id pay_user_id]. rewrite !String.eqb_refl. cbn [andb pay_result_id].
  split; [reflexivity|].
  unfold get_result, pay_result. cbn [st_results with_results with_payments].
  rewrite (find_update_one_sub
             (λ r, String.eqb (r_result_id r) (pc_result_id data))).
  - fold (find_result st (pc_result_id data)). rewrite Hdoc.
    apply find_Some_true in Hdoc. cbn beta in Hdoc.
    by rewrite Hdoc, Howner, String.eqb_refl.
  - intros x Hx. by apply andb_true_iff in Hx as [? _].
  - done.
Qed.

Lemma pay_for_any_result_witness :
  ∃ st1 session st2,
    create_payment sample_store
      {| pc_result_id := "result_0123456789ab"; pc_product_type := "couples_pack";
         pc_currency := "USD" |}
      carol "cafe0000cafe0000cafe0000cafe0000" "2026-01-07T08:00:00+00:00"
    = Return (st1, session) ∧
    simulate_payment st1 (ps_payment_id session) carol "2026-01-07T08:01:00+00:00"
    = Return (st2, ("success", "Payment simulated successfully")) ∧
    get_result st2 "result_0123456789ab" alice = Return (set_is_paid sample_result).
Proof.
  apply (pay_for_any_result sample_store
           {| pc_result_id := "result_0123456789ab"; pc_product_type := "couples_pack";
              pc_currency := "USD" |}
           carol "cafe0000cafe0000cafe0000cafe0000" "2026-01-07T08:00:00+00:00"
           "2026-01-07T08:01:00+00:00" alice sample_result).
  - reflexivity.
  - reflexivity.
  - eexists. vm_compute. reflexivity.
  - reflexivity.
Defined.

Lemma find_ext {A : Type} (p q : A → bool) (l : list A) :
  (∀ x, p x = q x) → List.find p l = List.find q l.
Proof. intros H. induction l as [|y l IH]; simpl; [done|]. by rewrite H, IH. Qed.

Lemma update_one_ext {A : Type} (p q : A → bool) (f : A → A) (l : list A) :
  (∀ x, p x = q x) → update_one p f l = update_one q f l.
Proof. intros H. induction l as [|y l IH]; simpl; [done|]. by rewrite H, IH. Qed.



(** X14.  A [PAID] webhook for a payment has the effect on the store that
    [simulate_payment] by the owner of the payment has. *)
Theorem webhook_acts_as_simulate_payment webhook_token st payment_id user now payment :
  List.find (λ p, String.eqb (pay_payment_id p) payment_id) (st_payments st)
  = Some payment →
  pay_user_id payment = u_user_id user →
  ∃ st',
    simulate_payment st payment_id user now
    = Return (st', ("success", "Payment simulated successfully")) ∧
    payment_webhook webhook_token st (Some webhook_token) (Some payment_id)
      (Some "PAID") now
    = Return (st', "received").
Proof.
  intros Hfind Huser.
  assert (Hbool : ∀ p : PaymentDoc,
            bool_decide (Some (pay_payment_id p) = Some payment_id)
            = String.eqb (pay_payment_id p) payment_id).
  { intros p. destruct (String.eqb_spec (pay_payment_id p) payment_id) as [->|Hne].
    - by rewrite bool_decide_eq_true_2.
    - rewrite bool_decide_eq_false_2; [done|]. congruence. }
  assert (Hmine : List.find (λ p, (String.eqb (pay_payment_id p) payment_id
                                   && String.eqb (pay_user_id p) (u_user_id user))%bool)
                            (st_payments st) = Some payment).
  { revert Hfind. induction (st_payments st) as [|y l IH]; simpl; [done|].
    destruct (String.eqb (pay_payment_id y) payment_id); [|done].
    intros [= ->]. by rewrite Huser, String.eqb_refl. }
  unfold simulate_payment, payment_webhook. rewrite Hmine.
  rewrite !bool_decide_eq_true_2 by done. cbn [negb].
  eexists. split; [reflexivity|].
  cbn [st_payments with_payments].
  rewrite (update_one_ext _ _ _ _ Hbool), (find_ext _ _ _ Hbool).
  rewrite (find_update_one_same _ (mark_paid now)) by done.
  by rewrite Hfind.
Qed.

Lemma webhook_acts_as_simulate_payment_witness :
  ∃ st',
    simulate_payment sample_store "pay_00000000beef" bob "2026-01-05T10:06:00+00:00"
    = Return (st', ("success", "Payment simulated successfully")) ∧
    payment_webhook "token-1" sample_store (Some "token-1") (Some "pay_00000000beef")
      (Some "PAID") "2026-01-05T10:06:00+00:00"
    = Return (st', "received").
Proof.
  apply (webhook_acts_as_simulate_payment "token-1" sample_store "pay_00000000beef" bob
           "2026-01-05T10:06:00+00:00" sample_payment); reflexivity.
Defined.

(** ** Couples packs *)

Lemma update_one_update_one {A : Type} (p : A → bool) (f g : A → A) (l : list A) :
  (∀ x, p (f x) = p x) →
  update_one p g (update_one p f l) = update_one p (λ x, g (f x)) l.
Proof.
  intros Hp. induction l as [|y l IH]; simpl; [done|].
  destruct (p y) eqn:Hy; simpl.
  - by rewrite Hp, Hy.
  - by rewrite Hy, IH.
Qed.



Lemma find_couples_pack_update st pack_id f :
  (∀ p, cp_pack_id (f p) = cp_pack_id p) →
  find_couples_pack (update_couples_pack st pack_id f) pack_id
  = f <$> find_couples_pack st pack_id.
Proof.
  intros Hf. unfold find_couples_pack, update_couples_pack.
  cbn [st_couples_packs with_couples_packs].
  apply find_update_one_same. intros x. by rewrite Hf.
Qed.



Lemma link_result_to_pack_inv st pack_id result_id user st' answer :
  link_result_to_pack st pack_id result_id user = Return (st', answer) →
  ∃ pack update_field,
    find_couples_pack st pack_id = Some pack ∧
    is_Some (List.find (λ r, (String.eqb (r_result_id r) result_id
                              && String.eqb (r_user_id r) (u_user_id user))%bool)
                       (st_results st)) ∧
    ((cp_creator_id pack = u_user_id user ∧ update_field = set_creator_result result_id) ∨
     (cp_creator_id pack ≠ u_user_id user ∧ cp_partner_id pack = Some (u_user_id user) ∧
      update_field = set_partner_result result_id)) ∧
    st' = update_couples_pack st pack_id (λ p, complete_if_linked (update_field p)) ∧
    answer = ("linked", result_id).
Proof.
  unfold link_result_to_pack.
  destruct (find_couples_pack st pack_id) as [pack|] eqn:Hpack; [|done].
  unfold get_result. destruct (List.find _ (st_results st)) as [doc|] eqn:Hdoc; [|done].
  assert (Hfinish : ∀ f, (∀ p, cp_pack_id (f p) = cp_pack_id p) →
            match find_couples_pack (update_couples_pack st pack_id f) pack_id with
            | Some updated_pack =>
                if (truthy_opt (cp_creator_result_id updated_pack)
                    && truthy_opt (cp_partner_result_id updated_pack))%bool
                then update_couples_pack (update_couples_pack st pack_id f) pack_id
                       (set_couples_status "complete")
                else update_couples_pack st pack_id f
            | None => update_couples_pack st pack_id f
            end
            = update_couples_pack st pack_id (λ p, complete_if_linked (f p))).
  { intros f Hf. rewrite find_couples_pack_update, Hpack by done. cbn [fmap option_fmap option_map].
    unfold update_couples_pack. cbn [st_couples_packs with_couples_packs].
    fold (both_linked (f pack)).
    destruct (both_linked (f pack)) eqn:Hboth.
    - rewrite update_one_update_one by (intros x; by rewrite Hf).
      f_equal. clear -Hpack Hboth. unfold find_couples_pack in Hpack.
      induction (st_couples_packs st) as [|y l IH]; simpl in *; [done|].
      destruct (String.eqb (cp_pack_id y) pack_id); [|by rewrite IH].
      injection Hpack as ->. unfold complete_if_linked. by rewrite Hboth.
    - f_equal. clear -Hpack Hboth. unfold find_couples_pack in Hpack.
      induction (st_couples_packs st) as [|y l IH]; simpl in *; [done|].
      destruct (String.eqb (cp_pack_id y) pack_id); [|by rewrite IH].
      injection Hpack as ->. unfold complete_if_linked. by rewrite Hboth. }
  destruct (String.eqb_spec (cp_creator_id pack) (u_user_id user)) as [Hc|Hc].
  - cbn [mbind py_bind]. rewrite Hfinish by done. intros [= <- <-].
    exists pack, (set_creator_result result_id). eauto 10.
  - destruct (decide (cp_partner_id pack = Some (u_user_id user))) as [Hp|Hp].
    + rewrite bool_decide_eq_true_2 by done. cbn [mbind py_bind].
      rewrite Hfinish by done. intros [= <- <-].
      exists pack, (set_partner_result result_id). split; [done|]. split; [eauto|].
      split; [right; eauto|done].
    + rewrite bool_decide_eq_false_2 by done. done.
Qed.

(** X16.  A successful [link_result_to_pack] records the result for the
    side the user is on, creator or partner, and marks the pack complete
    exactly when both sides then have a result; otherwise the status stays
    as it was. *)
Theorem link_completes_when_both_linked st pack_id result_id user st' answer :
  link_result_to_pack st pack_id result_id user = Return (st', answer) →
  ∃ pack pack',
    find_couples_pack st pack_id = Some pack ∧
    find_couples_pack st' pack_id = Some pack' ∧
    (if String.eqb (cp_creator_id pack) (u_user_id user)
     then cp_creator_result_id pack' = Some result_id ∧
          cp_partner_result_id pack' = cp_partner_result_id pack
     else cp_partner_id pack = Some (u_user_id user) ∧
          cp_partner_result_id pack' = Some result_id ∧
          cp_creator_result_id pack' = cp_creator_result_id pack) ∧
    cp_status pack' = (if both_linked pack' then "complete" else cp_status pack).
Proof.
  intros Hlink.
  destruct (link_result_to_pack_inv _ _ _ _ _ _ Hlink)
    as (pack & f & Hpack & _ & Hside & -> & _).
  exists pack, (complete_if_linked (f pack)). split; [done|].
  split.
  { rewrite find_couples_pack_update, Hpack; [done|].
    intros p. unfold complete_if_linked.
    destruct Hside as [[_ ->]|(_ & _ & ->)]; by destruct (both_linked _). }
  assert (Hfields : ∀ p, cp_creator_result_id (complete_if_linked p) = cp_creator_result_id p
                         ∧ cp_partner_result_id (complete_if_linked p) = cp_partner_result_id p
                         ∧ both_linked (complete_if_linked p) = both_linked p).
  { intros p. unfold complete_if_linked. by destruct (both_linked p) eqn:Hb. }
  destruct (Hfields (f pack)) as (Hc & Hp & Hb). rewrite Hc, Hp, Hb.
  split.
  - destruct Hside as [[Hcreator ->]|(Hcreator & Hpartner & ->)].
    + by rewrite Hcreator, String.eqb_refl.
    + by apply String.eqb_neq in Hcreator as ->.
  - unfold complete_if_linked.
    destruct (both_linked (f pack)) eqn:Hboth; [done|].
    by destruct Hside as [[_ ->]|(_ & _ & ->)].
Qed.





Lemma link_completes_when_both_linked_witness :
  ∃ st' answer pack pack',
    link_result_to_pack couples_store "couple_c0ffee00c0ff" "result_0123456789ab" alice
    = Return (st', answer) ∧
    find_couples_pack couples_store "couple_c0ffee00c0ff" = Some pack ∧
    find_couples_pack st' "couple_c0ffee00c0ff" = Some pack' ∧
    cp_creator_result_id pack' = Some "result_0123456789ab" ∧
    cp_status pack' = "pending_partner".
Proof.
  eexists _, _.
  assert (Hlink : link_result_to_pack couples_store "couple_c0ffee00c0ff"
                    "result_0123456789ab" alice = Return (_, _))
    by (vm_compute; reflexivity).
  destruct (link_completes_when_both_linked _ _ _ _ _ _ Hlink)
    as (pack & pack' & Hp & Hp' & Hside & Hstatus).
  exists pack, pack'. split; [exact Hlink|]. split; [done|]. split; [done|].
  assert (Hp0 := Hp). vm_compute in Hp0. injection Hp0 as <-.
  cbn in Hside. destruct Hside as [Hc Hpr]. split; [done|].
  rewrite Hstatus. unfold both_linked. rewrite Hc, Hpr. reflexivity.
Defined.

(** ** Team packs *)

Lemma find_team_pack_update st pack_id f :
  (∀ p, tp_pack_id (f p) = tp_pack_id p) →
  List.find (λ p, String.eqb (tp_pack_id p) pack_id)
            (update_one (λ p, String.eqb (tp_pack_id p) pack_id) f (st_team_packs st))
  = f <$> find_team_pack st pack_id.
Proof. intros Hf. apply find_update_one_same. intros x. by rewrite Hf. Qed.







Lemma existsb_filter_negb {A : Type} (p : A → bool) (l : list A) :
  existsb p (List.filter (λ x, negb (p x)) l) = false.
Proof.
  induction l as [|y l IH]; simpl; [done|].
  destruct (p y) eqn:Hy; simpl; by rewrite ?Hy, ?IH.
Qed.

(** X20.  A member who is not the owner can leave: every entry of the user
    is removed from the members, the other entries stay in their order,
    and the user can no longer read the pack. *)
Theorem leave_removes_member st pack_id user st' answer :
  leave_team_pack st pack_id user = Return (st', answer) →
  ∃ pack pack',
    find_team_pack st pack_id = Some pack ∧
    find_team_pack st' pack_id = Some pack' ∧
    tp_owner_id pack ≠ u_user_id user ∧
    tp_members pack'
    = List.filter (λ m, negb (String.eqb (m_user_id m) (u_user_id user))) (tp_members pack) ∧
    is_member (u_user_id user) pack' = false ∧
    get_team_pack st' pack_id user
    = Raise (HTTPException 403 "Not a member of this pack").
Proof.
  unfold leave_team_pack.
  destruct (find_team_pack st pack_id) as [pack|] eqn:Hpack; [|done].
  destruct (String.eqb_spec (tp_owner_id pack) (u_user_id user)) as [|Howner]; [done|].
  intros [= <- _].
  set (f := λ p, set_members
                   (List.filter (λ m, negb (String.eqb (m_user_id m) (u_user_id user)))
                                (tp_members p)) p).
  assert (Hfind : find_team_pack
                    (with_team_packs st
                       (update_one (λ p, String.eqb (tp_pack_id p) pack_id) f
                                   (st_team_packs st))) pack_id = Some (f pack)).
  { unfold find_team_pack at 1. cbn [st_team_packs with_team_packs].
    by rewrite find_team_pack_update, Hpack. }
  assert (Hgone : is_member (u_user_id user) (f pack) = false).
  { unfold is_member, f. cbn [set_members tp_members].
    apply (existsb_filter_negb (λ m, String.eqb (m_user_id m) (u_user_id user))). }
  exists pack, (f pack). split; [done|]. split; [done|]. split; [done|].
  split; [done|]. split; [done|].
  unfold get_team_pack. by rewrite Hfind, Hgone.
Qed.

Lemma leave_removes_member_witness :
  ∃ st1 st',
    join_team_via_link team_store "pack_7ea700000000" bob "2026-01-09T10:00:00+00:00"
    = Return (st1, ("joined", "pack_7ea700000000")) ∧
    leave_team_pack st1 "pack_7ea700000000" bob = Return (st', ("left", "pack_7ea700000000")) ∧
    get_team_pack st' "pack_7ea700000000" bob
    = Raise (HTTPException 403 "Not a member of this pack").
Proof.
  assert (Hjoin : join_team_via_link team_store "pack_7ea700000000" bob
                    "2026-01-09T10:00:00+00:00" = Return (_, _))
    by (vm_compute; reflexivity).
  eexists _, _. split; [exact Hjoin|].
  lazymatch type of Hjoin with
  | _ = Return (?S, _) =>
      eassert (Hleave : leave_team_pack S "pack_7ea700000000" bob = Return (_, _))
        by (vm_compute; reflexivity)
  end.
  split; [exact Hleave|].
  destruct (leave_removes_member _ _ _ _ _ Hleave) as (? & ? & _ & _ & _ & _ & _ & H).
  exact H.
Defined.

(** The counts of a dict in the order of [initial_scores], after one more
    key [k] has been counted. *)
Lemma tally_count k a b c d :
  (if dict_contains (tally a b c d) k then dict_incr (tally a b c d) k else tally a b c d)
  = tally (a + (if decide (k = "driver") then 1 else 0))
          (b + (if decide (k = "spark") then 1 else 0))
          (c + (if decide (k = "anchor") then 1 else 0))
          (d + (if decide (k = "analyst") then 1 else 0)).
Proof.
  assert (He : ∀ x, String.eqb x k = bool_decide (k = x)).
  { intros x. destruct (String.eqb_spec x k) as [->|Hne].
    - by rewrite bool_decide_eq_true_2.
    - by rewrite bool_decide_eq_false_2. }
  unfold tally, dict_contains, dict_incr. cbn [existsb List.map fst snd].
  rewrite !He.
  repeat case_bool_decide; repeat case_decide; simpl;
    try congruence; by rewrite ?Z.add_0_r.
Qed.

Lemma member_has_primary_result st a m :
  member_has_primary st a m ↔
  ∃ doc, (member_result st m).2 = Some doc ∧ primary_archetype (r_result doc) = a.
Proof.
  unfold member_has_primary, member_result, truthy_opt, truthy. cbn [snd].
  destruct (m_result_id m) as [rid|]; cbn [default from_option id].
  - destruct (String.eqb_spec rid "") as [->|Hne]; cbn [negb].
    + split; [by intros (? & ? & [= <-] & Hn & _)|by intros (? & [=] & _)].
    + split.
      * intros (? & doc & [= <-] & _ & Hdoc & Hp). by exists doc.
      * intros (doc & Hdoc & Hp). by exists rid, doc.
  - split; [by intros (? & ? & [=] & _)|by intros (? & [=] & _)].
Qed.

Lemma heatmap_step_tally st a b c d m :
  heatmap_step (tally a b c d) (member_result st m)
  = tally (a + (if decide (member_has_primary st "driver" m) then 1 else 0))
          (b + (if decide (member_has_primary st "spark" m) then 1 else 0))
          (c + (if decide (member_has_primary st "anchor" m) then 1 else 0))
          (d + (if decide (member_has_primary st "analyst" m) then 1 else 0)).
Proof.
  unfold heatmap_step.
  assert (Hd : ∀ k, (if decide (member_has_primary st k m) then 1 else 0)
                    = match (member_result st m).2 with
                      | Some doc => if decide (primary_archetype (r_result doc) = k)
                                    then 1 else 0
                      | None => 0
                      end).
  { intros k. destruct (member_result st m).2 as [doc|] eqn:Hmr.
    - destruct (decide (primary_archetype (r_result doc) = k)) as [Hk|Hk].
      + rewrite decide_True; [done|]. apply member_has_primary_result.
        exists doc. by rewrite Hmr.
      + rewrite decide_False; [done|].
        intros (doc' & Hdoc & ?)%member_has_primary_result.
        rewrite Hmr in Hdoc. by injection Hdoc as <-.
    - rewrite decide_False; [done|].
      intros (doc' & Hdoc & _)%member_has_primary_result.
      by rewrite Hmr in Hdoc. }
  rewrite !Hd. destruct (member_result st m).2 as [doc|].
  - apply tally_count.
  - by rewrite !Z.add_0_r.
Qed.

Lemma heatmap_fold st members a b c d :
  fold_left heatmap_step (List.map (member_result st) members) (tally a b c d)
  = tally (a + Z.of_nat (length (filter (member_has_primary st "driver") members)))
          (b + Z.of_nat (length (filter (member_has_primary st "spark") members)))
          (c + Z.of_nat (length (filter (member_has_primary st "anchor") members)))
          (d + Z.of_nat (length (filter (member_has_primary st "analyst") members))).
Proof.
  revert a b c d. induction members as [|m members IH]; intros a b c d.
  - simpl. by rewrite !Z.add_0_r.
  - assert (Hcons : ∀ k,
              Z.of_nat (length (filter (member_has_primary st k) (m :: members)))
              = (if decide (member_has_primary st k m) then 1 else 0)
                + Z.of_nat (length (filter (member_has_primary st k) members))).
    { intros k. rewrite filter_cons. case_decide; simpl length; lia. }
    cbn [List.map fold_left]. rewrite heatmap_step_tally, IH, !Hcons.
    by rewrite !Z.add_assoc.
Qed.

Lemma float_times_returns x n : ∃ y, float_times x n = Return y.
Proof.
  unfold float_times. destruct (Z.leb_spec 0 (fexp x)); apply truediv_returns; [done|].
  apply Z.pow_nonzero; [done|]. lia.
Qed.

(** X21.  The team heatmap counts, for each archetype, the members whose
    linked result exists and has that archetype as primary; only members
    of the pack get it. *)
Theorem team_heatmap_counts_primaries st pack_id user v :
  get_team_pack st pack_id user = Return v →
  ∃ pack,
    find_team_pack st pack_id = Some pack ∧ tv_pack v = pack ∧
    is_member (u_user_id user) pack = true ∧
    tv_heatmap v
    = [("driver", members_with_primary st "driver" pack);
       ("spark", members_with_primary st "spark" pack);
       ("anchor", members_with_primary st "anchor" pack);
       ("analyst", members_with_primary st "analyst" pack)].
Proof.
  unfold get_team_pack.
  destruct (find_team_pack st pack_id) as [pack|]; [|done].
  destruct (is_member (u_user_id user) pack) eqn:Hmember; [|done]. cbn [negb].
  destruct (truediv _ _) as [q|]; [|done]. cbn [mbind py_bind].
  destruct (float_times q 100) as [rate|]; [|done]. cbn [mbind py_bind].
  intros [= <-]. exists pack. cbn [tv_pack tv_heatmap]. split; [done|].
  split; [done|]. split; [done|].
  change initial_scores with (tally 0 0 0 0). by rewrite heatmap_fold.
Qed.

(** X22.  [get_team_pack] fails only with 404, for an unknown pack, or 403,
    for a user who is not a member: the completion rate is never a
    division by zero, because a pack that has a member to ask for it is
    not empty. *)
Theorem get_team_pack_errors st pack_id user e :
  get_team_pack st pack_id user = Raise e ↔
  (find_team_pack st pack_id = None ∧ e = HTTPException 404 "Pack not found") ∨
  (∃ pack, find_team_pack st pack_id = Some pack ∧
           is_member (u_user_id user) pack = false ∧
           e = HTTPException 403 "Not a member of this pack").
Proof.
  unfold get_team_pack.
  destruct (find_team_pack st pack_id) as [pack|].
  - destruct (is_member (u_user_id user) pack) eqn:Hmember; cbn [negb].
    + assert (Hlen : Z.of_nat (length (List.map (member_result st) (tp_members pack))) ≠ 0).
      { unfold is_member in Hmember. destruct (tp_members pack); [done|]. simpl. lia. }
      destruct (truediv_returns
                  (Z.of_nat (length (List.filter (λ mr, bool_decide (is_Some mr.2))
                                       (List.map (member_result st) (tp_members pack)))))
                  _ Hlen) as [q ->].
      cbn [mbind py_bind]. destruct (float_times_returns q 100) as [rate ->].
      cbn [mbind py_bind]. split; [done|].
      intros [[[=] _]|(pack' & [= <-] & ? & _)]. congruence.
    + rewrite Raise_eq_iff. split.
      * intros <-. right. eauto.
      * by intros [[[=] _]|(pack' & _ & _ & ->)].
  - rewrite Raise_eq_iff. split.
    + intros <-. by left.
    + by intros [[_ ->]|(pack' & [=] & _)].
Qed.

Lemma team_heatmap_counts_primaries_witness :
  ∃ st1 v,
    link_result_to_team team_store "pack_7ea700000000" "result_0123456789ab" alice
    = Return (st1, ("linked", "result_0123456789ab")) ∧
    get_team_pack st1 "pack_7ea700000000" alice = Return v ∧
    tv_heatmap v = [("driver", 0); ("spark", 1); ("anchor", 0); ("analyst", 0)].
Proof.
  assert (Hlink : link_result_to_team team_store "pack_7ea700000000"
                    "result_0123456789ab" alice = Return (_, _))
    by (vm_compute; reflexivity).
  eexists _, _. split; [exact Hlink|].
  lazymatch type of Hlink with
  | _ = Return (?S, _) =>
      eassert (Hget : get_team_pack S "pack_7ea700000000" alice = Return _)
        by (vm_compute; reflexivity)
  end.
  split; [exact Hget|].
  destruct (team_heatmap_counts_primaries _ _ _ _ Hget) as (pack & Hpack & _ & _ & ->).
  vm_compute in Hpack. injection Hpack as <-. vm_compute. reflexivity.
Defined.

Lemma get_team_pack_errors_witness :
  get_team_pack team_store "pack_7ea700000000" bob
  = Raise (HTTPException 403 "Not a member of this pack").
Proof.
  apply (get_team_pack_errors team_store "pack_7ea700000000" bob).
  right. eexists. split; [vm_compute; reflexivity|]. split; reflexivity.
Defined.

(** [n / n] is 1.0 for every positive int. *)
Lemma truediv_same n : 0 < n → truediv n n = Return (Float (2 ^ 52) (-52)).
Proof.
  intros Hn. unfold truediv.
  destruct (Z.eqb_spec n 0); [lia|].
  replace (53 - Z.log2 n + Z.log2 n) with 53 by lia.
  assert (Hnum : ∀ s, 0 ≤ s → scaled_num n s = n * 2 ^ s).
  { intros s Hs. unfold scaled_num. by apply Z.leb_le in Hs as ->. }
  assert (Hden : ∀ s, 0 ≤ s → scaled_den n s = n).
  { intros s Hs. unfold scaled_den. by apply Z.leb_le in Hs as ->. }
  rewrite (Hnum 53), (Hden 53) by lia.
  rewrite (Z.mul_comm n), Z.div_mul by done.
  rewrite Z.ltb_irrefl.
  replace (Z.min (53 - 1) 1074) with 52 by lia.
  rewrite (Hnum 52), (Hden 52) by lia.
  unfold rne_div. rewrite (Z.mul_comm n), Z.div_mul, Z.mod_mul by done.
  assert ((2 * 0 <? n) = true) as -> by (apply Z.ltb_lt; lia).
  reflexivity.
Qed.

(** X23.  The completion rate of a pack is 0.0 when no member has a linked
    result on file and exactly 100.0 when every member has one. *)
Theorem completion_rate_extremes st pack_id user v :
  get_team_pack st pack_id user = Return v →
  (Forall (λ mr, mr.2 = None) (tv_members_with_results v) →
   tv_completion_rate v = float_zero) ∧
  (Forall (λ mr, is_Some mr.2) (tv_members_with_results v) →
   tv_completion_rate v = decimal 100 0).
Proof.
  unfold get_team_pack.
  destruct (find_team_pack st pack_id) as [pack|]; [|done].
  destruct (is_member (u_user_id user) pack) eqn:Hmember; [|done]. cbn [negb].
  set (mrs := List.map (member_result st) (tp_members pack)).
  assert (Hlen : 0 < Z.of_nat (length mrs)).
  { unfold mrs, is_member in *. destruct (tp_members pack); [done|]. simpl. lia. }
  intros Hget. split; intros Hall.
  - assert (Hnone : List.filter (λ mr : TeamMember * option ResultDoc,
                                   bool_decide (is_Some mr.2)) mrs = []).
    { destruct (truediv _ _) as [q|]; [|done]. cbn [mbind py_bind] in Hget.
      destruct (float_times q 100); [|done]. cbn [mbind py_bind] in Hget.
      injection Hget as <-. cbn [tv_members_with_results] in Hall. fold mrs in Hall.
      clear -Hall. induction Hall as [|mr l Hmr Hl IH]; simpl; [done|].
      rewrite Hmr. rewrite bool_decide_eq_false_2 by (by intros [? ?]). done. }
    rewrite Hnone in Hget. cbn [length] in Hget.
    unfold truediv in Hget at 1.
    destruct (Z.eqb_spec (Z.of_nat (length mrs)) 0); [lia|].
    cbn in Hget. by injection Hget as <-.
  - assert (Hall' : List.filter (λ mr : TeamMember * option ResultDoc,
                                   bool_decide (is_Some mr.2)) mrs = mrs).
    { destruct (truediv _ _) as [q|]; [|done]. cbn [mbind py_bind] in Hget.
      destruct (float_times q 100); [|done]. cbn [mbind py_bind] in Hget.
      injection Hget as <-. cbn [tv_members_with_results] in Hall. fold mrs in Hall.
      clear -Hall. induction Hall as [|mr l Hmr Hl IH]; simpl; [done|].
      rewrite bool_decide_eq_true_2 by done. by rewrite IH. }
    rewrite Hall', truediv_same in Hget by done.
    cbn [mbind py_bind] in Hget.
    assert (Htimes : float_times (Float (2 ^ 52) (-52)) 100 = Return (decimal 100 0))
      by (vm_compute; reflexivity).
    rewrite Htimes in Hget. cbn [mbind py_bind] in Hget. by injection Hget as <-.
Qed.

Lemma completion_rate_extremes_witness :
  ∃ v, get_team_pack team_store "pack_7ea700000000" alice = Return v ∧
       tv_completion_rate v = float_zero.
Proof.
  eassert (Hget : get_team_pack team_store "pack_7ea700000000" alice = Return _)
    by (vm_compute; reflexivity).
  eexists. split; [exact Hget|].
  apply (proj1 (completion_rate_extremes _ _ _ _ Hget)).
  repeat constructor.
Defined.

(** ** The seven-day challenge *)

Lemma on_track_advance k c day reflection now now' :
  on_track_at k c → ch_status c = "active" → day = ch_current_day c →
  on_track_at (k + 1) (advance_challenge c day reflection now now') ∧ day = k + 1 ∧ k < 7.
Proof.
  intros (Hk & Hdays & Hcur & Hstatus & Hbadges & Hcontent) Hactive ->.
  assert (Hk7 : k < 7).
  { destruct (Z.eqb_spec k 7) as [->|?]; [|lia]. rewrite Hactive in Hstatus. done. }
  assert (Hcases : k = 0 ∨ k = 1 ∨ k = 2 ∨ k = 3 ∨ k = 4 ∨ k = 5 ∨ k = 6) by lia.
  split; [|split; [lia|done]].
  unfold on_track_at, advance_challenge.
  cbn [ch_completed_days ch_current_day ch_status ch_badges_earned ch_content_unlocked].
  rewrite Hdays, Hcur, Hbadges, Hcontent.
  destruct Hcases as [->|[->|[->|[->|[->|[->| ->]]]]]];
    (split; [lia|]); repeat split; reflexivity.
Qed.

Lemma complete_challenge_day_inv st challenge_id day reflection user now now' st' answer :
  complete_challenge_day st challenge_id day reflection user now now' = Return (st', answer) →
  ∃ challenge,
    find_challenge st challenge_id (u_user_id user) = Some challenge ∧
    ch_status challenge = "active" ∧
    ((int_in day (ch_completed_days challenge) = true ∧ st' = st ∧
      answer = AlreadyCompleted day) ∨
     (int_in day (ch_completed_days challenge) = false ∧
      day = ch_current_day challenge ∧
      ∃ f, (∀ c, ch_challenge_id (f c) = ch_challenge_id c
                 ∧ ch_status (f c) = ch_status (advance_challenge challenge day reflection now now')
                 ∧ ch_current_day (f c)
                   = ch_current_day (advance_challenge challenge day reflection now now')
                 ∧ ch_completed_days (f c)
                   = ch_completed_days (advance_challenge challenge day reflection now now')
                 ∧ ch_badges_earned (f c)
                   = ch_badges_earned (advance_challenge challenge day reflection now now')
                 ∧ ch_content_unlocked (f c)
                   = ch_content_unlocked (advance_challenge challenge day reflection now now')) ∧
           st' = with_challenges st
                   (update_one (λ c, String.eqb (ch_challenge_id c) challenge_id) f
                               (st_challenges st)))).
Proof.
  unfold complete_challenge_day.
  destruct (find_challenge st challenge_id (u_user_id user)) as [challenge|]; [|done].
  destruct (String.eqb_spec (ch_status challenge) "active") as [Hactive|]; [|done].
  cbn [negb]. exists challenge. split; [done|]. split; [done|].
  destruct (int_in day (ch_completed_days challenge)) eqn:Hin.
  { injection H as <- <-. by left. }
  destruct (Z.eqb_spec day (ch_current_day challenge)) as [Hday|]; [|done].
  cbn [negb] in H. right. split; [done|]. split; [done|].
  destruct (py_map (dict_item CHALLENGE_BADGES_items) _) as [badges|]; [|by cbn in H].
  cbn in H.
  destruct (py_map _ _) as [content|]; [|by cbn in H]. cbn in H.
  injection H as <- _. eexists. split; [|reflexivity].
  intros c. cbn. done.
Qed.

(** X24.  [complete_challenge_day] keeps every challenge on track: the
    completed days are always 1 to k in order for some k up to seven, the
    badges and the unlocked content are those of k days, and the challenge
    is completed exactly when k is seven. *)
Theorem challenges_stay_on_track st challenge_id day reflection user now now' st' answer :
  Forall on_track (st_challenges st) →
  complete_challenge_day st challenge_id day reflection user now now' = Return (st', answer) →
  Forall on_track (st_challenges st').
Proof.
  intros Hok Hday.
  destruct (complete_challenge_day_inv _ _ _ _ _ _ _ _ _ Hday)
    as (challenge & Hfind & Hactive & [(_ & -> & _)|(_ & Hcur & f & Hf & ->)]); [done|].
  cbn [st_challenges with_challenges].
  apply Forall_update_one; [|done]. intros c _ _.
  assert (Hchallenge : on_track challenge).
  { rewrite Forall_forall in Hok. apply Hok. by eapply find_Some_elem_of. }
  destruct Hchallenge as [k Hk].
  destruct (on_track_advance k challenge day reflection now now' Hk Hactive Hcur)
    as ((Hk' & Hdays & Hc & Hs & Hb & Hco) & _).
  exists (k + 1). destruct (Hf c) as (_ & Es & Ec & Ed & Eb & Eco).
  unfold on_track_at. by rewrite Es, Ec, Ed, Eb, Eco.
Qed.

Lemma challenges_stay_on_track_witness :
  ∃ st' answer,
    complete_challenge_day challenge_store "chal_000000000001" 1 "calm" alice "2026-01-01" "2026-01-02"
      = Return (st', answer) ∧
    Forall on_track (st_challenges st').
Proof.
  eassert (Hday : complete_challenge_day challenge_store "chal_000000000001" 1 "calm" alice
                    "2026-01-01" "2026-01-02" = Return (_, _)) by (vm_compute; reflexivity).
  eexists _, _. split; [exact Hday|].
  assert (Hok : Forall on_track (st_challenges challenge_store))
    by (repeat constructor; exists 0; repeat split; (lia || reflexivity)).
  apply (challenges_stay_on_track _ _ _ _ _ _ _ _ _ Hok Hday).
Defined.

Lemma on_track_length k c :
  on_track_at k c → Z.of_nat (length (ch_completed_days c)) = k.
Proof. intros (Hk & -> & _). rewrite length_seqZ. lia. Qed.

Lemma int_in_seqZ day k : int_in day (seqZ 1 k) = true ↔ 1 ≤ day ≤ k.
Proof.
  unfold int_in. rewrite existsb_exists. split.
  - intros (x & Hx%list_elem_of_In%elem_of_seqZ & ->%Z.eqb_eq). lia.
  - intros Hday. exists day. split; [|apply Z.eqb_refl].
    apply list_elem_of_In, elem_of_seqZ. lia.
Qed.

(** X25.  Days are completed in order.  On a store of challenges on track,
    a call that returns is for a challenge with n < 7 completed days and
    either repeats one of the days 1 to n, which changes nothing, or
    completes day n + 1: it then awards a badge exactly on days 1, 3, 5
    and 7, unlocks content exactly on days 3, 5 and 7, and reports the
    challenge complete exactly on day 7 and day + 1 as next day before. *)
Theorem days_completed_in_order st challenge_id day reflection user now now' st' answer :
  Forall on_track (st_challenges st) →
  complete_challenge_day st challenge_id day reflection user now now' = Return (st', answer) →
  ∃ challenge,
    find_challenge st challenge_id (u_user_id user) = Some challenge ∧
    Z.of_nat (length (ch_completed_days challenge)) < 7 ∧
    ((1 ≤ day ≤ Z.of_nat (length (ch_completed_days challenge)) ∧ st' = st ∧
      answer = AlreadyCompleted day) ∨
     (day = Z.of_nat (length (ch_completed_days challenge)) + 1 ∧
      ∃ badges content,
        answer = DayCompleted day badges content (bool_decide (day = 7))
                   (if bool_decide (day = 7) then None else Some (day + 1)) ∧
        py_map (dict_item CHALLENGE_BADGES_items) (badges_awarded_on day) = Return badges ∧
        content.*1 = content_unlocked_on day)).
Proof.
  intros Hok Hday. unfold complete_challenge_day in Hday.
  destruct (find_challenge st challenge_id (u_user_id user)) as [challenge|] eqn:Hfind;
    [|done].
  assert (Hchallenge : on_track challenge).
  { rewrite Forall_forall in Hok. apply Hok. by eapply find_Some_elem_of. }
  destruct Hchallenge as [k Hk]. pose proof (on_track_length _ _ Hk) as Hlen.
  destruct Hk as (Hk & Hdays & Hcur & Hstatus & Hbadges & Hcontent).
  exists challenge. split; [done|]. rewrite Hlen.
  destruct (String.eqb_spec (ch_status challenge) "active") as [Hactive|]; [|done].
  assert (Hk7 : k < 7).
  { destruct (Z.eqb_spec k 7) as [->|?]; [|lia]. rewrite Hactive in Hstatus. done. }
  split; [done|]. cbn [negb] in Hday.
  destruct (int_in day (ch_completed_days challenge)) eqn:Hin.
  { left. rewrite Hdays in Hin. apply int_in_seqZ in Hin. by injection Hday as <- <-. }
  destruct (Z.eqb_spec day (ch_current_day challenge)) as [Eday|]; [|done].
  cbn [negb] in Hday. right.
  rewrite Hcur in Eday. split; [lia|].
  match type of Hday with
  | context [with_challenges st ?l] =>
      set (st'' := with_challenges st l) in Hday; clearbody st''
  end.
  unfold advance_challenge in Hday.
  cbn [ch_status ch_current_day] in Hday.
  rewrite Hdays, Hbadges, Hcontent in Hday. subst day.
  assert (Hcases : k = 0 ∨ k = 1 ∨ k = 2 ∨ k = 3 ∨ k = 4 ∨ k = 5 ∨ k = 6) by lia.
  destruct Hcases as [->|[->|[->|[->|[->|[->| ->]]]]]];
    vm_compute in Hday; injection Hday as _ <-;
    eexists _, _; (split; [reflexivity|]); split; reflexivity.
Qed.

Lemma days_completed_in_order_witness :
  ∃ st' answer,
    complete_challenge_day challenge_store "chal_000000000001" 1 "calm" alice "2026-01-01" "2026-01-02"
      = Return (st', answer) ∧
    ∃ badges, answer = DayCompleted 1 badges [] false (Some 2).
Proof.
  eassert (Hday : complete_challenge_day challenge_store "chal_000000000001" 1 "calm" alice
                    "2026-01-01" "2026-01-02" = Return (_, _)) by (vm_compute; reflexivity).
  eexists _, _. split; [exact Hday|].
  assert (Hok : Forall on_track (st_challenges challenge_store))
    by (repeat constructor; exists 0; repeat split; (lia || reflexivity)).
  destruct (days_completed_in_order _ _ _ _ _ _ _ _ _ Hok Hday)
    as (challenge & Hfind & _ & [(_ & _ & [=])|(_ & badges & content & Hanswer & _)]).
  injection Hanswer as <- <-. by eexists.
Defined.

(** X26.  The day that is due is accepted.  On a store of challenges on
    track, for a challenge of the caller with n < 7 completed days, the
    call for day n + 1 returns a completed-day answer, whatever the
    reflection: no badge or content lookup fails. *)
Theorem due_day_is_accepted st challenge_id reflection user now now' challenge :
  Forall on_track (st_challenges st) →
  find_challenge st challenge_id (u_user_id user) = Some challenge →
  Z.of_nat (length (ch_completed_days challenge)) < 7 →
  ∃ st' badges content complete next,
    complete_challenge_day st challenge_id
      (Z.of_nat (length (ch_completed_days challenge)) + 1) reflection user now now'
    = Return (st', DayCompleted (Z.of_nat (length (ch_completed_days challenge)) + 1)
                     badges content complete next).
Proof.
  intros Hok Hfind Hn.
  assert (Hchallenge : on_track challenge).
  { rewrite Forall_forall in Hok. apply Hok. by eapply find_Some_elem_of. }
  destruct Hchallenge as [k Hk]. pose proof (on_track_length _ _ Hk) as Hlen.
  destruct Hk as (Hk & Hdays & Hcur & Hstatus & Hbadges & Hcontent).
  rewrite Hlen in *. unfold complete_challenge_day. rewrite Hfind.
  assert (Hneq : (k =? 7) = false) by (apply Z.eqb_neq; lia).
  rewrite Hneq in Hstatus. rewrite Hstatus. cbn [String.eqb Ascii.eqb Bool.eqb negb].
  assert (Hin : int_in (k + 1) (ch_completed_days challenge) = false).
  { rewrite Hdays. apply not_true_iff_false. rewrite int_in_seqZ. lia. }
  rewrite Hin, Hcur.
  assert (Hdue : (k + 1 =? Z.min (k + 1) 7) = true) by (apply Z.eqb_eq; lia).
  rewrite Hdue. cbn [negb].
  match goal with
  | |- context [with_challenges st ?l] => generalize (with_challenges st l)
  end.
  intros st''. unfold advance_challenge. cbn [ch_status ch_current_day].
  rewrite Hdays, Hbadges, Hcontent.
  assert (Hcases : k = 0 ∨ k = 1 ∨ k = 2 ∨ k = 3 ∨ k = 4 ∨ k = 5 ∨ k = 6) by lia.
  destruct Hcases as [->|[->|[->|[->|[->|[->| ->]]]]]];
    vm_compute; eexists _, _, _, _, _; reflexivity.
Qed.

Lemma due_day_is_accepted_witness :
  ∃ st' badges content complete next,
    complete_challenge_day challenge_store "chal_000000000001" 1 "" alice "2026-01-01" "2026-01-02"
    = Return (st', DayCompleted 1 badges content complete next).
Proof.
  assert (Hok : Forall on_track (st_challenges challenge_store))
    by (repeat constructor; exists 0; repeat split; (lia || reflexivity)).
  exact (due_day_is_accepted challenge_store "chal_000000000001" "" alice "2026-01-01" "2026-01-02" _
           Hok eq_refl ltac:(simpl; lia)).
Defined.

(** X27.  A finished challenge is closed.  On a store of challenges on
    track, a challenge of the caller with seven completed days rejects
    every further call, for any day, with 400 Challenge is not active;
    even a day that is already completed is not answered as such. *)
Theorem finished_challenge_is_closed st challenge_id day reflection user now now' challenge :
  Forall on_track (st_challenges st) →
  find_challenge st challenge_id (u_user_id user) = Some challenge →
  length (ch_completed_days challenge) = 7%nat →
  complete_challenge_day st challenge_id day reflection user now now'
  = Raise (HTTPException 400 "Challenge is not active").
Proof.
  intros Hok Hfind Hn.
  assert (Hchallenge : on_track challenge).
  { rewrite Forall_forall in Hok. apply Hok. by eapply find_Some_elem_of. }
  destruct Hchallenge as [k Hk]. pose proof (on_track_length _ _ Hk) as Hlen.
  destruct Hk as (Hk & Hdays & Hcur & Hstatus & Hbadges & Hcontent).
  rewrite Hn in Hlen. subst k.
  unfold complete_challenge_day. rewrite Hfind, Hstatus. reflexivity.
Qed.

Lemma finished_challenge_is_closed_witness :
  length (st_challenges finished_store) = 1%nat ∧
  complete_challenge_day finished_store "chal_000000000001" 3 "" alice "2026-01-08" "2026-01-09"
  = Raise (HTTPException 400 "Challenge is not active").
Proof.
  split; [reflexivity|].
  eassert (Hstore : st_challenges finished_store = [_]) by (vm_compute; reflexivity).
  assert (Hok : Forall on_track (st_challenges finished_store)).
  { rewrite Hstore. apply Forall_cons_2; [|apply Forall_nil_2].
    exists 7. unfold on_track_at. cbn.
    split; [lia|]. repeat split; vm_compute; reflexivity. }
  eapply (finished_challenge_is_closed finished_store _ _ _ _ _ _ _ Hok);
    vm_compute; reflexivity.
Defined.
